(** * News sentiment trader: aggregator, signal generator and portfolio ledger

    A shallow embedding of [src/sentiment_aggregator.py],
    [src/signal_generator.py] and [src/portfolio.py], with the constants of
    [src/config.py] they read.

    Number model.  A Python [float] is modelled by an exact rational ([Q]) and
    a Python [int] by [Z]; [/] is exact division, [//] followed by [int] is
    [Qfloor] of the exact quotient.  A statement about these numbers is a
    statement of exact arithmetic; equality of rationals is [==] ([Qeq]).
    Where rounding decides what the code returns, the mean of the article
    scores, the loop is also given on IEEE 754 binary64 numbers
    ([final_score_binary64]).

    String model.  A Python [str] is modelled by [string]; [str.upper] and
    [str.lower] act on the ASCII letters and leave every other byte alone. *)

From Stdlib Require Import ZArith QArith Qround Qminmax Qabs.
From Stdlib Require Import List Bool Ascii String DecimalString.
From Stdlib Require Import Permutation Sorted Lia Lqa Morphisms.
From Stdlib Require SpecFloat.
Import ListNotations.

Open Scope string_scope.
Open Scope Q_scope.

(* ================================================================== *)
(** * Python strings *)
(* ================================================================== *)

Module PyStr.

Definition is_lower (c : ascii) : bool :=
  ((97 <=? nat_of_ascii c) && (nat_of_ascii c <=? 122))%nat.

Definition is_upper (c : ascii) : bool :=
  ((65 <=? nat_of_ascii c) && (nat_of_ascii c <=? 90))%nat.

Definition upper_ascii (c : ascii) : ascii :=
  if is_lower c then ascii_of_nat (nat_of_ascii c - 32) else c.

Definition lower_ascii (c : ascii) : ascii :=
  if is_upper c then ascii_of_nat (nat_of_ascii c + 32) else c.

(** [s.upper()] *)
Fixpoint upper (s : string) : string :=
  match s with
  | EmptyString => EmptyString
  | String c r => String (upper_ascii c) (upper r)
  end.

(** [s.lower()] *)
Fixpoint lower (s : string) : string :=
  match s with
  | EmptyString => EmptyString
  | String c r => String (lower_ascii c) (lower r)
  end.

(** [sep.join(parts)] *)
Fixpoint join (sep : string) (parts : list string) : string :=
  match parts with
  | [] => ""
  | [p] => p
  | p :: rest => p ++ sep ++ join sep rest
  end.

(** [str(n)] for an [int]. *)
Definition of_int (n : Z) : string := NilZero.string_of_int (Z.to_int n).

(** Nearest integer, ties to even: the rounding of the format
    specifications below. *)
Definition round_half_even (q : Q) : Z :=
  let f := Qfloor q in
  match Qcompare (q - inject_Z f) (1 # 2) with
  | Lt => f
  | Gt => (f + 1)%Z
  | Eq => if Z.even f then f else (f + 1)%Z
  end.

(** The digits of [n], padded with zeros on the left to [width]. *)
Definition zero_pad (width : nat) (n : Z) : string :=
  let s := of_int n in
  let fix zeros (k : nat) : string :=
    match k with O => "" | S k' => String "0" (zeros k') end in
  zeros (width - String.length s)%nat ++ s.

(** [format(x, ".<d>f")] *)
Definition format_fixed (d : nat) (x : Q) : string :=
  let scale := (10 ^ Z.of_nat d)%Z in
  let m := round_half_even (Qabs x * inject_Z scale) in
  let body :=
    match d with
    | O => of_int m
    | _ => of_int (m / scale) ++ "." ++ zero_pad d (m mod scale)
    end in
  if Qlt_le_dec x 0 then "-" ++ body else body.

End PyStr.

(* ================================================================== *)
(** * config.py *)
(* ================================================================== *)

Definition INITIAL_CAPITAL : Q := 100000.
Definition MAX_TRADE_FRACTION : Q := 25 # 100.

(** [SENTIMENT_THRESHOLDS = {"buy": 0.02, "sell": -0.02}] *)
Definition SENTIMENT_THRESHOLDS_buy : Q := 2 # 100.
Definition SENTIMENT_THRESHOLDS_sell : Q := - (2 # 100).

(** [d.get(key, default)] on a key that may be absent. *)
Definition get {A : Type} (field : option A) (default : A) : A :=
  match field with
  | Some v => v
  | None => default
  end.

(* ================================================================== *)
(** * sentiment_aggregator.py *)
(* ================================================================== *)

(** One classifier result.  The aggregator reads every key with [.get], so a
    key may be absent. *)
Record ArticleSentiment : Type := mkArticle {
  a_score : option Q;
  a_label : option string;
  a_positive : option Q;
  a_negative : option Q;
  a_neutral : option Q
}.

(** The summary dict.  The signal generator reads it with [.get] as well. *)
Record SentimentSummary : Type := mkSummary {
  s_final_score : option Q;
  s_avg_positive : option Q;
  s_avg_negative : option Q;
  s_avg_neutral : option Q;
  s_article_count : option Z;
  s_bullish_ratio : option Q;
  s_bearish_ratio : option Q;
  s_neutral_ratio : option Q;
  s_sentiment_view : option string
}.

(** The accumulators of the [for res in article_results] loop. *)
Record AggAcc : Type := mkAcc {
  sum_score : Q;
  sum_pos : Q;
  sum_neg : Q;
  sum_neu : Q;
  pos_count : Z;
  neg_count : Z;
  neu_count : Z
}.

Definition acc0 : AggAcc := mkAcc 0 0 0 0 0 0 0.

(** The score an article contributes: [res.get("score", 0.0)]. *)
Definition article_score (res : ArticleSentiment) : Q := get (a_score res) 0.

Definition agg_step (acc : AggAcc) (res : ArticleSentiment) : AggAcc :=
  let score := article_score res in
  let label := PyStr.lower (get (a_label res) "") in
  mkAcc (sum_score acc + score)
        (sum_pos acc + get (a_positive res) 0)
        (sum_neg acc + get (a_negative res) 0)
        (sum_neu acc + get (a_neutral res) 0)
        (if String.eqb label "positive" then pos_count acc + 1 else pos_count acc)%Z
        (if String.eqb label "positive" then neg_count acc
         else if String.eqb label "negative" then neg_count acc + 1
         else neg_count acc)%Z
        (if String.eqb label "positive" then neu_count acc
         else if String.eqb label "negative" then neu_count acc
         else neu_count acc + 1)%Z.

Definition aggregate_article_sentiments
    (article_results : list ArticleSentiment) : option SentimentSummary :=
  match article_results with
  | [] => None
  | _ =>
    let n := Z.of_nat (List.length article_results) in
    let acc := fold_left agg_step article_results acc0 in
    let final_score := sum_score acc / inject_Z n in
    let avg_positive := sum_pos acc / inject_Z n in
    let avg_negative := sum_neg acc / inject_Z n in
    let avg_neutral := sum_neu acc / inject_Z n in
    let bullish_ratio := inject_Z (pos_count acc) / inject_Z n in
    let bearish_ratio := inject_Z (neg_count acc) / inject_Z n in
    let neutral_ratio := inject_Z (neu_count acc) / inject_Z n in
    let buy_thr := SENTIMENT_THRESHOLDS_buy in
    let sell_thr := SENTIMENT_THRESHOLDS_sell in
    let sentiment_view :=
      if Qlt_le_dec buy_thr final_score then "bullish"
      else if Qlt_le_dec final_score sell_thr then "bearish"
      else "mixed/neutral" in
    Some (mkSummary (Some final_score) (Some avg_positive) (Some avg_negative)
                    (Some avg_neutral) (Some n) (Some bullish_ratio)
                    (Some bearish_ratio) (Some neutral_ratio)
                    (Some sentiment_view))
  end.

(** [min(scores)] and [max(scores)] of a non-empty list, seeded with its
    first element. *)
Definition list_min (x : Q) (xs : list Q) : Q := fold_left Qmin xs x.
Definition list_max (x : Q) (xs : list Q) : Q := fold_left Qmax xs x.

(** The sum of a list of rationals, for stating what a loop adds up. *)
Definition Qsum (xs : list Q) : Q := fold_right Qplus 0 xs.

(* ================================================================== *)
(** * The score mean in binary64 *)
(* ================================================================== *)

(** A Python [float] is an IEEE 754 binary64 number: precision 53, largest
    exponent 1024.  The operations are those of the standard library's
    executable specification of IEEE 754, rounding to nearest, ties to
    even. *)
Module Binary64.

Definition prec : Z := 53%Z.
Definition emax : Z := 1024%Z.

Definition float : Type := SpecFloat.spec_float.

(** The float [m * 2 ^ e]. *)
Definition finite (m : positive) (e : Z) : float :=
  SpecFloat.S754_finite false m e.

(** [0.0]. *)
Definition zero : float := SpecFloat.S754_zero false.

(** [float(n)], the conversion [/] applies to an [int] operand. *)
Definition of_int (n : Z) : float :=
  SpecFloat.binary_normalize prec emax n 0%Z false.

Definition add (x y : float) : float := SpecFloat.SFadd prec emax x y.
Definition div (x y : float) : float := SpecFloat.SFdiv prec emax x y.
Definition ltb (x y : float) : bool := SpecFloat.SFltb x y.
Definition leb (x y : float) : bool := SpecFloat.SFleb x y.

(** The exact value of a finite float. *)
Definition to_Q (x : float) : Q :=
  match x with
  | SpecFloat.S754_finite s m e =>
    let v := (if s then Z.neg m else Z.pos m) in
    match e with
    | Z0 => inject_Z v
    | Zpos k => inject_Z (v * Z.pow_pos 2 k)
    | Zneg k => Qmake v (Pos.pow 2 k)
    end
  | _ => 0
  end.

End Binary64.

(** The score path of [aggregate_article_sentiments] on binary64 numbers:
    [sum_score] starts at [0.0], the loop adds the score of every article
    in turn, and [final_score] is [sum_score / n] with [n = len(...)]
    converted to a float.  [scores] holds [res.get("score", 0.0)] for each
    article, in order. *)
Definition final_score_binary64 (scores : list Binary64.float) : Binary64.float :=
  let n := Z.of_nat (List.length scores) in
  let sum_score := fold_left Binary64.add scores Binary64.zero in
  Binary64.div sum_score (Binary64.of_int n).

(** [min(scores)] and [max(scores)] on binary64 numbers: the first element
    is replaced by a later one that is strictly smaller (larger). *)
Definition list_min_binary64 (x : Binary64.float) (xs : list Binary64.float)
    : Binary64.float :=
  fold_left (fun m y => if Binary64.ltb y m then y else m) xs x.

Definition list_max_binary64 (x : Binary64.float) (xs : list Binary64.float)
    : Binary64.float :=
  fold_left (fun m y => if Binary64.ltb m y then y else m) xs x.

(* ================================================================== *)
(** * signal_generator.py *)
(* ================================================================== *)

Record TradingSignal : Type := mkSignal {
  symbol : string;
  signal : string;
  confidence : string;
  reason : string;
  final_score : Q;
  sentiment_view : string;
  article_count : Z;
  bullish_ratio : Q;
  bearish_ratio : Q
}.

Definition generate_trading_signal
    (symbol : string) (summary : SentimentSummary)
    (buy_thr sell_thr : option Q) : TradingSignal :=
  let buy_thr := get buy_thr SENTIMENT_THRESHOLDS_buy in
  let sell_thr := get sell_thr SENTIMENT_THRESHOLDS_sell in
  let final_score := get (s_final_score summary) 0 in
  let article_count := get (s_article_count summary) 0%Z in
  let bullish_ratio := get (s_bullish_ratio summary) 0 in
  let bearish_ratio := get (s_bearish_ratio summary) 0 in
  let sentiment_view := get (s_sentiment_view summary) "mixed/neutral" in
  let '(signal, confidence, reason_parts) :=
    if (article_count =? 0)%Z then
      ("HOLD", "low", ["No recent news articles available."])
    else
      let head :=
        [ PyStr.of_int article_count ++ " news articles analyzed. "
          ++ "Overall sentiment is " ++ PyStr.upper sentiment_view
          ++ " with score " ++ PyStr.format_fixed 2 final_score ++ ".";
          "Bullish articles: " ++ PyStr.format_fixed 0 (bullish_ratio * 100)
          ++ "%, " ++ "Bearish articles: "
          ++ PyStr.format_fixed 0 (bearish_ratio * 100) ++ "%." ] in
      if Qle_bool buy_thr final_score then
        ("BUY",
         if Qle_bool (buy_thr + (15 # 100)) final_score then "high" else "medium",
         (head ++ ["Overall news tone is positive, suggesting upside potential."])%list)
      else if Qle_bool final_score sell_thr then
        ("SELL",
         if Qle_bool final_score (sell_thr - (15 # 100)) then "high" else "medium",
         (head ++ ["Overall news tone is negative, indicating downside risk."])%list)
      else
        ("HOLD", "medium",
         (head ++ ["Sentiment is close to neutral. Waiting for clearer news direction."])%list)
  in
  mkSignal symbol signal confidence (PyStr.join " " reason_parts)
           final_score sentiment_view article_count bullish_ratio bearish_ratio.

(* ================================================================== *)
(** * Python dicts keyed by strings *)
(* ================================================================== *)

(** A [dict] keeps its keys in insertion order: an association list without
    duplicate keys.  [d[k] = v] replaces the value in place when [k] is
    present and appends the pair otherwise. *)
Module PyDict.
Section Dict.
Context {V : Type}.

Definition t : Type := list (string * V).

Definition empty : t := [].

(** [d.get(k)] *)
Fixpoint lookup (k : string) (d : t) : option V :=
  match d with
  | [] => None
  | (k', v) :: d' => if String.eqb k k' then Some v else lookup k d'
  end.

(** [k in d] *)
Definition mem (k : string) (d : t) : bool :=
  match lookup k d with
  | Some _ => true
  | None => false
  end.

(** [d[k] = v] *)
Fixpoint set (k : string) (v : V) (d : t) : t :=
  match d with
  | [] => [(k, v)]
  | (k', v') :: d' =>
    if String.eqb k k' then (k', v) :: d' else (k', v') :: set k v d'
  end.

(** [del d[k]] and the dict left by [d.pop(k)]: no entry for [k] stays. *)
Definition remove (k : string) (d : t) : t :=
  filter (fun kv => negb (String.eqb k (fst kv))) d.

(** [d.values()] and [d.items()] *)
Definition values (d : t) : list V := map snd d.
Definition items (d : t) : list (string * V) := d.
Definition keys (d : t) : list string := map fst d.

End Dict.
Arguments t : clear implicits.
End PyDict.

(* ================================================================== *)
(** * The trade log as pandas holds it *)
(* ================================================================== *)

(** A cell of the timestamp column after
    [pd.to_datetime(..., errors="coerce")]: an instant, or [NaT] for a cell
    that does not parse. *)
Inductive Timestamp : Type :=
| Ts (instant : Z)
| NaT.

(** A row of the trade log, columns
    timestamp, symbol, side, qty, price, value. *)
Record Trade : Type := mkTrade {
  t_timestamp : Timestamp;
  t_symbol : string;
  t_side : string;
  t_qty : Q;
  t_price : Q;
  t_value : Q
}.

Module Pandas.

(** The order of [sort_values] with its defaults: ascending, and
    [na_position="last"], so [NaT] follows every instant. *)
Definition ts_leb (a b : Timestamp) : bool :=
  match a, b with
  | Ts x, Ts y => (x <=? y)%Z
  | _, NaT => true
  | NaT, Ts _ => false
  end.

Definition ts_le (a b : Timestamp) : Prop := ts_leb a b = true.

Definition row_le (r1 r2 : Trade) : Prop :=
  ts_le (t_timestamp r1) (t_timestamp r2).

(** [r] goes in front of the first row that is not earlier than it. *)
Fixpoint insert_row (r : Trade) (sorted : list Trade) : list Trade :=
  match sorted with
  | [] => [r]
  | x :: rest =>
    if ts_leb (t_timestamp r) (t_timestamp x) then r :: x :: rest
    else x :: insert_row r rest
  end.

(** [df.sort_values("timestamp").reset_index(drop=True)]: the rows in
    ascending order of timestamp, the rows without one last and in file
    order, where pandas puts missing values.  The call leaves [kind] at its
    default, quicksort, which promises no order among rows of equal
    timestamp; this function leaves them in file order, one of the orders
    the call may return.  What is stated for every order the call may
    return is stated with [replay_with] and [sorts_by_timestamp] below. *)
Fixpoint sort_values (df : list Trade) : list Trade :=
  match df with
  | [] => []
  | r :: rest => insert_row r (sort_values rest)
  end.

End Pandas.

(* ================================================================== *)
(** * portfolio.py *)
(* ================================================================== *)

Record Position : Type := mkPosition {
  qty : Q;
  avg_cost : Q
}.

(** What [_replay_trades] returns: [(cash, positions, realized_pnl)]. *)
Record Ledger : Type := mkLedger {
  cash : Q;
  positions : PyDict.t Position;
  realized_pnl : Q
}.

Definition ledger0 : Ledger := mkLedger INITIAL_CAPITAL PyDict.empty 0.

(** The body of [for _, row in trades_sorted.iterrows()]. *)
Definition replay_row (st : Ledger) (row : Trade) : Ledger :=
  let sym := t_symbol row in
  let side := PyStr.upper (t_side row) in
  let qty := t_qty row in
  let price := t_price row in
  if String.eqb side "BUY" then
    let cost := qty * price in
    mkLedger (cash st - cost)
             (PyDict.set sym (mkPosition qty price) (positions st))
             (realized_pnl st)
  else if String.eqb side "SELL" then
    match PyDict.lookup sym (positions st) with
    | Some pos =>
      let sell_value := qty * price in
      mkLedger (cash st + sell_value)
               (PyDict.remove sym (positions st))
               (realized_pnl st + (price - avg_cost pos) * qty)
    | None => st
    end
  else st.

(** Replay with the rows in the order [sort] puts them. *)
Definition replay_with (sort : list Trade -> list Trade)
    (trades_df : list Trade) : Ledger :=
  match trades_df with
  | [] => ledger0
  | _ => fold_left replay_row (sort trades_df) ledger0
  end.

Definition _replay_trades (trades_df : list Trade) : Ledger :=
  replay_with Pandas.sort_values trades_df.

(** An entry of the snapshot's ["positions"] list. *)
Record MarketPosition : Type := mkMarketPosition {
  mp_symbol : string;
  mp_qty : Q;
  mp_avg_cost : Q;
  mp_last_price : Q;
  mp_market_value : Q;
  mp_unrealized_pnl : Q
}.

Record Snapshot : Type := mkSnapshot {
  snap_cash : Q;
  snap_equity : Q;
  snap_realized_pnl : Q;
  snap_unrealized_pnl : Q;
  snap_positions : list MarketPosition
}.

(** The row appended to the equity history. *)
Record HistRow : Type := mkHistRow {
  h_timestamp : Timestamp;
  h_equity : Q;
  h_cash : Q;
  h_realized_pnl : Q;
  h_unrealized_pnl : Q
}.

(** The running values of the loop of [_compute_snapshot]; [sn_calls] counts
    the requests made to the price source so far. *)
Record SnapAcc : Type := mkSnapAcc {
  sn_unrealized_pnl : Q;
  sn_equity : Q;
  sn_market_positions : list MarketPosition;
  sn_calls : nat
}.

(** The running values of the loop of [apply_signals_and_update_portfolio]. *)
Record ApplyState : Type := mkApplyState {
  st_cash : Q;
  st_positions : PyDict.t Position;
  st_realized_pnl : Q;
  st_new_trades : list Trade;
  st_calls : nat
}.

(** What a run leaves behind: the trade log, the snapshot it returns, the
    row it adds to the equity history, the state its loop ended in. *)
Record ApplyResult : Type := mkApplyResult {
  r_trades_df : list Trade;
  r_snapshot : Snapshot;
  r_hist_row : HistRow;
  r_loop : ApplyState
}.

Section Portfolio.

(** The price source: the answer to the [n]-th request, for a symbol, is
    the last close, or nothing when no data comes back or the request
    fails.  Two requests for one symbol may differ. *)
Variable yf_download : nat -> string -> option Q.

Definition _get_latest_price (n : nat) (symbol : string) : Q :=
  get (yf_download n symbol) 0.

(** The body of [for sym, pos in positions.items()]. *)
Definition snapshot_step (acc : SnapAcc) (item : string * Position) : SnapAcc :=
  let '(sym, pos) := item in
  let fetched := _get_latest_price (sn_calls acc) sym in
  let last_price := if Qle_bool fetched 0 then avg_cost pos else fetched in
  let market_value := qty pos * last_price in
  let u_pnl := qty pos * (last_price - avg_cost pos) in
  mkSnapAcc (sn_unrealized_pnl acc + u_pnl)
            (sn_equity acc + market_value)
            (sn_market_positions acc ++
               [mkMarketPosition sym (qty pos) (avg_cost pos) last_price
                                 market_value u_pnl])%list
            (S (sn_calls acc)).

(** [_compute_snapshot], started when [calls] requests have been made;
    returns the snapshot and the new count. *)
Definition _compute_snapshot (calls : nat) (trades_df : list Trade)
    : Snapshot * nat :=
  let led := _replay_trades trades_df in
  let acc := fold_left snapshot_step (PyDict.items (positions led))
                       (mkSnapAcc 0 (cash led) [] calls) in
  (mkSnapshot (cash led) (sn_equity acc) (realized_pnl led)
              (sn_unrealized_pnl acc) (sn_market_positions acc),
   sn_calls acc).

(** [sum(pos["qty"] * pos["avg_cost"] for pos in positions.values())] *)
Definition cost_basis (positions : PyDict.t Position) : Q :=
  fold_left Qplus
            (map (fun pos => qty pos * avg_cost pos) (PyDict.values positions))
            0.

(** The body of [for sig in all_signals].  [approx_equity] and [now_iso]
    are fixed before the loop starts. *)
Definition apply_signal (approx_equity : Q) (now_iso : Timestamp)
    (st : ApplyState) (sig : TradingSignal) : ApplyState :=
  let sym := symbol sig in
  let action := PyStr.upper (signal sig) in
  if String.eqb action "BUY" && negb (PyDict.mem sym (st_positions st)) then
    let price := _get_latest_price (st_calls st) sym in
    if Qle_bool price 0 then
      mkApplyState (st_cash st) (st_positions st) (st_realized_pnl st)
                   (st_new_trades st) (S (st_calls st))
    else
      let trade_budget := Qmin (MAX_TRADE_FRACTION * approx_equity) (st_cash st) in
      let qty := Qfloor (trade_budget / price) in
      if (qty <=? 0)%Z then
        mkApplyState (st_cash st) (st_positions st) (st_realized_pnl st)
                     (st_new_trades st) (S (st_calls st))
      else
        let value := inject_Z qty * price in
        mkApplyState
          (st_cash st - value)
          (PyDict.set sym (mkPosition (inject_Z qty) price) (st_positions st))
          (st_realized_pnl st)
          (st_new_trades st ++
             [mkTrade now_iso sym "BUY" (inject_Z qty) price value])%list
          (S (st_calls st))
  else if String.eqb action "SELL" && PyDict.mem sym (st_positions st) then
    let price := _get_latest_price (st_calls st) sym in
    if Qle_bool price 0 then
      mkApplyState (st_cash st) (st_positions st) (st_realized_pnl st)
                   (st_new_trades st) (S (st_calls st))
    else
      match PyDict.lookup sym (st_positions st) with
      | Some pos =>
        let qty := qty pos in
        let value := qty * price in
        mkApplyState
          (st_cash st + value)
          (PyDict.remove sym (st_positions st))
          (st_realized_pnl st + (price - avg_cost pos) * qty)
          (st_new_trades st ++ [mkTrade now_iso sym "SELL" qty price value])%list
          (S (st_calls st))
      | None => st
      end
  else st.

(** [apply_signals_and_update_portfolio].  [trades_df] is the log as
    loaded, [now_iso] the clock when the loop starts, [now_hist] the clock
    when the history row is written, [calls] the requests made so far. *)
Definition apply_signals_and_update_portfolio
    (trades_df : list Trade) (now_iso now_hist : Timestamp) (calls : nat)
    (all_signals : list TradingSignal) : ApplyResult :=
  let led := _replay_trades trades_df in
  let approx_equity := cash led + cost_basis (positions led) in
  let st := fold_left (apply_signal approx_equity now_iso) all_signals
              (mkApplyState (cash led) (positions led) (realized_pnl led)
                            [] calls) in
  let trades_df' := (trades_df ++ st_new_trades st)%list in
  let '(snapshot, _) := _compute_snapshot (st_calls st) trades_df' in
  mkApplyResult trades_df' snapshot
    (mkHistRow now_hist (snap_equity snapshot) (snap_cash snapshot)
               (snap_realized_pnl snapshot) (snap_unrealized_pnl snapshot))
    st.

End Portfolio.

(* ================================================================== *)
(** * Vocabulary of the statements *)
(* ================================================================== *)

(** A signal that asks for nothing the ledger can do: a BUY for a symbol
    that is held, a SELL for a symbol that is not held, or a HOLD. *)
Definition no_trade_signal (positions : PyDict.t Position) (sig : TradingSignal)
    : Prop :=
  (PyStr.upper (signal sig) = "BUY"
   /\ PyDict.mem (symbol sig) positions = true) \/
  (PyStr.upper (signal sig) = "SELL"
   /\ PyDict.mem (symbol sig) positions = false) \/
  PyStr.upper (signal sig) = "HOLD".

(** No position of the dict is short. *)
Definition long_only (positions : PyDict.t Position) : Prop :=
  forall pos, In pos (PyDict.values positions) -> 0 <= qty pos.

(** Cash is not overdrawn and no position is short. *)
Definition solvent (st : ApplyState) : Prop :=
  0 <= st_cash st /\ long_only (st_positions st).

(** The entry the snapshot loop builds for one position when its price is
    the answer to request [n], and the entries for a run of positions
    priced by the requests [n], [n + 1], ... *)
Definition snapshot_entry (yf_download : nat -> string -> option Q)
    (n : nat) (item : string * Position) : MarketPosition :=
  let fetched := _get_latest_price yf_download n (fst item) in
  let last_price :=
    if Qle_bool fetched 0 then avg_cost (snd item) else fetched in
  mkMarketPosition (fst item) (qty (snd item)) (avg_cost (snd item)) last_price
                   (qty (snd item) * last_price)
                   (qty (snd item) * (last_price - avg_cost (snd item))).

Fixpoint snapshot_entries (yf_download : nat -> string -> option Q)
    (n : nat) (items : list (string * Position)) : list MarketPosition :=
  match items with
  | [] => []
  | item :: rest =>
    snapshot_entry yf_download n item :: snapshot_entries yf_download (S n) rest
  end.

(** The rows whose timestamp parsed, and those whose timestamp did not. *)
Definition parsed (r : Trade) : bool :=
  match t_timestamp r with
  | Ts _ => true
  | NaT => false
  end.

Definition unparsed (r : Trade) : bool := negb (parsed r).

(** What [sort_values] promises whatever algorithm it runs: the rows it was
    given, in ascending order of timestamp. *)
Definition sorts_by_timestamp (sort : list Trade -> list Trade) : Prop :=
  forall df, Permutation df (sort df) /\ StronglySorted Pandas.row_le (sort df).

(** A signal dict with the two keys the ledger reads. *)
Definition order (sym action : string) : TradingSignal :=
  mkSignal sym action "medium" "" 0 "mixed/neutral" 1 0 0.

(* ================================================================== *)
(** * Vocabulary for the ledger as a whole *)
(* ================================================================== *)

(** The ledger the signal loop holds in its variables. *)
Definition ledger_of (st : ApplyState) : Ledger :=
  mkLedger (st_cash st) (st_positions st) (st_realized_pnl st).

(** What a position cost: [qty * avg_cost]. *)
Definition position_cost (pos : Position) : Q := qty pos * avg_cost pos.

(** A row as the signal loop writes it: stamped [now], side BUY or SELL, a
    price above 0, a value of qty * price, and for a BUY a whole number of
    shares, at least one. *)
Definition written_by_loop (now : Timestamp) (row : Trade) : Prop :=
  t_timestamp row = now /\
  0 < t_price row /\
  t_value row = t_qty row * t_price row /\
  ((t_side row = "BUY" /\ exists n : Z, (1 <= n)%Z /\ t_qty row = inject_Z n)
   \/ t_side row = "SELL").

(* ================================================================== *)
(** * Vocabulary for the sentiment side *)
(* ================================================================== *)

(** The label the aggregator reads off a result:
    [res.get("label", "").lower()]. *)
Definition article_label (res : ArticleSentiment) : string :=
  PyStr.lower (get (a_label res) "").

Definition labelled_positive (res : ArticleSentiment) : bool :=
  String.eqb (article_label res) "positive".

Definition labelled_negative (res : ArticleSentiment) : bool :=
  negb (labelled_positive res) && String.eqb (article_label res) "negative".

Definition labelled_neutral (res : ArticleSentiment) : bool :=
  negb (labelled_positive res) && negb (labelled_negative res).

(** The number of elements of a list that pass a test, as an [int]. *)
Definition count_if {A : Type} (f : A -> bool) (l : list A) : Z :=
  Z.of_nat (List.length (filter f l)).

(* ================================================================== *)
(** * More of Python: whitespace, splitting, exceptions *)
(* ================================================================== *)

Module PyText.

(** [c.isspace()] on the ASCII range: tab to carriage return, the four
    separators 28 to 31, and the space.  Bytes above 127 are left alone, as
    in [PyStr]. *)
Definition is_space (c : ascii) : bool :=
  (((9 <=? nat_of_ascii c) && (nat_of_ascii c <=? 13))
   || ((28 <=? nat_of_ascii c) && (nat_of_ascii c <=? 32)))%nat.

(** [s.lstrip()], [s.rstrip()] and [s.strip()] *)
Fixpoint lstrip (s : string) : string :=
  match s with
  | EmptyString => EmptyString
  | String c r => if is_space c then lstrip r else s
  end.

Fixpoint rstrip (s : string) : string :=
  match s with
  | EmptyString => EmptyString
  | String c r =>
    match rstrip r with
    | EmptyString => if is_space c then EmptyString else String c EmptyString
    | r' => String c r'
    end
  end.

Definition strip (s : string) : string := rstrip (lstrip s).

(** [bool(s)]: a string is true when it is not empty. *)
Definition truthy (s : string) : bool := negb (String.eqb s "").

(** [s.split(sep)] for a separator of one character. *)
Fixpoint split (sep : ascii) (s : string) : list string :=
  match s with
  | EmptyString => [EmptyString]
  | String c r =>
    if Ascii.eqb c sep then EmptyString :: split sep r
    else match split sep r with
         | [] => [String c EmptyString]
         | h :: t => String c h :: t
         end
  end.

(** The line feed of ["\n".join(lines)]. *)
Definition newline : string := String (ascii_of_nat 10) EmptyString.

End PyText.

(** The exceptions the code raises or lets through. *)
Inductive Exn : Type :=
| RuntimeError
| AttributeError
| TypeError
| ValueError
| FileNotFoundError
| JSONDecodeError.

(** A call returns a value or raises. *)
Inductive Result (A : Type) : Type :=
| Return (v : A)
| Raise (e : Exn).

Arguments Return {A} v.
Arguments Raise {A} e.

(* ================================================================== *)
(** * config.py, the rest *)
(* ================================================================== *)

Definition PROJECT_NAME : string := "Stock Market News Sentiment Analyzer".

Definition WATCHLIST : list string := ["TSLA"; "INFY"; "AAPL"; "HDFCBANK"].

Definition SYMBOL_TO_QUERY : PyDict.t string :=
  [("TSLA", "Tesla"); ("INFY", "Infosys"); ("AAPL", "Apple Inc");
   ("HDFCBANK", "HDFC Bank")].

(* ================================================================== *)
(** * sentiment_model.py *)
(* ================================================================== *)

(** The dict [_predict_single] returns. *)
Record SentimentResult : Type := mkResult {
  sr_text : string;
  sr_positive : Q;
  sr_neutral : Q;
  sr_negative : Q;
  sr_score : Q;
  sr_label : string
}.

Section FinBert.

(** The analyzer: for a text, the label name of each output index
    ([id2label]) with the probability the softmax gives it, in index
    order.  Tokenizer and network are not modelled. *)
Variable softmax_probs : string -> list (string * Q).

(** [label_probs[self.id2label[idx].lower()] = float(prob)], index by
    index. *)
Definition label_probs (text : string) : PyDict.t Q :=
  fold_left (fun d lp => PyDict.set (PyStr.lower (fst lp)) (snd lp) d)
            (softmax_probs text) PyDict.empty.

Definition _predict_single (text : string) : SentimentResult :=
  let lp := label_probs text in
  let positive := get (PyDict.lookup "positive" lp) 0 in
  let negative := get (PyDict.lookup "negative" lp) 0 in
  let neutral := get (PyDict.lookup "neutral" lp) 0 in
  let sentiment_score := positive - negative in
  let overall_label :=
    if Qle_bool negative positive && Qle_bool neutral positive then "positive"
    else if Qle_bool positive negative && Qle_bool neutral negative
         then "negative"
    else "neutral" in
  mkResult text positive neutral negative sentiment_score overall_label.

(** [predict(texts)] for a list of texts. *)
Fixpoint predict (texts : list string) : list SentimentResult :=
  match texts with
  | [] => []
  | t :: rest =>
    if negb (PyText.truthy t) || negb (PyText.truthy (PyText.strip t))
    then predict rest
    else _predict_single (PyText.strip t) :: predict rest
  end.

End FinBert.

(* ================================================================== *)
(** * news_fetcher.py *)
(* ================================================================== *)

(** A key of a JSON object whose value, when there, is a string or null. *)
Inductive Field : Type :=
| Absent
| Null
| Text (s : string).

(** [d.get(key, default)]: [None] stands for Python's [None]. *)
Definition field_get (f : Field) (default : string) : option string :=
  match f with
  | Absent => Some default
  | Null => None
  | Text s => Some s
  end.

(** The value stored under a key that [d.get(key, default)] has filled. *)
Definition field_filled (f : Field) (default : string) : Field :=
  match f with
  | Absent => Text default
  | _ => f
  end.

(** The ["source"] of a NewsAPI article: missing, null, or an object that
    may have a ["name"]. *)
Inductive SourceField : Type :=
| SourceAbsent
| SourceNull
| SourceObject (name : Field).

(** An article as NewsAPI sends it. *)
Record RawArticle : Type := mkRawArticle {
  raw_title : Field;
  raw_description : Field;
  raw_source : SourceField;
  raw_publishedAt : Field;
  raw_url : Field
}.

(** An article as the rest of the code sees it: a dict with the keys
    title, description, source, published_at and url. *)
Record NewsArticle : Type := mkNewsArticle {
  n_title : Field;
  n_description : Field;
  n_source : Field;
  n_published_at : Field;
  n_url : Field
}.

(** The ["articles"] of the response body. *)
Inductive ArticlesField : Type :=
| ArticlesAbsent
| ArticlesNull
| ArticlesList (l : list RawArticle).

(** What [resp.json()] finds: no JSON, or an object. *)
Inductive JsonBody : Type :=
| BadJson
| JsonObject (articles : ArticlesField).

(** What [requests.get] does. *)
Inductive HttpOutcome : Type :=
| HttpReadTimeout
| HttpRequestException
| HttpResponse (status_code : Z) (body : JsonBody).

(** What opening and parsing the sample file finds. *)
Inductive SampleFile : Type :=
| FileMissing
| FileBadJson
| FileNotDict
| FileDict (data : PyDict.t (list NewsArticle)).

(** [(a.get("source") or {}).get("name", "Unknown")] *)
Definition source_name (s : SourceField) : Field :=
  match s with
  | SourceObject name => field_filled name "Unknown"
  | _ => Text "Unknown"
  end.

(** The dict built for each raw article. *)
Definition normalize_article (a : RawArticle) : NewsArticle :=
  mkNewsArticle (field_filled (raw_title a) "")
                (field_filled (raw_description a) "")
                (source_name (raw_source a))
                (field_filled (raw_publishedAt a) "N/A")
                (field_filled (raw_url a) "").

Section NewsFetcher.

(** [NEWS_SOURCE_MODE] (shipped as "api"), [NEWSAPI_KEY] from the
    environment, the sample file, and the answer of NewsAPI to a query. *)
Variable NEWS_SOURCE_MODE : string.
Variable NEWSAPI_KEY : option string.
Variable sample_file : SampleFile.
Variable requests_get : string -> HttpOutcome.

Definition load_local_sample_news : Result (PyDict.t (list NewsArticle)) :=
  match sample_file with
  | FileMissing => Raise FileNotFoundError
  | FileBadJson => Raise JSONDecodeError
  | FileNotDict => Raise ValueError
  | FileDict data => Return data
  end.

Definition fetch_news_from_newsapi (symbol : string)
    : Result (list NewsArticle) :=
  if negb (PyText.truthy (get NEWSAPI_KEY "")) then Raise RuntimeError
  else
    let query := get (PyDict.lookup symbol SYMBOL_TO_QUERY) symbol in
    match requests_get query with
    | HttpReadTimeout => Return []
    | HttpRequestException => Return []
    | HttpResponse status_code body =>
      if negb (status_code =? 200)%Z then Return []
      else
        match body with
        | BadJson => Raise JSONDecodeError
        | JsonObject ArticlesAbsent => Return []
        | JsonObject ArticlesNull => Raise TypeError
        | JsonObject (ArticlesList articles_raw) =>
          Return (map normalize_article articles_raw)
        end
    end.

Definition get_news_for_symbol (symbol : string) : Result (list NewsArticle) :=
  if String.eqb NEWS_SOURCE_MODE "local" then
    match load_local_sample_news with
    | Raise e => Raise e
    | Return all_data => Return (get (PyDict.lookup symbol all_data) [])
    end
  else if String.eqb NEWS_SOURCE_MODE "api" then
    fetch_news_from_newsapi symbol
  else Raise ValueError.

End NewsFetcher.

(* ================================================================== *)
(** * main.py and app_streamlit.py: from articles to a signal *)
(* ================================================================== *)

(** [article.get(key, "") or ""] *)
Definition field_or_empty (f : Field) : string :=
  match field_get f "" with
  | Some s => s
  | None => ""
  end.

(** [build_text_from_article], the same in both files. *)
Definition build_text_from_article (article : NewsArticle) : string :=
  let title := field_or_empty (n_title article) in
  let desc := field_or_empty (n_description article) in
  let text := PyText.strip title in
  if PyText.truthy desc then text ++ ". " ++ PyText.strip desc else text.

(** A classifier result with the article's details attached. *)
Record Enriched : Type := mkEnriched {
  e_result : SentimentResult;
  e_title : string;
  e_source : option string;
  e_published_at : option string;
  e_url : option string
}.

(** The keys of an enriched result that the aggregator reads. *)
Definition enriched_sentiment (e : Enriched) : ArticleSentiment :=
  mkArticle (Some (sr_score (e_result e))) (Some (sr_label (e_result e)))
            (Some (sr_positive (e_result e))) (Some (sr_negative (e_result e)))
            (Some (sr_neutral (e_result e))).

(** The body of [for res, article in zip(results, articles)]:
    [article.get("title", "").strip()] fails on a null title. *)
Definition enrich (res : SentimentResult) (article : NewsArticle)
    : Result Enriched :=
  match field_get (n_title article) "" with
  | None => Raise AttributeError
  | Some title =>
    Return (mkEnriched res (PyText.strip title)
                       (field_get (n_source article) "Unknown")
                       (field_get (n_published_at article) "N/A")
                       (field_get (n_url article) ""))
  end.

Fixpoint enrich_all (pairs : list (SentimentResult * NewsArticle))
    : Result (list Enriched) :=
  match pairs with
  | [] => Return []
  | (res, article) :: rest =>
    match enrich res article with
    | Raise e => Raise e
    | Return enriched =>
      match enrich_all rest with
      | Raise e => Raise e
      | Return others => Return (enriched :: others)
      end
    end
  end.

(** The two dicts returned without a summary. *)
Definition no_news_signal (symbol : string) : TradingSignal :=
  mkSignal symbol "HOLD" "low" "No recent news articles available."
           0 "mixed/neutral" 0 0 0.

Definition no_summary_signal (symbol : string) (article_count : Z)
    : TradingSignal :=
  mkSignal symbol "HOLD" "low" "Could not compute sentiment summary."
           0 "mixed/neutral" article_count 0 0.

Section Pipeline.

Variable NEWS_SOURCE_MODE : string.
Variable NEWSAPI_KEY : option string.
Variable sample_file : SampleFile.
Variable requests_get : string -> HttpOutcome.
Variable softmax_probs : string -> list (string * Q).

(** [analyze_symbol] of the dashboard: the signal and the ["articles"] it
    carries. *)
Definition analyze_symbol (symbol : string) (buy_thr sell_thr : Q)
    : Result (TradingSignal * list Enriched) :=
  match get_news_for_symbol NEWS_SOURCE_MODE NEWSAPI_KEY sample_file
                            requests_get symbol with
  | Raise e => Raise e
  | Return [] => Return (no_news_signal symbol, [])
  | Return articles =>
    let texts := map build_text_from_article articles in
    let results := predict softmax_probs texts in
    match enrich_all (combine results articles) with
    | Raise e => Raise e
    | Return enriched_results =>
      match aggregate_article_sentiments
              (map enriched_sentiment enriched_results) with
      | None =>
        Return (no_summary_signal symbol (Z.of_nat (List.length articles)),
                enriched_results)
      | Some summary =>
        Return (generate_trading_signal symbol summary
                                        (Some buy_thr) (Some sell_thr),
                enriched_results)
      end
    end
  end.

(** [analyze_symbol_news] of main.py, without what it prints. *)
Definition analyze_symbol_news (symbol : string) : Result TradingSignal :=
  match get_news_for_symbol NEWS_SOURCE_MODE NEWSAPI_KEY sample_file
                            requests_get symbol with
  | Raise e => Raise e
  | Return [] => Return (no_news_signal symbol)
  | Return articles =>
    let texts := map build_text_from_article articles in
    let results := predict softmax_probs texts in
    match enrich_all (combine results articles) with
    | Raise e => Raise e
    | Return enriched_results =>
      match aggregate_article_sentiments
              (map enriched_sentiment enriched_results) with
      | Some summary =>
        Return (generate_trading_signal symbol summary None None)
      | None =>
        Return (no_summary_signal symbol (Z.of_nat (List.length articles)))
      end
    end
  end.

End Pipeline.

(** The watchlist the dashboard reads from its text box:
    [[s.strip().upper() for s in watchlist_str.split(",") if s.strip()]]. *)
Definition current_watchlist (watchlist_str : string) : list string :=
  map (fun s => PyStr.upper (PyText.strip s))
      (filter (fun s => PyText.truthy (PyText.strip s))
              (PyText.split "," watchlist_str)).

(* ================================================================== *)
(** * whatsapp_notifier.py *)
(* ================================================================== *)

(** [s["signal"] in ("BUY", "SELL")] *)
Definition actionable (s : TradingSignal) : bool :=
  String.eqb (signal s) "BUY" || String.eqb (signal s) "SELL".

Definition signal_line (s : TradingSignal) : string :=
  "- " ++ symbol s ++ ": " ++ signal s ++ " | "
  ++ "score=" ++ PyStr.format_fixed 2 (final_score s)
  ++ ", view=" ++ sentiment_view s ++ ", "
  ++ "conf=" ++ confidence s.

(** The [lines] of [build_alert_message]. *)
Definition alert_lines (all_signals : list TradingSignal)
    (portfolio_snapshot : Snapshot) : list string :=
  let head := [PROJECT_NAME ++ " – WhatsApp Alert"; ""] in
  let body :=
    match filter actionable all_signals with
    | [] => ["No actionable signals (all HOLD)."]
    | acts => "Signals:" :: map signal_line acts
    end in
  let tail :=
    [""; "Portfolio (paper trading):";
     "  Equity        : "
       ++ PyStr.format_fixed 2 (snap_equity portfolio_snapshot);
     "  Cash          : "
       ++ PyStr.format_fixed 2 (snap_cash portfolio_snapshot);
     "  Realized PnL  : "
       ++ PyStr.format_fixed 2 (snap_realized_pnl portfolio_snapshot);
     "  Unrealized PnL: "
       ++ PyStr.format_fixed 2 (snap_unrealized_pnl portfolio_snapshot)] in
  List.app head (List.app body tail).

Definition build_alert_message (all_signals : list TradingSignal)
    (portfolio_snapshot : Snapshot) : string :=
  PyStr.join PyText.newline (alert_lines all_signals portfolio_snapshot).

(** What a call of [send_whatsapp_message] does. *)
Inductive Delivery : Type :=
| AlertsOff
| NotConfigured
| Posted (body from_ to : string) (sid : string)
| PostFailed (body from_ to : string) (e : Exn).

Section Notifier.

Variable ENABLE_WHATSAPP_ALERTS : bool.
Variables TWILIO_ACCOUNT_SID TWILIO_AUTH_TOKEN : string.
Variables TWILIO_WHATSAPP_FROM TWILIO_WHATSAPP_TO : string.

(** [Client(sid, token).messages.create(body, from_, to)]: the SID of the
    message, or what Twilio raises. *)
Variable twilio_create : string -> string -> string -> Result string.

Definition send_whatsapp_message (text : string) : Delivery :=
  if negb ENABLE_WHATSAPP_ALERTS then AlertsOff
  else if negb (PyText.truthy TWILIO_ACCOUNT_SID)
          || negb (PyText.truthy TWILIO_AUTH_TOKEN)
          || negb (PyText.truthy TWILIO_WHATSAPP_FROM)
          || negb (PyText.truthy TWILIO_WHATSAPP_TO)
  then NotConfigured
  else
    match twilio_create text TWILIO_WHATSAPP_FROM TWILIO_WHATSAPP_TO with
    | Return sid => Posted text TWILIO_WHATSAPP_FROM TWILIO_WHATSAPP_TO sid
    | Raise e => PostFailed text TWILIO_WHATSAPP_FROM TWILIO_WHATSAPP_TO e
    end.

Definition send_whatsapp_alerts_for_run (all_signals : list TradingSignal)
    (portfolio_snapshot : Snapshot) : Delivery :=
  send_whatsapp_message (build_alert_message all_signals portfolio_snapshot).

End Notifier.

(* ================================================================== *)
(** * Vocabulary for texts, articles and watchlists *)
(* ================================================================== *)

(** Every character of the string is whitespace. *)
Fixpoint all_space (s : string) : bool :=
  match s with
  | EmptyString => true
  | String c r => PyText.is_space c && all_space r
  end.

(** The character occurs in the string. *)
Fixpoint has_char (c : ascii) (s : string) : bool :=
  match s with
  | EmptyString => false
  | String c' r => Ascii.eqb c' c || has_char c r
  end.

(** A text the classifier does not skip. *)
Definition nonblank (t : string) : bool := PyText.truthy (PyText.strip t).

(** An article dict with all five keys. *)
Definition complete (a : NewsArticle) : Prop :=
  n_title a <> Absent /\ n_description a <> Absent /\ n_source a <> Absent /\
  n_published_at a <> Absent /\ n_url a <> Absent.

(** A symbol as the dashboard keeps it: not empty, upper case, without
    whitespace around it, without a comma. *)
Definition watchlist_symbol (s : string) : Prop :=
  s <> "" /\ PyStr.upper s = s /\ PyText.strip s = s /\ has_char "," s = false.

(* ================================================================== *)
(** * Checks of the string helpers *)
(* ================================================================== *)

Example format_examples :
  PyStr.format_fixed 2 (1 # 8) = "0.12" /\
  PyStr.format_fixed 2 (- (1 # 1000)) = "-0.00" /\
  PyStr.format_fixed 0 (250 # 3) = "83" /\
  PyStr.format_fixed 2 (-(314159 # 100000)) = "-3.14" /\
  PyStr.upper "mixed/neutral" = "MIXED/NEUTRAL".
Proof. repeat split; vm_compute; reflexivity. Qed.

(* ================================================================== *)
(** * The signal generator *)
(* ================================================================== *)

Section SignalGenerator.

Variables (sym : string) (summary : SentimentSummary).
Variables (buy_thr sell_thr : option Q).

(** The values the generator works with once the [.get] defaults and the
    configured thresholds are filled in. *)
Let score := get (s_final_score summary) 0.
Let count := get (s_article_count summary) 0%Z.
Let buy := get buy_thr SENTIMENT_THRESHOLDS_buy.
Let sell := get sell_thr SENTIMENT_THRESHOLDS_sell.
Let sg := generate_trading_signal sym summary buy_thr sell_thr.

Lemma signal_no_articles :
  count = 0%Z -> signal sg = "HOLD" /\ confidence sg = "low".
Proof.
  intros H. subst sg. unfold generate_trading_signal.
  fold count. rewrite H. simpl. split; reflexivity.
Qed.

Lemma signal_buy :
  count <> 0%Z -> buy <= score ->
  signal sg = "BUY" /\
  (buy + (15 # 100) <= score -> confidence sg = "high") /\
  (~ buy + (15 # 100) <= score -> confidence sg = "medium").
Proof.
  intros Hn Hb. subst sg. unfold generate_trading_signal.
  fold count score buy sell.
  apply Z.eqb_neq in Hn. rewrite Hn.
  apply Qle_bool_iff in Hb. rewrite Hb.
  destruct (Qle_bool (buy + (15 # 100)) score) eqn:E; simpl.
  - repeat split; intros; try reflexivity.
    apply Qle_bool_iff in E. contradiction.
  - repeat split; intros; try reflexivity.
    apply Qle_bool_iff in H. rewrite H in E. discriminate.
Qed.

Lemma signal_sell :
  count <> 0%Z -> ~ buy <= score -> score <= sell ->
  signal sg = "SELL" /\
  (score <= sell - (15 # 100) -> confidence sg = "high") /\
  (~ score <= sell - (15 # 100) -> confidence sg = "medium").
Proof.
  intros Hn Hb Hs. subst sg. unfold generate_trading_signal.
  fold count score buy sell.
  apply Z.eqb_neq in Hn. rewrite Hn.
  destruct (Qle_bool buy score) eqn:Eb.
  { apply Qle_bool_iff in Eb. contradiction. }
  apply Qle_bool_iff in Hs. rewrite Hs.
  destruct (Qle_bool score (sell - (15 # 100))) eqn:E; simpl.
  - repeat split; intros; try reflexivity.
    apply Qle_bool_iff in E. contradiction.
  - repeat split; intros; try reflexivity.
    apply Qle_bool_iff in H. rewrite H in E. discriminate.
Qed.

Lemma signal_hold :
  count <> 0%Z -> sell < score -> score < buy ->
  signal sg = "HOLD" /\ confidence sg = "medium".
Proof.
  intros Hn Hs Hb. subst sg. unfold generate_trading_signal.
  fold count score buy sell.
  apply Z.eqb_neq in Hn. rewrite Hn.
  destruct (Qle_bool buy score) eqn:Eb.
  { apply Qle_bool_iff in Eb. apply Qlt_not_le in Hb. contradiction. }
  destruct (Qle_bool score sell) eqn:Es.
  { apply Qle_bool_iff in Es. apply Qlt_not_le in Hs. contradiction. }
  simpl. split; reflexivity.
Qed.

Lemma signal_symbol : symbol sg = sym.
Proof.
  subst sg. unfold generate_trading_signal.
  destruct (get (s_article_count summary) 0 =? 0)%Z; [reflexivity|].
  destruct (Qle_bool _ _); [reflexivity|].
  destruct (Qle_bool _ _); reflexivity.
Qed.

End SignalGenerator.



Lemma upper_ascii_idempotent (c : ascii) :
  PyStr.upper_ascii (PyStr.upper_ascii c) = PyStr.upper_ascii c.
Proof.
  destruct c as [[] [] [] [] [] [] [] []]; vm_compute; reflexivity.
Qed.

Lemma upper_idempotent (s : string) : PyStr.upper (PyStr.upper s) = PyStr.upper s.
Proof.
  induction s as [|c r IH]; simpl; [reflexivity|].
  rewrite upper_ascii_idempotent, IH. reflexivity.
Qed.

(** C9, as the code has it.  The generator hands the symbol on unchanged: it
    returns the string it was given, so the symbol of the signal is upper
    case when the caller passes an upper-cased string, as the dashboard
    does. *)
Theorem signal_symbol_carried_through
    (sym : string) (summary : SentimentSummary) (buy_thr sell_thr : option Q) :
  symbol (generate_trading_signal sym summary buy_thr sell_thr) = sym /\
  let sg := generate_trading_signal (PyStr.upper sym) summary buy_thr sell_thr in
  PyStr.upper (symbol sg) = symbol sg.
Proof.
  split; [apply signal_symbol|].
  cbv zeta. rewrite signal_symbol. apply upper_idempotent.
Qed.

(** C9, as stated, fails: a lower-case symbol comes back in lower case. *)
Lemma signal_symbol_not_normalized :
  let summary :=
    mkSummary (Some (5 # 100)) None None None (Some 3%Z) None None None None in
  let sg := generate_trading_signal "tsla" summary None None in
  symbol sg = "tsla" /\ PyStr.upper "tsla" = "TSLA" /\
  symbol sg <> PyStr.upper "tsla".
Proof.
  cbv zeta. split; [reflexivity|]. split; [reflexivity|].
  vm_compute. discriminate.
Qed.

(* ================================================================== *)
(** * The aggregator *)
(* ================================================================== *)

Section Aggregator.

Lemma agg_fold_score (l : list ArticleSentiment) :
  forall acc,
    sum_score (fold_left agg_step l acc)
    == sum_score acc + Qsum (map article_score l).
Proof.
  induction l as [|x l IH]; intros acc; simpl.
  - ring.
  - rewrite IH. simpl. ring.
Qed.

Lemma agg_step_counts (acc : AggAcc) (x : ArticleSentiment) :
  let r := agg_step acc x in
  (pos_count acc <= pos_count r)%Z /\
  (neg_count acc <= neg_count r)%Z /\
  (neu_count acc <= neu_count r)%Z /\
  (pos_count r + neg_count r + neu_count r
   = pos_count acc + neg_count acc + neu_count acc + 1)%Z.
Proof.
  unfold agg_step. cbn [pos_count neg_count neu_count].
  destruct (String.eqb _ "positive"); [|destruct (String.eqb _ "negative")];
    lia.
Qed.

Lemma agg_fold_counts (l : list ArticleSentiment) :
  forall acc,
    let r := fold_left agg_step l acc in
    (pos_count acc <= pos_count r)%Z /\
    (neg_count acc <= neg_count r)%Z /\
    (neu_count acc <= neu_count r)%Z /\
    (pos_count r + neg_count r + neu_count r
     = pos_count acc + neg_count acc + neu_count acc
       + Z.of_nat (List.length l))%Z.
Proof.
  induction l as [|x l IH]; intros acc; cbv zeta.
  - simpl. lia.
  - cbn [fold_left List.length].
    specialize (IH (agg_step acc x)). cbv zeta in IH.
    pose proof (agg_step_counts acc x) as S. cbv zeta in S.
    lia.
Qed.

Lemma Qsum_lower (m : Q) (xs : list Q) :
  (forall x, In x xs -> m <= x) ->
  inject_Z (Z.of_nat (List.length xs)) * m <= Qsum xs.
Proof.
  induction xs as [|x xs IH]; intros H.
  - simpl. unfold Qle; simpl. lia.
  - cbn [List.length Qsum fold_right].
    rewrite Nat2Z.inj_succ. unfold Z.succ. rewrite inject_Z_plus.
    fold (Qsum xs). rewrite Qmult_plus_distr_l, Qmult_1_l, Qplus_comm.
    apply Qplus_le_compat; [apply H; left; reflexivity|].
    apply IH. intros; apply H; right; assumption.
Qed.

Lemma Qsum_upper (m : Q) (xs : list Q) :
  (forall x, In x xs -> x <= m) ->
  Qsum xs <= inject_Z (Z.of_nat (List.length xs)) * m.
Proof.
  induction xs as [|x xs IH]; intros H.
  - simpl. unfold Qle; simpl. lia.
  - cbn [List.length Qsum fold_right].
    rewrite Nat2Z.inj_succ. unfold Z.succ. rewrite inject_Z_plus.
    fold (Qsum xs). rewrite Qmult_plus_distr_l, Qmult_1_l.
    rewrite (Qplus_comm _ m).
    apply Qplus_le_compat; [apply H; left; reflexivity|].
    apply IH. intros; apply H; right; assumption.
Qed.

Lemma list_min_lower (xs : list Q) :
  forall x, list_min x xs <= x /\ forall y, In y xs -> list_min x xs <= y.
Proof.
  unfold list_min.
  induction xs as [|a xs IH]; intros x; simpl.
  - split; [apply Qle_refl | intros y []].
  - destruct (IH (Qmin x a)) as [H1 H2]. split.
    + eapply Qle_trans; [exact H1 | apply Q.le_min_l].
    + intros y [<- | Hy]; [|apply H2; exact Hy].
      eapply Qle_trans; [exact H1 | apply Q.le_min_r].
Qed.

Lemma list_max_upper (xs : list Q) :
  forall x, x <= list_max x xs /\ forall y, In y xs -> y <= list_max x xs.
Proof.
  unfold list_max.
  induction xs as [|a xs IH]; intros x; simpl.
  - split; [apply Qle_refl | intros y []].
  - destruct (IH (Qmax x a)) as [H1 H2]. split.
    + eapply Qle_trans; [apply Q.le_max_l | exact H1].
    + intros y [<- | Hy]; [|apply H2; exact Hy].
      eapply Qle_trans; [apply Q.le_max_r | exact H1].
Qed.

End Aggregator.

(** C5, as the code has it.  On a non-empty list the aggregator returns a
    summary whose three ratios are non-negative and add up to 1, and whose
    final score lies between the smallest and the largest article score,
    all of it in exact arithmetic, that is, up to the rounding of the sums
    and quotients. *)
Theorem aggregator_ratios_and_score_bounds
    (a : ArticleSentiment) (rest : list ArticleSentiment) :
  exists fs avg_p avg_n avg_u bull bear neu view,
    aggregate_article_sentiments (a :: rest)
    = Some (mkSummary (Some fs) (Some avg_p) (Some avg_n) (Some avg_u)
                      (Some (Z.of_nat (List.length (a :: rest))))
                      (Some bull) (Some bear) (Some neu) (Some view)) /\
    0 <= bull /\ 0 <= bear /\ 0 <= neu /\
    bull + bear + neu == 1 /\
    list_min (article_score a) (map article_score rest) <= fs /\
    fs <= list_max (article_score a) (map article_score rest).
Proof.
  set (l := a :: rest).
  set (n := Z.of_nat (List.length l)).
  assert (Hn : 0 < inject_Z n).
  { unfold n, l. cbn [List.length]. rewrite Nat2Z.inj_succ.
    unfold Qlt; simpl. lia. }
  set (acc := fold_left agg_step l acc0).
  pose proof (agg_fold_counts l acc0) as C. cbv zeta in C. fold acc in C.
  destruct C as (Hp & Hg & Hu & Hs).
  change (pos_count acc0) with 0%Z in Hp, Hs.
  change (neg_count acc0) with 0%Z in Hg, Hs.
  change (neu_count acc0) with 0%Z in Hu, Hs.
  fold n in Hs.
  pose proof (agg_fold_score l acc0) as S. fold acc in S. simpl sum_score in S.
  do 8 eexists. split; [unfold aggregate_article_sentiments; reflexivity|].
  fold l n acc.
  assert (Hpos : forall k : Z, (0 <= k)%Z -> 0 <= inject_Z k / inject_Z n).
  { intros k Hk. apply Qle_shift_div_l; [exact Hn|].
    rewrite Qmult_0_l. unfold Qle; simpl. lia. }
  split; [apply Hpos; exact Hp|].
  split; [apply Hpos; exact Hg|].
  split; [apply Hpos; exact Hu|].
  split.
  { setoid_replace (inject_Z (pos_count acc) / inject_Z n
                    + inject_Z (neg_count acc) / inject_Z n
                    + inject_Z (neu_count acc) / inject_Z n)
      with (inject_Z (pos_count acc + neg_count acc + neu_count acc)
            / inject_Z n).
    - replace (pos_count acc + neg_count acc + neu_count acc)%Z with n by lia.
      field. intro E. rewrite E in Hn. discriminate Hn.
    - rewrite !inject_Z_plus. field. intro E. rewrite E in Hn. discriminate Hn. }
  assert (Hsum : sum_score acc == Qsum (map article_score l)).
  { rewrite S. ring. }
  assert (Hlen : Z.of_nat (List.length (map article_score l)) = n).
  { rewrite length_map. reflexivity. }
  destruct (list_min_lower (map article_score rest) (article_score a)) as [m1 m2].
  destruct (list_max_upper (map article_score rest) (article_score a)) as [M1 M2].
  split.
  - apply Qle_shift_div_l; [exact Hn|].
    rewrite Hsum, Qmult_comm, <- Hlen.
    apply Qsum_lower. intros x [<- | Hx]; [exact m1 | apply m2; exact Hx].
  - apply Qle_shift_div_r; [exact Hn|].
    rewrite Hsum, Qmult_comm, <- Hlen.
    apply Qsum_upper. intros x [<- | Hx]; [exact M1 | apply M2; exact Hx].
Qed.

(** C5, as stated, fails: the final score is a binary64 quotient of a
    binary64 sum and can leave the range of the scores.  Three articles of
    score 0.1, the float 7205759403792794 * 2^-56, add up to
    0.30000000000000004 and average to 0.10000000000000002, the float
    7205759403792795 * 2^-56, which is above the largest score. *)
Lemma final_score_above_max_binary64 :
  let s := Binary64.finite 7205759403792794 (-56) in
  Binary64.div (Binary64.of_int 1) (Binary64.of_int 10) = s /\
  list_min_binary64 s [s; s] = s /\
  list_max_binary64 s [s; s] = s /\
  fold_left Binary64.add [s; s; s] Binary64.zero
  = Binary64.finite 5404319552844596 (-54) /\
  final_score_binary64 [s; s; s] = Binary64.finite 7205759403792795 (-56) /\
  Binary64.ltb (list_max_binary64 s [s; s]) (final_score_binary64 [s; s; s])
  = true /\
  Binary64.to_Q (list_max_binary64 s [s; s])
  < Binary64.to_Q (final_score_binary64 [s; s; s]) /\
  ~ (forall x xs,
        Binary64.leb (final_score_binary64 (x :: xs)) (list_max_binary64 x xs)
        = true).
Proof.
  cbv zeta.
  do 6 (split; [vm_compute; reflexivity|]).
  split; [vm_compute; reflexivity|].
  intros H.
  specialize (H (Binary64.finite 7205759403792794 (-56))
                [Binary64.finite 7205759403792794 (-56);
                 Binary64.finite 7205759403792794 (-56)]).
  vm_compute in H. discriminate H.
Qed.

(* ================================================================== *)
(** * Dict lemmas *)
(* ================================================================== *)

Section DictFacts.
Context {V : Type}.
Implicit Types (d : PyDict.t V) (k : string) (v : V).

Lemma lookup_remove_same k d : PyDict.lookup k (PyDict.remove k d) = None.
Proof.
  unfold PyDict.remove.
  induction d as [|[k' v'] d IH]; simpl; [reflexivity|].
  destruct (String.eqb k k') eqn:E; simpl; [exact IH|].
  rewrite E. exact IH.
Qed.

Lemma mem_remove_same k d : PyDict.mem k (PyDict.remove k d) = false.
Proof. unfold PyDict.mem. rewrite lookup_remove_same. reflexivity. Qed.

Lemma lookup_set_same k v d : PyDict.lookup k (PyDict.set k v d) = Some v.
Proof.
  induction d as [|[k' v'] d IH]; simpl.
  - rewrite String.eqb_refl. reflexivity.
  - destruct (String.eqb k k') eqn:E; simpl; rewrite E; [reflexivity|exact IH].
Qed.

Lemma mem_true_lookup k d :
  PyDict.mem k d = true -> exists v, PyDict.lookup k d = Some v.
Proof.
  unfold PyDict.mem. destruct (PyDict.lookup k d) as [v|]; [|discriminate].
  intros _. exists v. reflexivity.
Qed.

Lemma mem_false_lookup k d : PyDict.mem k d = false <-> PyDict.lookup k d = None.
Proof.
  unfold PyDict.mem. destruct (PyDict.lookup k d); split; congruence.
Qed.

Lemma set_absent k v d :
  PyDict.lookup k d = None -> PyDict.set k v d = (d ++ [(k, v)])%list.
Proof.
  induction d as [|[k' v'] d IH]; simpl; [reflexivity|].
  destruct (String.eqb k k'); [discriminate|].
  intros H. rewrite IH by exact H. reflexivity.
Qed.

Lemma in_values_remove k d v :
  In v (PyDict.values (PyDict.remove k d)) -> In v (PyDict.values d).
Proof.
  unfold PyDict.values, PyDict.remove. rewrite !in_map_iff.
  intros (x & Hx & Hin). apply filter_In in Hin.
  exists x. tauto.
Qed.

Lemma in_values_set k v d w :
  In w (PyDict.values (PyDict.set k v d)) -> w = v \/ In w (PyDict.values d).
Proof.
  unfold PyDict.values.
  induction d as [|[k' v'] d IH]; simpl.
  - intros [<- | []]. left; reflexivity.
  - destruct (String.eqb k k'); simpl.
    + intros [<- | H]; [left; reflexivity | right; right; exact H].
    + intros [<- | H]; [right; left; reflexivity|].
      destruct (IH H) as [-> | H']; [left; reflexivity | right; right; exact H'].
Qed.

End DictFacts.

(* ================================================================== *)
(** * The loop of apply_signals_and_update_portfolio *)
(* ================================================================== *)

Section ApplySignal.

Variable yf_download : nat -> string -> option Q.
Variables (approx_equity : Q) (now_iso : Timestamp).
Variables (st : ApplyState) (sig : TradingSignal).

Let sym := symbol sig.
Let action := PyStr.upper (signal sig).
Let price := _get_latest_price yf_download (st_calls st) sym.
Let trade_budget := Qmin (MAX_TRADE_FRACTION * approx_equity) (st_cash st).
Let bought := Qfloor (trade_budget / price).
Let st' := apply_signal yf_download approx_equity now_iso st sig.

Lemma positive_price_passes : 0 < price -> Qle_bool price 0 = false.
Proof.
  intros H. destruct (Qle_bool price 0) eqn:E; [|reflexivity].
  apply Qle_bool_iff in E. apply Qlt_not_le in H. contradiction.
Qed.

(** BUY, no open position, a price: the two ways the sizing can go. *)
Lemma apply_buy :
  action = "BUY" -> PyDict.mem sym (st_positions st) = false -> 0 < price ->
  st' =
  if (bought <=? 0)%Z then
    mkApplyState (st_cash st) (st_positions st) (st_realized_pnl st)
                 (st_new_trades st) (S (st_calls st))
  else
    mkApplyState
      (st_cash st - inject_Z bought * price)
      (PyDict.set sym (mkPosition (inject_Z bought) price) (st_positions st))
      (st_realized_pnl st)
      (st_new_trades st ++
         [mkTrade now_iso sym "BUY" (inject_Z bought) price
                  (inject_Z bought * price)])%list
      (S (st_calls st)).
Proof.
  intros Ha Hm Hp. subst st'. unfold apply_signal.
  fold sym action. rewrite Ha, Hm. cbn [String.eqb Ascii.eqb Bool.eqb andb negb].
  fold price. rewrite (positive_price_passes Hp).
  fold trade_budget bought. reflexivity.
Qed.

(** SELL, an open position, a price. *)
Lemma apply_sell (pos : Position) :
  action = "SELL" -> PyDict.lookup sym (st_positions st) = Some pos ->
  0 < price ->
  st' =
  mkApplyState
    (st_cash st + qty pos * price)
    (PyDict.remove sym (st_positions st))
    (st_realized_pnl st + (price - avg_cost pos) * qty pos)
    (st_new_trades st ++
       [mkTrade now_iso sym "SELL" (qty pos) price (qty pos * price)])%list
    (S (st_calls st)).
Proof.
  intros Ha Hl Hp. subst st'. unfold apply_signal.
  fold sym action. rewrite Ha. unfold PyDict.mem. rewrite Hl.
  cbn [String.eqb Ascii.eqb Bool.eqb andb negb].
  fold price. rewrite (positive_price_passes Hp). reflexivity.
Qed.

(** The signals that fall through both branches. *)
Lemma apply_buy_held :
  action = "BUY" -> PyDict.mem sym (st_positions st) = true -> st' = st.
Proof.
  intros Ha Hm. subst st'. unfold apply_signal.
  fold sym action. rewrite Ha, Hm. reflexivity.
Qed.

Lemma apply_sell_flat :
  action = "SELL" -> PyDict.mem sym (st_positions st) = false -> st' = st.
Proof.
  intros Ha Hm. subst st'. unfold apply_signal.
  fold sym action. rewrite Ha, Hm. reflexivity.
Qed.

Lemma apply_other : action <> "BUY" -> action <> "SELL" -> st' = st.
Proof.
  intros Hb Hs. subst st'. unfold apply_signal. fold sym action.
  apply String.eqb_neq in Hb, Hs. rewrite Hb, Hs. reflexivity.
Qed.

(** What an executed BUY costs. *)
Lemma bought_value_within_budget :
  0 < price -> inject_Z bought * price <= trade_budget.
Proof.
  intros Hp.
  assert (H : inject_Z bought <= trade_budget / price) by apply Qfloor_le.
  apply (Qmult_le_compat_r _ _ price) in H; [|apply Qlt_le_weak; exact Hp].
  rewrite (Qmult_comm (trade_budget / price)), Qmult_div_r in H;
    [exact H|].
  intro E. rewrite E in Hp. discriminate Hp.
Qed.

Lemma budget_within_cash : trade_budget <= st_cash st.
Proof. apply Q.le_min_r. Qed.

Lemma bought_leaves_cash :
  0 < price -> 0 <= st_cash st - inject_Z bought * price.
Proof.
  intros Hp.
  pose proof (bought_value_within_budget Hp) as H1.
  pose proof budget_within_cash as H2.
  revert H1 H2. generalize (inject_Z bought * price) trade_budget (st_cash st).
  intros v b c H1 H2. lra.
Qed.

End ApplySignal.

(** C7.  A BUY for a symbol that already has an open position, a SELL for a
    symbol without one, and a HOLD each leave the loop's state as it was:
    same cash, positions and realized P&L, no trade recorded, no price
    requested.  A run whose signals are all of this kind leaves the trade
    log as it found it. *)
Theorem apply_no_trade_signals
    (yf_download : nat -> string -> option Q)
    (approx_equity : Q) (now_iso now_hist : Timestamp) :
  (forall st sig,
      no_trade_signal (st_positions st) sig ->
      apply_signal yf_download approx_equity now_iso st sig = st) /\
  (forall trades_df calls all_signals,
      (forall sig, In sig all_signals ->
                   no_trade_signal (positions (_replay_trades trades_df)) sig) ->
      let r := apply_signals_and_update_portfolio
                 yf_download trades_df now_iso now_hist calls all_signals in
      r_trades_df r = trades_df /\
      st_new_trades (r_loop r) = [] /\
      st_cash (r_loop r) = cash (_replay_trades trades_df) /\
      st_positions (r_loop r) = positions (_replay_trades trades_df) /\
      st_realized_pnl (r_loop r) = realized_pnl (_replay_trades trades_df)).
Proof.
  assert (Step : forall ae st sig,
             no_trade_signal (st_positions st) sig ->
             apply_signal yf_download ae now_iso st sig = st).
  { intros ae st sig [[Ha Hm] | [[Ha Hm] | Ha]].
    - apply apply_buy_held; assumption.
    - apply apply_sell_flat; assumption.
    - apply apply_other; rewrite Ha; discriminate. }
  split; [apply Step|].
  intros trades_df calls all_signals Hall.
  set (led := _replay_trades trades_df) in *.
  assert (Loop : forall ae st,
             st_positions st = positions led ->
             fold_left (apply_signal yf_download ae now_iso) all_signals st = st).
  { intros ae. induction all_signals as [|sig sigs IH]; intros st Hst.
    - reflexivity.
    - cbn [fold_left]. rewrite Step.
      + apply IH; [|exact Hst]. intros s Hs. apply Hall. right. exact Hs.
      + rewrite Hst. apply Hall. left. reflexivity. }
  cbv zeta. unfold apply_signals_and_update_portfolio. fold led.
  rewrite Loop by reflexivity. cbn [st_new_trades st_calls].
  rewrite app_nil_r.
  destruct (_compute_snapshot yf_download calls trades_df) as [snapshot n].
  cbn. repeat split; reflexivity.
Qed.

(** Scenario 3: with XYZ held, a BUY for XYZ changes nothing; so does a HOLD,
    and a SELL for a symbol that is not held. *)
Lemma apply_no_trade_signals_witness :
  let held := [("XYZ", mkPosition 500 50)] in
  let st := mkApplyState 75000 held 0 [] 0 in
  let yf := fun (_ : nat) (_ : string) => Some 55 in
  apply_signal yf 100000 (Ts 7) st (order "XYZ" "BUY") = st /\
  apply_signal yf 100000 (Ts 7) st (order "XYZ" "HOLD") = st /\
  apply_signal yf 100000 (Ts 7) st (order "TSLA" "SELL") = st.
Proof.
  cbv zeta.
  pose proof (proj1 (apply_no_trade_signals (fun _ _ => Some 55) 100000
                       (Ts 7) (Ts 8))) as H.
  split; [|split]; apply H.
  - left. split; reflexivity.
  - right. right. reflexivity.
  - right. left. split; reflexivity.
Defined.



(* ================================================================== *)
(** * Replay, row by row *)
(* ================================================================== *)

Section ReplayRow.

Variables (st : Ledger) (row : Trade).

Lemma replay_buy :
  PyStr.upper (t_side row) = "BUY" ->
  replay_row st row
  = mkLedger (cash st - t_qty row * t_price row)
             (PyDict.set (t_symbol row)
                         (mkPosition (t_qty row) (t_price row)) (positions st))
             (realized_pnl st).
Proof. intros H. unfold replay_row. rewrite H. reflexivity. Qed.

Lemma replay_sell_open (pos : Position) :
  PyStr.upper (t_side row) = "SELL" ->
  PyDict.lookup (t_symbol row) (positions st) = Some pos ->
  replay_row st row
  = mkLedger (cash st + t_qty row * t_price row)
             (PyDict.remove (t_symbol row) (positions st))
             (realized_pnl st + (t_price row - avg_cost pos) * t_qty row).
Proof. intros H L. unfold replay_row. rewrite H, L. reflexivity. Qed.

Lemma replay_sell_flat :
  PyStr.upper (t_side row) = "SELL" ->
  PyDict.lookup (t_symbol row) (positions st) = None ->
  replay_row st row = st.
Proof. intros H L. unfold replay_row. rewrite H, L. reflexivity. Qed.

End ReplayRow.

(** C3.  A SELL for a symbol with an open position adds qty * price to cash,
    adds (price - avg_cost) * qty to the realized P&L and removes the
    position: in replay for a SELL row, with the row's quantity, and in the
    signal loop for a SELL signal at a fetched price above 0, with the
    position's quantity and one SELL trade appended.  A SELL for a symbol
    without an open position changes nothing, in replay and in the loop.
    With XYZ held at 500 shares of cost 50 and a price of 60, cash grows by
    30000 and the realized P&L by 5000. *)
Theorem sell_closes_position (yf_download : nat -> string -> option Q) :
  (forall st row pos,
      PyStr.upper (t_side row) = "SELL" ->
      PyDict.lookup (t_symbol row) (positions st) = Some pos ->
      let st' := replay_row st row in
      cash st' = cash st + t_qty row * t_price row /\
      realized_pnl st'
      = realized_pnl st + (t_price row - avg_cost pos) * t_qty row /\
      positions st' = PyDict.remove (t_symbol row) (positions st) /\
      PyDict.mem (t_symbol row) (positions st') = false) /\
  (forall st row,
      PyStr.upper (t_side row) = "SELL" ->
      PyDict.lookup (t_symbol row) (positions st) = None ->
      replay_row st row = st) /\
  (forall approx_equity now_iso st sig pos,
      PyStr.upper (signal sig) = "SELL" ->
      PyDict.lookup (symbol sig) (st_positions st) = Some pos ->
      let price := _get_latest_price yf_download (st_calls st) (symbol sig) in
      0 < price ->
      let st' := apply_signal yf_download approx_equity now_iso st sig in
      st_cash st' = st_cash st + qty pos * price /\
      st_realized_pnl st'
      = st_realized_pnl st + (price - avg_cost pos) * qty pos /\
      st_positions st' = PyDict.remove (symbol sig) (st_positions st) /\
      PyDict.mem (symbol sig) (st_positions st') = false /\
      st_new_trades st'
      = (st_new_trades st ++
           [mkTrade now_iso (symbol sig) "SELL" (qty pos) price
                    (qty pos * price)])%list) /\
  (forall approx_equity now_iso st sig,
      PyStr.upper (signal sig) = "SELL" ->
      PyDict.lookup (symbol sig) (st_positions st) = None ->
      apply_signal yf_download approx_equity now_iso st sig = st) /\
  (forall approx_equity now_iso st sig,
      symbol sig = "XYZ" -> PyStr.upper (signal sig) = "SELL" ->
      PyDict.lookup "XYZ" (st_positions st) = Some (mkPosition 500 50) ->
      yf_download (st_calls st) "XYZ" = Some 60 ->
      let st' := apply_signal yf_download approx_equity now_iso st sig in
      st_cash st' == st_cash st + 30000 /\
      st_realized_pnl st' == st_realized_pnl st + 5000 /\
      PyDict.mem "XYZ" (st_positions st') = false /\
      st_new_trades st'
      = (st_new_trades st ++ [mkTrade now_iso "XYZ" "SELL" 500 60 (500 * 60)])%list).
Proof.
  assert (Loop : forall approx_equity now_iso st sig pos,
      PyStr.upper (signal sig) = "SELL" ->
      PyDict.lookup (symbol sig) (st_positions st) = Some pos ->
      let price := _get_latest_price yf_download (st_calls st) (symbol sig) in
      0 < price ->
      let st' := apply_signal yf_download approx_equity now_iso st sig in
      st_cash st' = st_cash st + qty pos * price /\
      st_realized_pnl st'
      = st_realized_pnl st + (price - avg_cost pos) * qty pos /\
      st_positions st' = PyDict.remove (symbol sig) (st_positions st) /\
      PyDict.mem (symbol sig) (st_positions st') = false /\
      st_new_trades st'
      = (st_new_trades st ++
           [mkTrade now_iso (symbol sig) "SELL" (qty pos) price
                    (qty pos * price)])%list).
  { intros ae now_iso st sig pos Ha Hl price Hp st'.
    subst st'. rewrite (apply_sell yf_download ae now_iso st sig pos Ha Hl Hp).
    cbn [st_cash st_realized_pnl st_positions st_new_trades].
    rewrite mem_remove_same. fold price. repeat split; reflexivity. }
  split; [|split; [|split; [|split]]].
  - intros st row pos Hs Hl st'. subst st'.
    rewrite (replay_sell_open st row pos Hs Hl).
    cbn [cash realized_pnl positions]. rewrite mem_remove_same.
    repeat split; reflexivity.
  - intros st row Hs Hl. apply replay_sell_flat; assumption.
  - exact Loop.
  - intros ae now_iso st sig Ha Hl. apply apply_sell_flat; [exact Ha|].
    apply mem_false_lookup. exact Hl.
  - intros ae now_iso st sig Hsym Ha Hl Hyf st'.
    assert (Hp : _get_latest_price yf_download (st_calls st) (symbol sig) = 60).
    { unfold _get_latest_price. rewrite Hsym, Hyf. reflexivity. }
    rewrite <- Hsym in Hl.
    destruct (Loop ae now_iso st sig _ Ha Hl) as (Hc & Hr & _ & Hm & Ht).
    { rewrite Hp. reflexivity. }
    fold st' in Hc, Hr, Hm, Ht. rewrite Hp in Hc, Hr, Ht.
    rewrite Hsym in Hm, Ht.
    rewrite Hc, Hr, Hm, Ht. cbn [qty avg_cost].
    split; [|split; [|split]]; reflexivity.
Qed.

(** Scenario 2: XYZ is held at 500 shares of cost 50, the price source
    answers 60, the signal is SELL. *)
Lemma sell_closes_position_witness :
  let yf := fun (_ : nat) (_ : string) => Some 60 in
  let st := mkApplyState 75000 [("XYZ", mkPosition 500 50)] 0 [] 0 in
  let st' := apply_signal yf 100000 (Ts 9) st (order "XYZ" "SELL") in
  st_cash st' == 75000 + 30000 /\
  st_realized_pnl st' == 0 + 5000 /\
  PyDict.mem "XYZ" (st_positions st') = false /\
  st_new_trades st' = [mkTrade (Ts 9) "XYZ" "SELL" 500 60 (500 * 60)].
Proof.
  cbv zeta.
  apply (proj2 (proj2 (proj2 (proj2 (sell_closes_position (fun _ _ => Some 60)))))
           100000 (Ts 9)
           (mkApplyState 75000 [("XYZ", mkPosition 500 50)] 0 [] 0)
           (order "XYZ" "SELL"));
    reflexivity.
Defined.

(* ================================================================== *)
(** * Cash never goes below zero in the signal loop *)
(* ================================================================== *)

Section CashInvariant.

Variable yf_download : nat -> string -> option Q.
Variables (approx_equity : Q) (now_iso : Timestamp).

Lemma apply_signal_solvent (st : ApplyState) (sig : TradingSignal) :
  solvent st -> solvent (apply_signal yf_download approx_equity now_iso st sig).
Proof.
  intros [Hc Hl]. unfold apply_signal.
  set (sym := symbol sig). set (price := _get_latest_price _ _ _).
  destruct (String.eqb _ "BUY" && negb _)%bool.
  - destruct (Qle_bool price 0) eqn:Ep; [split; assumption|].
    destruct (Qfloor _ <=? 0)%Z eqn:Eq; [split; assumption|].
    assert (Hp : 0 < price).
    { apply Qnot_le_lt. intro H. apply Qle_bool_iff in H. congruence. }
    split; cbn [st_cash st_positions].
    + apply (bought_leaves_cash yf_download approx_equity st sig Hp).
    + intros pos Hin. apply in_values_set in Hin.
      destruct Hin as [-> | Hin]; [|apply Hl; exact Hin].
      cbn [qty]. apply Z.leb_gt, Z.lt_le_incl in Eq.
      rewrite (Zle_Qle 0) in Eq. exact Eq.
  - destruct (String.eqb _ "SELL" && _)%bool; [|split; assumption].
    destruct (Qle_bool price 0) eqn:Ep; [split; assumption|].
    destruct (PyDict.lookup sym (st_positions st)) as [pos|] eqn:El;
      [|split; assumption].
    assert (Hp : 0 < price).
    { apply Qnot_le_lt. intro H. apply Qle_bool_iff in H. congruence. }
    assert (Hq : 0 <= qty pos).
    { apply Hl. unfold PyDict.values. apply in_map_iff.
      clear - El. induction (st_positions st) as [|[k v] d IH];
        [discriminate|].
      simpl in El. destruct (String.eqb sym k).
      - injection El as ->. exists (k, pos). split; [reflexivity|left; reflexivity].
      - destruct (IH El) as (x & Hx & Hin). exists x. split; [exact Hx|right; exact Hin]. }
    split; cbn [st_cash st_positions].
    + assert (0 <= qty pos * price)
        by (apply Qmult_le_0_compat; [exact Hq | apply Qlt_le_weak; exact Hp]).
      revert H. generalize (qty pos * price). intros v Hv. lra.
    + intros p Hin. apply Hl. eapply in_values_remove. exact Hin.
Qed.

Lemma apply_loop_solvent (all_signals : list TradingSignal) :
  forall st,
    solvent st ->
    solvent (fold_left (apply_signal yf_download approx_equity now_iso)
                       all_signals st).
Proof.
  induction all_signals as [|sig sigs IH]; intros st H; [exact H|].
  cbn [fold_left]. apply IH. apply apply_signal_solvent. exact H.
Qed.

End CashInvariant.

(** C10.  The signal loop never spends more cash than there is.  An
    executed BUY debits qty * price, which is at most the budget
    [min(MAX_TRADE_FRACTION * approx_equity, cash)] and so at most the
    cash, and leaves cash at 0 or above.  An executed SELL of a position
    that is not short does not lower cash.  Hence, when cash is not negative
    and no position is short as the loop starts, cash is not negative after
    any number of signals. *)
Theorem apply_never_overspends
    (yf_download : nat -> string -> option Q)
    (approx_equity : Q) (now_iso : Timestamp) :
  (forall st sig,
      PyStr.upper (signal sig) = "BUY" ->
      PyDict.mem (symbol sig) (st_positions st) = false ->
      let price := _get_latest_price yf_download (st_calls st) (symbol sig) in
      0 < price ->
      let budget := Qmin (MAX_TRADE_FRACTION * approx_equity) (st_cash st) in
      let bought := Qfloor (budget / price) in
      (0 < bought)%Z ->
      let st' := apply_signal yf_download approx_equity now_iso st sig in
      inject_Z bought * price <= budget /\
      inject_Z bought * price <= st_cash st /\
      st_cash st' = st_cash st - inject_Z bought * price /\
      0 <= st_cash st') /\
  (forall st sig pos,
      PyStr.upper (signal sig) = "SELL" ->
      PyDict.lookup (symbol sig) (st_positions st) = Some pos ->
      0 < _get_latest_price yf_download (st_calls st) (symbol sig) ->
      0 <= qty pos ->
      st_cash st
      <= st_cash (apply_signal yf_download approx_equity now_iso st sig)) /\
  (forall all_signals st,
      0 <= st_cash st -> long_only (st_positions st) ->
      0 <= st_cash (fold_left (apply_signal yf_download approx_equity now_iso)
                              all_signals st)).
Proof.
  split; [|split].
  - intros st sig Ha Hm price Hp budget bought Hq st'.
    pose proof (apply_buy yf_download approx_equity now_iso st sig Ha Hm Hp) as E.
    fold price budget bought st' in E.
    apply Z.leb_gt in Hq. rewrite Hq in E.
    pose proof (bought_value_within_budget
                  yf_download approx_equity st sig Hp) as B.
    fold price budget bought in B.
    assert (C : budget <= st_cash st) by apply Q.le_min_r.
    rewrite E. cbn [st_cash].
    split; [exact B|]. split; [eapply Qle_trans; eassumption|].
    split; [reflexivity|].
    apply (bought_leaves_cash yf_download approx_equity st sig Hp).
  - intros st sig pos Ha Hl Hp Hq.
    rewrite (apply_sell yf_download approx_equity now_iso st sig pos Ha Hl Hp).
    cbn [st_cash].
    assert (0 <= qty pos
                 * _get_latest_price yf_download (st_calls st) (symbol sig))
      by (apply Qmult_le_0_compat; [exact Hq | apply Qlt_le_weak; exact Hp]).
    revert H. generalize (qty pos
      * _get_latest_price yf_download (st_calls st) (symbol sig)).
    intros v Hv. lra.
  - intros all_signals st Hc Hl.
    apply (apply_loop_solvent yf_download approx_equity now_iso all_signals st).
    split; assumption.
Qed.

(** From 1000 in cash at a price of 120: the budget is 250, the BUY takes
    2 shares for 240 and leaves 760; two more signals keep cash at 0 or
    above. *)
Lemma apply_never_overspends_witness :
  let yf := fun (n : nat) (_ : string) => Some 120 in
  let st := mkApplyState 1000 [] 0 [] 0 in
  let st' := apply_signal yf 1000 (Ts 3) st (order "INFY" "BUY") in
  inject_Z 2 * 120 <= Qmin (MAX_TRADE_FRACTION * 1000) 1000 /\
  st_cash st' == 760 /\ 0 <= st_cash st' /\
  0 <= st_cash (fold_left (apply_signal yf 1000 (Ts 3))
                          [order "INFY" "BUY"; order "TSLA" "BUY";
                           order "INFY" "SELL"] st).
Proof.
  cbv zeta.
  pose proof (apply_never_overspends (fun _ _ => Some 120) 1000 (Ts 3))
    as (B & _ & L).
  specialize (B (mkApplyState 1000 [] 0 [] 0) (order "INFY" "BUY")
                eq_refl eq_refl eq_refl eq_refl).
  cbv zeta in B. destruct B as (B1 & _ & B3 & B4).
  split; [exact B1|]. split; [rewrite B3; reflexivity|]. split; [exact B4|].
  apply L; [discriminate | intros pos []].
Defined.

(* ================================================================== *)
(** * The snapshot *)
(* ================================================================== *)

Lemma fold_left_Qplus (xs : list Q) :
  forall a, fold_left Qplus xs a == a + Qsum xs.
Proof.
  induction xs as [|x xs IH]; intros a; simpl.
  - ring.
  - rewrite IH. fold (Qsum xs). ring.
Qed.

Section SnapshotLoop.

Variable yf_download : nat -> string -> option Q.

Lemma snapshot_fold (items : list (string * Position)) :
  forall acc,
    let es := snapshot_entries yf_download (sn_calls acc) items in
    fold_left (snapshot_step yf_download) items acc
    = mkSnapAcc
        (fold_left Qplus (map mp_unrealized_pnl es) (sn_unrealized_pnl acc))
        (fold_left Qplus (map mp_market_value es) (sn_equity acc))
        (sn_market_positions acc ++ es)%list
        (sn_calls acc + List.length items).
Proof.
  induction items as [|[sym pos] items IH]; intros acc; cbv zeta.
  - cbn. rewrite app_nil_r, Nat.add_0_r. destruct acc; reflexivity.
  - cbn [fold_left]. rewrite IH. cbv zeta.
    set (e := snapshot_entry yf_download (sn_calls acc) (sym, pos)).
    change (snapshot_step yf_download acc (sym, pos))
      with (mkSnapAcc (sn_unrealized_pnl acc + mp_unrealized_pnl e)
                      (sn_equity acc + mp_market_value e)
                      (sn_market_positions acc ++ [e])%list
                      (S (sn_calls acc))).
    cbn [sn_calls sn_unrealized_pnl sn_equity sn_market_positions].
    cbn [snapshot_entries map fold_left List.length]. fold e.
    rewrite <- app_assoc. cbn [app].
    rewrite Nat.add_succ_r. reflexivity.
Qed.

Lemma snapshot_entries_length (items : list (string * Position)) :
  forall n, List.length (snapshot_entries yf_download n items)
            = List.length items.
Proof.
  induction items as [|it items IH]; intros n; simpl; [reflexivity|].
  rewrite IH. reflexivity.
Qed.

Lemma snapshot_entries_nth (items : list (string * Position)) :
  forall n i item,
    nth_error items i = Some item ->
    nth_error (snapshot_entries yf_download n items) i
    = Some (snapshot_entry yf_download (n + i) item).
Proof.
  induction items as [|it items IH]; intros n i item H.
  - destruct i; discriminate.
  - destruct i as [|i]; simpl in *.
    + injection H as ->. rewrite Nat.add_0_r. reflexivity.
    + rewrite (IH (S n) i item H). rewrite Nat.add_succ_r. reflexivity.
Qed.

Lemma snapshot_positions_entries (calls : nat) (trades_df : list Trade) :
  let snap := fst (_compute_snapshot yf_download calls trades_df) in
  snap_positions snap
  = snapshot_entries yf_download calls
      (PyDict.items (positions (_replay_trades trades_df))) /\
  snap_equity snap
  = fold_left Qplus (map mp_market_value (snap_positions snap))
              (cash (_replay_trades trades_df)) /\
  snap_cash snap = cash (_replay_trades trades_df).
Proof.
  cbv zeta. unfold _compute_snapshot. cbn [fst].
  rewrite snapshot_fold. cbn. repeat split; reflexivity.
Qed.

End SnapshotLoop.

(** C6.  In the snapshot, a position whose price comes back missing or not
    above 0 is valued at its average cost: its last price is its average
    cost and its unrealized P&L is 0.  The equity of every snapshot is its
    cash plus the sum of the market values of its positions. *)
Theorem snapshot_price_fallback
    (yf_download : nat -> string -> option Q)
    (calls : nat) (trades_df : list Trade) :
  let led := _replay_trades trades_df in
  let snap := fst (_compute_snapshot yf_download calls trades_df) in
  snap_equity snap
  == snap_cash snap + Qsum (map mp_market_value (snap_positions snap)) /\
  List.length (snap_positions snap) = List.length (PyDict.items (positions led)) /\
  (forall i sym pos,
      nth_error (PyDict.items (positions led)) i = Some (sym, pos) ->
      yf_download (calls + i)%nat sym = None \/
      _get_latest_price yf_download (calls + i) sym <= 0 ->
      nth_error (snap_positions snap) i
      = Some (mkMarketPosition sym (qty pos) (avg_cost pos) (avg_cost pos)
                (qty pos * avg_cost pos)
                (qty pos * (avg_cost pos - avg_cost pos))) /\
      qty pos * (avg_cost pos - avg_cost pos) == 0).
Proof.
  intros led snap.
  destruct (snapshot_positions_entries yf_download calls trades_df)
    as (Hp & He & Hc).
  fold snap led in Hp, He, Hc.
  split; [|split].
  - rewrite He, Hc. apply fold_left_Qplus.
  - rewrite Hp. apply snapshot_entries_length.
  - intros i sym pos Hi Hprice. split; [|ring].
    assert (Hle : _get_latest_price yf_download (calls + i) sym <= 0).
    { destruct Hprice as [Hnone | Hle]; [|exact Hle].
      unfold _get_latest_price. rewrite Hnone. apply Qle_refl. }
    rewrite Hp, (snapshot_entries_nth yf_download _ calls i (sym, pos) Hi).
    unfold snapshot_entry. cbn [fst snd].
    apply Qle_bool_iff in Hle. rewrite Hle. reflexivity.
Qed.

(** Scenario 5: XYZ was bought at 50 and the price source answers 0. *)
Lemma snapshot_price_fallback_witness :
  let yf := fun (_ : nat) (_ : string) => Some 0 in
  let log := [mkTrade (Ts 1) "XYZ" "BUY" 500 50 25000] in
  let snap := fst (_compute_snapshot yf 0 log) in
  nth_error (snap_positions snap) 0
  = Some (mkMarketPosition "XYZ" 500 50 50 (500 * 50) (500 * (50 - 50))) /\
  500 * (50 - 50) == 0.
Proof.
  cbv zeta.
  apply (proj2 (proj2 (snapshot_price_fallback (fun _ _ => Some 0) 0
                         [mkTrade (Ts 1) "XYZ" "BUY" 500 50 25000]))
           0%nat "XYZ" (mkPosition 500 50)).
  - reflexivity.
  - right. discriminate.
Defined.

(* ================================================================== *)
(** * The order of replay *)
(* ================================================================== *)

Section TimestampOrder.

Import Pandas.

Lemma ts_le_total (a b : Timestamp) : ts_le a b \/ ts_le b a.
Proof.
  unfold ts_le. destruct a as [x|], b as [y|]; simpl; auto.
  destruct (Z.leb_spec x y); [left; reflexivity|].
  right. apply Z.leb_le. lia.
Qed.

Lemma ts_le_trans (a b c : Timestamp) : ts_le a b -> ts_le b c -> ts_le a c.
Proof.
  unfold ts_le. destruct a as [x|], b as [y|], c as [z|]; simpl;
    try congruence.
  rewrite !Z.leb_le. lia.
Qed.

Lemma ts_le_antisym (a b : Timestamp) : ts_le a b -> ts_le b a -> a = b.
Proof.
  unfold ts_le. destruct a as [x|], b as [y|]; simpl; try congruence.
  rewrite !Z.leb_le. intros. f_equal. lia.
Qed.

Lemma ts_le_NaT (a : Timestamp) : ts_le a NaT.
Proof. destruct a; reflexivity. Qed.

Lemma NaT_le_inv (a : Timestamp) : ts_le NaT a -> a = NaT.
Proof. destruct a; [discriminate | reflexivity]. Qed.

(** ** Insertion keeps the rows and the order *)

Lemma insert_row_perm (r : Trade) (l : list Trade) :
  Permutation (r :: l) (insert_row r l).
Proof.
  induction l as [|x l IH]; simpl; [reflexivity|].
  destruct (ts_leb (t_timestamp r) (t_timestamp x)); [reflexivity|].
  rewrite perm_swap. apply perm_skip. exact IH.
Qed.

Lemma sort_values_perm (df : list Trade) : Permutation df (sort_values df).
Proof.
  induction df as [|r df IH]; simpl; [reflexivity|].
  rewrite <- insert_row_perm. apply perm_skip. exact IH.
Qed.

Lemma insert_row_sorted (r : Trade) (l : list Trade) :
  StronglySorted row_le l -> StronglySorted row_le (insert_row r l).
Proof.
  induction 1 as [|x l Hs IH Hx]; simpl.
  - constructor; constructor.
  - destruct (ts_leb (t_timestamp r) (t_timestamp x)) eqn:E.
    + constructor; [constructor; assumption|].
      constructor; [exact E|].
      eapply Forall_impl; [|exact Hx].
      intros y Hy. unfold row_le in *. eapply ts_le_trans; eassumption.
    + constructor; [exact IH|].
      eapply Permutation_Forall; [apply insert_row_perm|].
      constructor; [|exact Hx].
      destruct (ts_le_total (t_timestamp r) (t_timestamp x)) as [H|H];
        [unfold ts_le in H; congruence | exact H].
Qed.

Lemma sort_values_sorted (df : list Trade) :
  StronglySorted row_le (sort_values df).
Proof.
  induction df as [|r df IH]; simpl; [constructor|].
  apply insert_row_sorted. exact IH.
Qed.

Lemma sort_values_contract : sorts_by_timestamp sort_values.
Proof.
  intros df. split; [apply sort_values_perm | apply sort_values_sorted].
Qed.

(** ** Rows without a timestamp go last, in file order *)

Lemma insert_row_before_unparsed (r : Trade) (l u : list Trade) :
  parsed r = true -> Forall (fun x => unparsed x = true) u ->
  insert_row r (l ++ u) = (insert_row r l ++ u)%list.
Proof.
  intros Hr Hu. induction l as [|x l IH]; cbn [insert_row app].
  - destruct u as [|y u]; [reflexivity|].
    cbn [insert_row]. inversion Hu as [|? ? Hy _]; subst.
    unfold parsed in Hr. unfold unparsed, parsed in Hy.
    destruct (t_timestamp r); [|discriminate].
    destruct (t_timestamp y); [discriminate|reflexivity].
  - destruct (ts_leb _ _); [reflexivity|]. rewrite IH. reflexivity.
Qed.

Lemma insert_unparsed_after_parsed (r : Trade) (l u : list Trade) :
  unparsed r = true -> Forall (fun x => parsed x = true) l ->
  Forall (fun x => unparsed x = true) u ->
  insert_row r (l ++ u) = (l ++ r :: u)%list.
Proof.
  intros Hr Hl Hu. induction Hl as [|x l Hx Hl IH]; cbn [insert_row app].
  - destruct u as [|y u]; [reflexivity|].
    cbn [insert_row]. inversion Hu as [|? ? Hy _]; subst.
    unfold unparsed, parsed in Hr, Hy.
    destruct (t_timestamp r); [discriminate|].
    destruct (t_timestamp y); [discriminate|reflexivity].
  - unfold unparsed, parsed in Hr. unfold parsed in Hx.
    destruct (t_timestamp r); [discriminate|].
    destruct (t_timestamp x); [|discriminate].
    cbn [ts_leb]. rewrite IH. reflexivity.
Qed.

Lemma sort_values_parsed (df : list Trade) :
  Forall (fun x => parsed x = true) df ->
  Forall (fun x => parsed x = true) (sort_values df).
Proof.
  intros H. eapply Permutation_Forall; [apply sort_values_perm | exact H].
Qed.

Lemma sort_values_unparsed_last (df : list Trade) :
  sort_values df
  = (sort_values (filter parsed df) ++ filter unparsed df)%list.
Proof.
  induction df as [|r df IH]; [reflexivity|].
  cbn [sort_values filter]. rewrite IH.
  assert (Hu : Forall (fun x => unparsed x = true) (filter unparsed df)).
  { apply Forall_forall. intros x Hx. apply filter_In in Hx. tauto. }
  assert (Hp : Forall (fun x => parsed x = true)
                      (sort_values (filter parsed df))).
  { apply sort_values_parsed. apply Forall_forall.
    intros x Hx. apply filter_In in Hx. tauto. }
  assert (Er : unparsed r = negb (parsed r)) by reflexivity.
  destruct (parsed r) eqn:E; rewrite Er; cbn [negb sort_values].
  - apply insert_row_before_unparsed; assumption.
  - apply insert_unparsed_after_parsed; [|assumption|assumption].
    unfold unparsed. rewrite E. reflexivity.
Qed.

End TimestampOrder.

Section SortedUnique.

Import Pandas.

(** Rows of pairwise distinct timestamps have one ascending order. *)
Lemma sorted_perm_unique (l1 : list Trade) :
  forall l2,
    StronglySorted row_le l1 -> StronglySorted row_le l2 ->
    Permutation l1 l2 -> NoDup (map t_timestamp l1) -> l1 = l2.
Proof.
  induction l1 as [|a t1 IH]; intros l2 S1 S2 P N.
  - apply Permutation_nil in P. symmetry. exact P.
  - destruct l2 as [|b t2].
    { apply Permutation_sym, Permutation_nil in P. discriminate. }
    inversion S1 as [|? ? S1' F1]; subst.
    inversion S2 as [|? ? S2' F2]; subst.
    inversion N as [|? ? Na N']; subst.
    assert (Hab : a = b).
    { assert (Ia : In a (b :: t2))
        by (eapply Permutation_in; [exact P | left; reflexivity]).
      assert (Ib : In b (a :: t1))
        by (eapply Permutation_in;
            [apply Permutation_sym; exact P | left; reflexivity]).
      destruct Ia as [E | Ia]; [symmetry; exact E|].
      destruct Ib as [E | Ib]; [exact E|].
      exfalso. apply Na.
      rewrite Forall_forall in F1, F2.
      assert (E : t_timestamp a = t_timestamp b)
        by (apply ts_le_antisym; [apply F1; exact Ib | apply F2; exact Ia]).
      rewrite E. apply in_map. exact Ib. }
    subst b. f_equal.
    apply IH; try assumption.
    eapply Permutation_cons_inv. exact P.
Qed.

Variable sort : list Trade -> list Trade.
Hypothesis sort_contract : sorts_by_timestamp sort.

Lemma sort_order_independent (l l' : list Trade) :
  Permutation l l' -> NoDup (map t_timestamp l) -> sort l = sort l'.
Proof.
  intros P N.
  destruct (sort_contract l) as [Pl Sl].
  destruct (sort_contract l') as [Pl' Sl'].
  apply sorted_perm_unique; try assumption.
  - rewrite <- Pl, <- Pl'. exact P.
  - eapply Permutation_NoDup; [|exact N].
    apply Permutation_map. exact Pl.
Qed.

(** Whatever algorithm sorts the log, replay does not depend on the file
    order of rows whose timestamps are pairwise distinct. *)
Lemma replay_with_order_independent (l l' : list Trade) :
  Permutation l l' -> NoDup (map t_timestamp l) ->
  replay_with sort l = replay_with sort l'.
Proof.
  intros P N. unfold replay_with.
  rewrite (sort_order_independent l l' P N).
  destruct l as [|x l], l' as [|x' l']; try reflexivity.
  - apply Permutation_nil in P. discriminate.
  - apply Permutation_sym, Permutation_nil in P. discriminate.
Qed.

End SortedUnique.

(** Two algorithms that sort by timestamp put rows of pairwise distinct
    timestamps in the same order, and replay them alike. *)
Lemma sort_algorithm_irrelevant
    (sort sort' : list Trade -> list Trade) (l : list Trade) :
  sorts_by_timestamp sort -> sorts_by_timestamp sort' ->
  NoDup (map t_timestamp l) -> sort l = sort' l.
Proof.
  intros C C' N.
  destruct (C l) as [P S]. destruct (C' l) as [P' S'].
  apply sorted_perm_unique; try assumption.
  - rewrite <- P, <- P'. reflexivity.
  - eapply Permutation_NoDup; [|exact N].
    apply Permutation_map. exact P.
Qed.

Lemma replay_algorithm_irrelevant
    (sort sort' : list Trade -> list Trade) (l : list Trade) :
  sorts_by_timestamp sort -> sorts_by_timestamp sort' ->
  NoDup (map t_timestamp l) -> replay_with sort l = replay_with sort' l.
Proof.
  intros C C' N. unfold replay_with.
  rewrite (sort_algorithm_irrelevant sort sort' l C C' N). reflexivity.
Qed.

(** C4, as the code has it.  Replay takes the rows in ascending order of
    timestamp; the order of rows of equal timestamp is left to the sorting
    algorithm.  When no two rows of the log share a timestamp, replaying
    the same rows presented in any order gives the same cash, positions and
    realized P&L, whatever algorithm sorts them by timestamp, and every
    such algorithm gives the ledger of [_replay_trades]. *)
Theorem replay_order_independent :
  (forall df, Permutation df (Pandas.sort_values df) /\
              StronglySorted Pandas.row_le (Pandas.sort_values df)) /\
  (forall sort, sorts_by_timestamp sort ->
     forall l l',
       Permutation l l' -> NoDup (map t_timestamp l) ->
       replay_with sort l = replay_with sort l' /\
       replay_with sort l = _replay_trades l) /\
  (forall l l',
      Permutation l l' -> NoDup (map t_timestamp l) ->
      _replay_trades l = _replay_trades l').
Proof.
  split; [exact sort_values_contract|].
  split.
  - intros sort C l l' P N. split.
    + apply (replay_with_order_independent sort C l l' P N).
    + apply (replay_algorithm_irrelevant sort Pandas.sort_values l C
               sort_values_contract N).
  - intros l l' P N.
    apply (replay_with_order_independent _ sort_values_contract l l' P N).
Qed.

(** A BUY and a later SELL, written to the file in either order. *)
Lemma replay_order_independent_witness :
  let b := mkTrade (Ts 1) "XYZ" "BUY" 500 50 25000 in
  let s := mkTrade (Ts 2) "XYZ" "SELL" 500 60 30000 in
  _replay_trades [b; s] = _replay_trades [s; b] /\
  cash (_replay_trades [s; b]) == 105000 /\
  positions (_replay_trades [s; b]) = [].
Proof.
  cbv zeta.
  split; [|split; reflexivity].
  apply (proj2 (proj2 replay_order_independent)).
  - apply perm_swap.
  - repeat constructor; simpl; intuition discriminate.
Defined.

(** C4, as stated, fails: with ties in file order, a BUY and a SELL of one
    symbol under one timestamp replay to different ledgers in their two
    file orders. *)
Lemma replay_depends_on_order_of_ties :
  let b := mkTrade (Ts 1) "XYZ" "BUY" 500 50 25000 in
  let s := mkTrade (Ts 1) "XYZ" "SELL" 500 60 30000 in
  Permutation [b; s] [s; b] /\
  Pandas.sort_values [b; s] = [b; s] /\
  Pandas.sort_values [s; b] = [s; b] /\
  positions (_replay_trades [b; s]) = [] /\
  positions (_replay_trades [s; b]) = [("XYZ", mkPosition 500 50)] /\
  cash (_replay_trades [b; s]) == 105000 /\
  cash (_replay_trades [s; b]) == 75000 /\
  ~ (forall l l', Permutation l l' -> _replay_trades l = _replay_trades l').
Proof.
  cbv zeta.
  split; [apply perm_swap|].
  do 6 (split; [reflexivity|]).
  intros H.
  specialize (H _ _ (perm_swap (mkTrade (Ts 1) "XYZ" "SELL" 500 60 30000)
                               (mkTrade (Ts 1) "XYZ" "BUY" 500 50 25000) [])).
  apply (f_equal positions) in H. vm_compute in H. discriminate H.
Qed.

(** C8.  Rows whose timestamp does not parse do not stop replay: the order
    of timestamps, with [NaT] after every instant, is total, transitive and
    antisymmetric, and replay takes the rows with a timestamp in ascending
    order and then the rows without one in file order. *)
Theorem unparseable_timestamps_replay_last (df : list Trade) :
  (forall a b, Pandas.ts_le a b \/ Pandas.ts_le b a) /\
  (forall a b c, Pandas.ts_le a b -> Pandas.ts_le b c -> Pandas.ts_le a c) /\
  (forall a b, Pandas.ts_le a b -> Pandas.ts_le b a -> a = b) /\
  (forall a, Pandas.ts_le a NaT) /\
  StronglySorted Pandas.row_le (Pandas.sort_values df) /\
  Pandas.sort_values df
  = (Pandas.sort_values (filter parsed df) ++ filter unparsed df)%list /\
  _replay_trades df
  = fold_left replay_row
      (Pandas.sort_values (filter parsed df) ++ filter unparsed df)%list
      ledger0.
Proof.
  split; [exact ts_le_total|].
  split; [exact ts_le_trans|].
  split; [exact ts_le_antisym|].
  split; [exact ts_le_NaT|].
  split; [apply sort_values_sorted|].
  split; [apply sort_values_unparsed_last|].
  unfold _replay_trades, replay_with.
  rewrite <- sort_values_unparsed_last.
  destruct df; reflexivity.
Qed.

(** A log of four rows, two of them without a timestamp: XYZ is bought
    and sold with timestamps, INFY without. *)
Lemma unparseable_timestamps_replay_last_witness :
  let a := mkTrade NaT "INFY" "BUY" 10 100 1000 in
  let b := mkTrade (Ts 5) "XYZ" "SELL" 500 60 30000 in
  let c := mkTrade NaT "INFY" "SELL" 10 110 1100 in
  let d := mkTrade (Ts 2) "XYZ" "BUY" 500 50 25000 in
  Pandas.sort_values [a; b; c; d] = [d; b; a; c] /\
  _replay_trades [a; b; c; d]
  = fold_left replay_row [d; b; a; c] ledger0 /\
  Pandas.ts_le (Ts 5) NaT.
Proof.
  cbv zeta.
  pose proof (unparseable_timestamps_replay_last
                [mkTrade NaT "INFY" "BUY" 10 100 1000;
                 mkTrade (Ts 5) "XYZ" "SELL" 500 60 30000;
                 mkTrade NaT "INFY" "SELL" 10 110 1100;
                 mkTrade (Ts 2) "XYZ" "BUY" 500 50 25000])
    as (_ & _ & _ & Hn & _ & Hs & Hr).
  split; [exact Hs|]. split; [exact Hr|]. apply Hn.
Defined.

(* ================================================================== *)
(** * One entry per symbol *)
(* ================================================================== *)

Section DictKeys.
Context {V : Type}.
Implicit Types (d : PyDict.t V) (k : string) (v : V).

Lemma mem_cons_other k k' v' d :
  String.eqb k k' = false -> PyDict.mem k ((k', v') :: d) = PyDict.mem k d.
Proof. intros E. unfold PyDict.mem. simpl. rewrite E. reflexivity. Qed.

Lemma lookup_none_keys k d :
  PyDict.lookup k d = None <-> ~ In k (PyDict.keys d).
Proof.
  unfold PyDict.keys.
  induction d as [|[k' v'] d IH]; simpl; [tauto|].
  destruct (String.eqb k k') eqn:E.
  - apply String.eqb_eq in E. subst k'. split; [discriminate|].
    intros H. exfalso. apply H. left. reflexivity.
  - apply String.eqb_neq in E. rewrite IH. split.
    + intros H [H1 | H1]; [apply E; symmetry; exact H1 | exact (H H1)].
    + intros H H1. apply H. right. exact H1.
Qed.

Lemma keys_set k v d :
  PyDict.keys (PyDict.set k v d)
  = if PyDict.mem k d then PyDict.keys d else (PyDict.keys d ++ [k])%list.
Proof.
  unfold PyDict.keys.
  induction d as [|[k' v'] d IH]; [reflexivity|].
  cbn [PyDict.set]. destruct (String.eqb k k') eqn:E.
  - unfold PyDict.mem. simpl. rewrite E. reflexivity.
  - rewrite (mem_cons_other k k' v' d E). cbn [map fst]. rewrite IH.
    destruct (PyDict.mem k d); reflexivity.
Qed.

Lemma NoDup_keys_set k v d :
  NoDup (PyDict.keys d) -> NoDup (PyDict.keys (PyDict.set k v d)).
Proof.
  intros N. rewrite keys_set.
  destruct (PyDict.mem k d) eqn:E; [exact N|].
  apply mem_false_lookup, lookup_none_keys in E.
  apply NoDup_app; [exact N | repeat constructor; intros [] |].
  intros x Hx [<- | []]. exact (E Hx).
Qed.

Lemma keys_remove_incl k d x :
  In x (PyDict.keys (PyDict.remove k d)) -> In x (PyDict.keys d).
Proof.
  unfold PyDict.keys, PyDict.remove. rewrite !in_map_iff.
  intros (y & Hy & Hin). apply filter_In in Hin. exists y. tauto.
Qed.

Lemma NoDup_keys_remove k d :
  NoDup (PyDict.keys d) -> NoDup (PyDict.keys (PyDict.remove k d)).
Proof.
  induction d as [|[k' v'] d IH]; intros N; [constructor|].
  inversion N as [|? ? Hk N']; subst.
  unfold PyDict.remove. cbn [filter fst].
  destruct (negb (String.eqb k k')); [|apply IH; exact N'].
  cbn [PyDict.keys map fst]. constructor; [|apply IH; exact N'].
  intros H. apply Hk. eapply keys_remove_incl. exact H.
Qed.

Lemma remove_absent k d : ~ In k (PyDict.keys d) -> PyDict.remove k d = d.
Proof.
  unfold PyDict.remove, PyDict.keys.
  induction d as [|[k' v'] d IH]; intros H; [reflexivity|].
  cbn [filter fst]. destruct (String.eqb k k') eqn:E.
  - apply String.eqb_eq in E. subst k'. exfalso. apply H. left. reflexivity.
  - cbn [negb]. rewrite IH; [reflexivity|].
    intros H1. apply H. right. exact H1.
Qed.

Lemma lookup_remove_other k k' d :
  k <> k' -> PyDict.lookup k' (PyDict.remove k d) = PyDict.lookup k' d.
Proof.
  intros Hne. unfold PyDict.remove.
  induction d as [|[k0 v0] d IH]; [reflexivity|].
  cbn [filter fst PyDict.lookup].
  destruct (String.eqb k k0) eqn:E; cbn [negb].
  - apply String.eqb_eq in E. subst k0.
    assert (E' : String.eqb k' k = false)
      by (apply String.eqb_neq; intro H; apply Hne; symmetry; exact H).
    rewrite E'. exact IH.
  - cbn [PyDict.lookup]. rewrite IH. reflexivity.
Qed.

Lemma lookup_set_other k k' v d :
  k <> k' -> PyDict.lookup k' (PyDict.set k v d) = PyDict.lookup k' d.
Proof.
  intros Hne.
  induction d as [|[k0 v0] d IH]; cbn [PyDict.set PyDict.lookup].
  - assert (E : String.eqb k' k = false)
      by (apply String.eqb_neq; intro H; apply Hne; symmetry; exact H).
    rewrite E. reflexivity.
  - destruct (String.eqb k k0) eqn:E; cbn [PyDict.lookup].
    + apply String.eqb_eq in E. subst k0.
      assert (E' : String.eqb k' k = false)
        by (apply String.eqb_neq; intro H; apply Hne; symmetry; exact H).
      rewrite E'. reflexivity.
    + rewrite IH. reflexivity.
Qed.

End DictKeys.

(* ================================================================== *)
(** * The cost basis of a book *)
(* ================================================================== *)

Lemma Qsum_app (xs ys : list Q) : Qsum (xs ++ ys) == Qsum xs + Qsum ys.
Proof.
  induction xs as [|x xs IH]; simpl.
  - ring.
  - fold (Qsum (xs ++ ys)) (Qsum xs). rewrite IH. ring.
Qed.

Lemma cost_basis_sum (d : PyDict.t Position) :
  cost_basis d == Qsum (map position_cost (PyDict.values d)).
Proof.
  unfold cost_basis. rewrite fold_left_Qplus. unfold position_cost. ring.
Qed.

Lemma cost_basis_set_absent (k : string) (pos : Position) (d : PyDict.t Position) :
  PyDict.lookup k d = None ->
  cost_basis (PyDict.set k pos d) == cost_basis d + position_cost pos.
Proof.
  intros H. rewrite (set_absent k pos d H), !cost_basis_sum.
  unfold PyDict.values. rewrite !map_app, Qsum_app. simpl. ring.
Qed.

Lemma cost_basis_remove (k : string) (pos : Position) (d : PyDict.t Position) :
  NoDup (PyDict.keys d) -> PyDict.lookup k d = Some pos ->
  cost_basis (PyDict.remove k d) == cost_basis d - position_cost pos.
Proof.
  rewrite !cost_basis_sum.
  induction d as [|[k' v'] d IH]; intros N L; [discriminate|].
  inversion N as [|? ? Hk N']; subst.
  cbn [PyDict.lookup] in L. unfold PyDict.remove. cbn [filter fst].
  destruct (String.eqb k k') eqn:E; cbn [negb].
  - injection L as ->. apply String.eqb_eq in E. subst k'.
    fold (PyDict.remove k d). rewrite (remove_absent k d Hk).
    unfold PyDict.values. simpl. fold (Qsum (map position_cost (map snd d))).
    ring.
  - fold (PyDict.remove k d).
    unfold PyDict.values in *. cbn [map snd Qsum fold_right].
    fold (Qsum (map position_cost (map snd (PyDict.remove k d)))).
    fold (Qsum (map position_cost (map snd d))).
    rewrite (IH N' L). ring.
Qed.

(* ================================================================== *)
(** * What one signal can do *)
(* ================================================================== *)

Section ApplyCases.

Variable yf_download : nat -> string -> option Q.
Variables (approx_equity : Q) (now_iso : Timestamp).

(** The four things the loop body can do with a signal. *)
Lemma apply_signal_cases (st : ApplyState) (sig : TradingSignal) :
  let sym := symbol sig in
  let price := _get_latest_price yf_download (st_calls st) sym in
  let st' := apply_signal yf_download approx_equity now_iso st sig in
  st' = st \/
  st' = mkApplyState (st_cash st) (st_positions st) (st_realized_pnl st)
                     (st_new_trades st) (S (st_calls st)) \/
  (exists n : Z,
      (1 <= n)%Z /\ 0 < price /\ PyDict.lookup sym (st_positions st) = None /\
      st' = mkApplyState
              (st_cash st - inject_Z n * price)
              (PyDict.set sym (mkPosition (inject_Z n) price) (st_positions st))
              (st_realized_pnl st)
              (st_new_trades st ++
                 [mkTrade now_iso sym "BUY" (inject_Z n) price
                          (inject_Z n * price)])%list
              (S (st_calls st))) \/
  (exists pos : Position,
      0 < price /\ PyDict.lookup sym (st_positions st) = Some pos /\
      st' = mkApplyState
              (st_cash st + qty pos * price)
              (PyDict.remove sym (st_positions st))
              (st_realized_pnl st + (price - avg_cost pos) * qty pos)
              (st_new_trades st ++
                 [mkTrade now_iso sym "SELL" (qty pos) price
                          (qty pos * price)])%list
              (S (st_calls st))).
Proof.
  intros sym price st'. subst st'. unfold apply_signal. fold sym price.
  destruct (String.eqb _ "BUY" && negb _)%bool eqn:Eb.
  - apply andb_prop in Eb. destruct Eb as [_ Em].
    apply negb_true_iff, mem_false_lookup in Em.
    destruct (Qle_bool price 0) eqn:Ep; [right; left; reflexivity|].
    assert (Hp : 0 < price).
    { apply Qnot_le_lt. intro H. apply Qle_bool_iff in H. congruence. }
    destruct (Qfloor _ <=? 0)%Z eqn:Eq; [right; left; reflexivity|].
    right. right. left. eexists. split; [|split; [exact Hp|split; [exact Em|]]].
    + apply Z.leb_gt in Eq. apply Z.le_succ_l in Eq. exact Eq.
    + reflexivity.
  - destruct (String.eqb _ "SELL" && _)%bool eqn:Es; [|left; reflexivity].
    destruct (Qle_bool price 0) eqn:Ep; [right; left; reflexivity|].
    assert (Hp : 0 < price).
    { apply Qnot_le_lt. intro H. apply Qle_bool_iff in H. congruence. }
    destruct (PyDict.lookup sym (st_positions st)) as [pos|] eqn:El;
      [|left; reflexivity].
    right. right. right. exists pos. repeat split; assumption.
Qed.

(** Replaying the rows a signal adds to the log takes the ledger of the loop
    from its old to its new value. *)
Lemma apply_signal_replays (st : ApplyState) (sig : TradingSignal) :
  let st' := apply_signal yf_download approx_equity now_iso st sig in
  exists delta,
    st_new_trades st' = (st_new_trades st ++ delta)%list /\
    Forall (written_by_loop now_iso) delta /\
    (List.length delta <= 1)%nat /\
    fold_left replay_row delta (ledger_of st) = ledger_of st' /\
    (st_calls st <= st_calls st' <= S (st_calls st))%nat.
Proof.
  cbv zeta.
  destruct (apply_signal_cases st sig)
    as [E | [E | [(n & Hn & Hp & Hl & E) | (pos & Hp & Hl & E)]]];
    rewrite E; clear E.
  - exists []. rewrite app_nil_r. repeat split; auto.
  - exists []. cbn [st_new_trades st_calls]. rewrite app_nil_r.
    repeat split; auto.
  - eexists [_]. cbn [st_new_trades st_calls].
    split; [reflexivity|]. split; [|split; [auto|split; [reflexivity|lia]]].
    constructor; [|constructor].
    unfold written_by_loop. cbn.
    repeat split; try assumption. left. split; [reflexivity|].
    exists n. split; [exact Hn | reflexivity].
  - eexists [_]. cbn [st_new_trades st_calls].
    split; [reflexivity|]. split; [|split; [auto|split; [|lia]]].
    + constructor; [|constructor].
      unfold written_by_loop. cbn.
      repeat split; try assumption. right. reflexivity.
    + cbn [fold_left]. unfold replay_row, ledger_of.
      cbn [t_side t_symbol t_qty t_price positions cash realized_pnl
             st_cash st_positions st_realized_pnl].
      change (String.eqb (PyStr.upper "SELL") "BUY") with false.
      change (String.eqb (PyStr.upper "SELL") "SELL") with true.
      cbv iota. rewrite Hl. reflexivity.
Qed.

Lemma apply_loop_replays (all_signals : list TradingSignal) :
  forall st,
    let st' := fold_left (apply_signal yf_download approx_equity now_iso)
                         all_signals st in
    exists delta,
      st_new_trades st' = (st_new_trades st ++ delta)%list /\
      Forall (written_by_loop now_iso) delta /\
      (List.length delta <= List.length all_signals)%nat /\
      fold_left replay_row delta (ledger_of st) = ledger_of st' /\
      (st_calls st <= st_calls st'
       <= st_calls st + List.length all_signals)%nat.
Proof.
  induction all_signals as [|sig sigs IH]; intros st; cbv zeta.
  - exists []. cbn. rewrite app_nil_r. repeat split; auto; lia.
  - cbn [fold_left List.length].
    destruct (apply_signal_replays st sig) as (d1 & T1 & W1 & L1 & R1 & C1).
    destruct (IH (apply_signal yf_download approx_equity now_iso st sig))
      as (d2 & T2 & W2 & L2 & R2 & C2).
    exists (d1 ++ d2)%list.
    split; [rewrite T2, T1, app_assoc; reflexivity|].
    split; [apply Forall_app; split; assumption|].
    split; [rewrite length_app; lia|].
    split; [rewrite fold_left_app, R1; exact R2 | lia].
Qed.

(** The loop keeps one entry per symbol and keeps
    cash + cost basis - realized P&L where it was. *)
Lemma apply_signal_wealth (st : ApplyState) (sig : TradingSignal) :
  NoDup (PyDict.keys (st_positions st)) ->
  let st' := apply_signal yf_download approx_equity now_iso st sig in
  NoDup (PyDict.keys (st_positions st')) /\
  st_cash st' + cost_basis (st_positions st') - st_realized_pnl st'
  == st_cash st + cost_basis (st_positions st) - st_realized_pnl st.
Proof.
  intros N. cbv zeta.
  destruct (apply_signal_cases st sig)
    as [E | [E | [(n & Hn & Hp & Hl & E) | (pos & Hp & Hl & E)]]];
    rewrite E; clear E;
    cbn [st_cash st_positions st_realized_pnl].
  - split; [exact N | reflexivity].
  - split; [exact N | reflexivity].
  - split; [apply NoDup_keys_set; exact N|].
    rewrite (cost_basis_set_absent _ _ _ Hl).
    unfold position_cost. cbn [qty avg_cost]. ring.
  - split; [apply NoDup_keys_remove; exact N|].
    rewrite (cost_basis_remove _ pos _ N Hl).
    unfold position_cost. ring.
Qed.

Lemma apply_loop_wealth (all_signals : list TradingSignal) :
  forall st,
    NoDup (PyDict.keys (st_positions st)) ->
    let st' := fold_left (apply_signal yf_download approx_equity now_iso)
                         all_signals st in
    NoDup (PyDict.keys (st_positions st')) /\
    st_cash st' + cost_basis (st_positions st') - st_realized_pnl st'
    == st_cash st + cost_basis (st_positions st) - st_realized_pnl st.
Proof.
  induction all_signals as [|sig sigs IH]; intros st N; cbv zeta.
  - split; [exact N | reflexivity].
  - cbn [fold_left].
    destruct (apply_signal_wealth st sig N) as [N1 W1].
    destruct (IH _ N1) as [N2 W2].
    split; [exact N2|]. rewrite W2. exact W1.
Qed.

End ApplyCases.

(* ================================================================== *)
(** * Chronological logs *)
(* ================================================================== *)

Section Chronological.

Import Pandas.

Lemma ts_le_refl (a : Timestamp) : ts_le a a.
Proof. destruct (ts_le_total a a); assumption. Qed.

Lemma insert_row_first (r : Trade) (l : list Trade) :
  Forall (row_le r) l -> insert_row r l = r :: l.
Proof.
  intros H. destruct l as [|x l]; [reflexivity|].
  inversion H as [|? ? Hx _]; subst. cbn [insert_row].
  unfold row_le, ts_le in Hx. rewrite Hx. reflexivity.
Qed.

Lemma sort_values_sorted_id (l : list Trade) :
  StronglySorted row_le l -> sort_values l = l.
Proof.
  induction 1 as [|x l Hs IH Hx]; [reflexivity|].
  cbn [sort_values]. rewrite IH. apply insert_row_first. exact Hx.
Qed.

Lemma insert_row_app (r : Trade) (l new : list Trade) :
  Forall (row_le r) new ->
  insert_row r (l ++ new) = (insert_row r l ++ new)%list.
Proof.
  intros H. induction l as [|x l IH]; cbn [app insert_row].
  - apply insert_row_first. exact H.
  - destruct (ts_leb _ _); [reflexivity|]. rewrite IH. reflexivity.
Qed.

Lemma sort_values_app (old new : list Trade) :
  (forall r x, In r old -> In x new -> row_le r x) ->
  StronglySorted row_le new ->
  sort_values (old ++ new) = (sort_values old ++ new)%list.
Proof.
  intros H S. induction old as [|r old IH]; cbn [app sort_values].
  - apply sort_values_sorted_id. exact S.
  - rewrite IH by (intros; apply H; [right|]; assumption).
    apply insert_row_app. apply Forall_forall.
    intros x Hx. apply H; [left; reflexivity | exact Hx].
Qed.

Lemma same_stamp_sorted (now : Timestamp) (new : list Trade) :
  Forall (fun r => t_timestamp r = now) new -> StronglySorted row_le new.
Proof.
  induction 1 as [|x l Hx Hl IH]; constructor; [exact IH|].
  eapply Forall_impl; [|exact Hl].
  intros y Hy. unfold row_le. rewrite Hx, Hy. apply ts_le_refl.
Qed.

(** With ties left in file order, rows stamped with the clock of a run
    that is not behind the log are replayed after the log, in the order
    they were written. *)
Lemma replay_app_chronological (now : Timestamp) (old new : list Trade) :
  (forall r, In r old -> ts_le (t_timestamp r) now) ->
  Forall (fun r => t_timestamp r = now) new ->
  _replay_trades (old ++ new) = fold_left replay_row new (_replay_trades old).
Proof.
  intros Ho Hn.
  assert (E : sort_values (old ++ new) = (sort_values old ++ new)%list).
  { apply sort_values_app; [|eapply same_stamp_sorted; exact Hn].
    intros r x Hr Hx. unfold row_le.
    rewrite Forall_forall in Hn. rewrite (Hn x Hx). apply Ho. exact Hr. }
  unfold _replay_trades, replay_with. rewrite E, fold_left_app.
  destruct old as [|r old]; [|reflexivity].
  destruct new; reflexivity.
Qed.

Lemma replay_row_keys (st : Ledger) (row : Trade) :
  NoDup (PyDict.keys (positions st)) ->
  NoDup (PyDict.keys (positions (replay_row st row))).
Proof.
  intros N. unfold replay_row.
  destruct (String.eqb _ "BUY"); [apply NoDup_keys_set; exact N|].
  destruct (String.eqb _ "SELL"); [|exact N].
  destruct (PyDict.lookup _ _); [apply NoDup_keys_remove|]; exact N.
Qed.

Lemma replay_rows_keys (rows : list Trade) :
  forall st, NoDup (PyDict.keys (positions st)) ->
             NoDup (PyDict.keys (positions (fold_left replay_row rows st))).
Proof.
  induction rows as [|r rows IH]; intros st N; [exact N|].
  cbn [fold_left]. apply IH, replay_row_keys, N.
Qed.

Lemma replay_keys (df : list Trade) :
  NoDup (PyDict.keys (positions (_replay_trades df))).
Proof.
  unfold _replay_trades, replay_with.
  destruct df; [constructor|]. apply replay_rows_keys. constructor.
Qed.

End Chronological.

Section RunFacts.

Variable yf_download : nat -> string -> option Q.

(** How a run decomposes: the log it leaves is the log it found plus the
    rows of its loop, and the snapshot is taken from the log it leaves. *)
Lemma apply_result_parts
    (trades_df : list Trade) (now_iso now_hist : Timestamp) (calls : nat)
    (all_signals : list TradingSignal) :
  let led := _replay_trades trades_df in
  let r := apply_signals_and_update_portfolio
             yf_download trades_df now_iso now_hist calls all_signals in
  r_loop r
  = fold_left (apply_signal yf_download
                 (cash led + cost_basis (positions led)) now_iso)
      all_signals
      (mkApplyState (cash led) (positions led) (realized_pnl led) [] calls) /\
  r_trades_df r = (trades_df ++ st_new_trades (r_loop r))%list /\
  r_snapshot r
  = fst (_compute_snapshot yf_download (st_calls (r_loop r)) (r_trades_df r)).
Proof.
  cbv zeta. unfold apply_signals_and_update_portfolio.
  destruct (_compute_snapshot _ _ _) as [snap n].
  cbn [r_loop r_trades_df r_snapshot]. repeat split; reflexivity.
Qed.

Lemma apply_result_delta
    (trades_df : list Trade) (now_iso now_hist : Timestamp) (calls : nat)
    (all_signals : list TradingSignal) :
  let r := apply_signals_and_update_portfolio
             yf_download trades_df now_iso now_hist calls all_signals in
  exists delta,
    r_trades_df r = (trades_df ++ delta)%list /\
    st_new_trades (r_loop r) = delta /\
    Forall (written_by_loop now_iso) delta /\
    (List.length delta <= List.length all_signals)%nat /\
    fold_left replay_row delta (_replay_trades trades_df)
    = ledger_of (r_loop r) /\
    (calls <= st_calls (r_loop r) <= calls + List.length all_signals)%nat.
Proof.
  cbv zeta.
  destruct (apply_result_parts trades_df now_iso now_hist calls all_signals)
    as (L & T & _).
  rewrite T, L.
  match goal with
  | |- context [fold_left ?f all_signals ?s] =>
    destruct (apply_loop_replays yf_download
                (cash (_replay_trades trades_df)
                 + cost_basis (positions (_replay_trades trades_df)))
                now_iso all_signals s) as (d & Hd & W & Len & R & C)
  end.
  cbn [st_new_trades st_calls app] in Hd, C.
  exists d. rewrite Hd.
  repeat split; try assumption; try lia.
  rewrite <- R. unfold ledger_of. cbn. destruct (_replay_trades trades_df).
  reflexivity.
Qed.

End RunFacts.

(* ================================================================== *)
(** * Properties of a run of the ledger *)
(* ================================================================== *)

(** X1.  A run only appends to the trade log: the rows it found stay in
    place, it adds at most one row per signal, and every row it adds is
    stamped with the clock of the run, has a price above 0 and a value of
    qty * price, and is a SELL or a BUY of a whole number of shares, at
    least one.  It asks the price source at most once per signal before the
    snapshot. *)
Theorem run_appends_well_formed_rows
    (yf_download : nat -> string -> option Q)
    (trades_df : list Trade) (now_iso now_hist : Timestamp) (calls : nat)
    (all_signals : list TradingSignal) :
  let r := apply_signals_and_update_portfolio
             yf_download trades_df now_iso now_hist calls all_signals in
  exists delta,
    r_trades_df r = (trades_df ++ delta)%list /\
    Forall (written_by_loop now_iso) delta /\
    (List.length delta <= List.length all_signals)%nat /\
    (calls <= st_calls (r_loop r) <= calls + List.length all_signals)%nat.
Proof.
  cbv zeta.
  destruct (apply_result_delta yf_download trades_df now_iso now_hist calls
              all_signals) as (d & T & _ & W & L & _ & C).
  exists d. repeat split; try assumption; lia.
Qed.

Lemma snapshot_entries_symbols
    (yf_download : nat -> string -> option Q)
    (items : list (string * Position)) :
  forall n, map mp_symbol (snapshot_entries yf_download n items) = map fst items.
Proof.
  induction items as [|it items IH]; intros n; [reflexivity|].
  cbn [snapshot_entries map]. rewrite IH. reflexivity.
Qed.

(** X2.  When the log a run leaves holds no two rows of the same timestamp
    and the log it found holds no row stamped later than the clock of the
    run, the snapshot the run returns shows the ledger its loop ended with,
    whatever algorithm sorts the log by timestamp: that algorithm replays
    the log the run found to the ledger the loop started from and the log
    the run leaves to the loop's cash, positions and realized P&L, and the
    snapshot lists the loop's open symbols in their order. *)
Theorem snapshot_shows_loop_ledger
    (yf_download : nat -> string -> option Q)
    (sort : list Trade -> list Trade)
    (trades_df : list Trade) (now_iso now_hist : Timestamp) (calls : nat)
    (all_signals : list TradingSignal) :
  sorts_by_timestamp sort ->
  (forall row, In row trades_df -> Pandas.ts_le (t_timestamp row) now_iso) ->
  let r := apply_signals_and_update_portfolio
             yf_download trades_df now_iso now_hist calls all_signals in
  NoDup (map t_timestamp (r_trades_df r)) ->
  replay_with sort trades_df = _replay_trades trades_df /\
  replay_with sort (r_trades_df r) = ledger_of (r_loop r) /\
  snap_cash (r_snapshot r) = st_cash (r_loop r) /\
  snap_realized_pnl (r_snapshot r) = st_realized_pnl (r_loop r) /\
  map mp_symbol (snap_positions (r_snapshot r))
  = PyDict.keys (st_positions (r_loop r)).
Proof.
  intros Hsort Hchrono. cbv zeta. intros Hdistinct.
  destruct (apply_result_delta yf_download trades_df now_iso now_hist calls
              all_signals) as (d & T & _ & W & _ & R & _).
  destruct (apply_result_parts yf_download trades_df now_iso now_hist calls
              all_signals) as (_ & _ & S).
  assert (E : _replay_trades
                (r_trades_df
                   (apply_signals_and_update_portfolio
                      yf_download trades_df now_iso now_hist calls all_signals))
              = ledger_of
                  (r_loop
                     (apply_signals_and_update_portfolio
                        yf_download trades_df now_iso now_hist calls
                        all_signals))).
  { rewrite T, <- R. apply (replay_app_chronological now_iso); [exact Hchrono|].
    eapply Forall_impl; [|exact W]. intros row Hrow. apply Hrow. }
  split.
  { apply replay_algorithm_irrelevant;
      [exact Hsort | exact sort_values_contract |].
    rewrite T, map_app in Hdistinct.
    apply NoDup_app_remove_r in Hdistinct. exact Hdistinct. }
  split.
  { rewrite <- E.
    apply replay_algorithm_irrelevant;
      [exact Hsort | exact sort_values_contract | exact Hdistinct]. }
  rewrite S.
  match goal with
  | |- context [_compute_snapshot ?y ?c ?df] =>
    destruct (snapshot_positions_entries y c df) as (Hp & _ & Hc)
  end.
  rewrite Hc, Hp, snapshot_entries_symbols.
  unfold _compute_snapshot. cbn [fst snd snap_realized_pnl].
  rewrite E. repeat split; reflexivity.
Qed.

(** A log with one BUY at time 1 and a run at time 5 that sells it at 60
    and holds INFY. *)
Lemma snapshot_shows_loop_ledger_witness :
  let yf := fun (_ : nat) (_ : string) => Some 60 in
  let log := [mkTrade (Ts 1) "XYZ" "BUY" 500 50 25000] in
  let r := apply_signals_and_update_portfolio
             yf log (Ts 5) (Ts 6) 0 [order "XYZ" "SELL"; order "INFY" "HOLD"] in
  map t_timestamp (r_trades_df r) = [Ts 1; Ts 5] /\
  replay_with Pandas.sort_values (r_trades_df r) = ledger_of (r_loop r) /\
  snap_cash (r_snapshot r) = st_cash (r_loop r) /\
  map mp_symbol (snap_positions (r_snapshot r))
  = PyDict.keys (st_positions (r_loop r)).
Proof.
  cbv zeta.
  split; [reflexivity|].
  destruct (snapshot_shows_loop_ledger
              (fun _ _ => Some 60) Pandas.sort_values
              [mkTrade (Ts 1) "XYZ" "BUY" 500 50 25000] (Ts 5) (Ts 6) 0%nat
              [order "XYZ" "SELL"; order "INFY" "HOLD"])
    as (_ & H2 & H3 & _ & H5).
  - exact sort_values_contract.
  - intros row [<- | []]. reflexivity.
  - repeat constructor; simpl; intuition discriminate.
  - split; [exact H2|]. split; [exact H3 | exact H5].
Defined.

(** X3.  Through the signal loop, cash plus the cost basis of the open
    positions minus the realized P&L stays what replay made it: a BUY moves
    cash into cost basis, a SELL moves cost basis and the realized gain into
    cash; and the loop keeps one position per symbol. *)
Theorem loop_keeps_books_balanced
    (yf_download : nat -> string -> option Q)
    (trades_df : list Trade) (now_iso now_hist : Timestamp) (calls : nat)
    (all_signals : list TradingSignal) :
  let led := _replay_trades trades_df in
  let st := r_loop (apply_signals_and_update_portfolio
                      yf_download trades_df now_iso now_hist calls all_signals) in
  NoDup (PyDict.keys (st_positions st)) /\
  st_cash st + cost_basis (st_positions st) - st_realized_pnl st
  == cash led + cost_basis (positions led) - realized_pnl led.
Proof.
  cbv zeta.
  destruct (apply_result_parts yf_download trades_df now_iso now_hist calls
              all_signals) as (L & _ & _).
  rewrite L.
  match goal with
  | |- context [fold_left (apply_signal ?y ?ae ?now) all_signals ?s] =>
    destruct (apply_loop_wealth y ae now all_signals s) as [N W]
  end.
  { cbn [st_positions]. apply replay_keys. }
  split; [exact N|]. rewrite W. reflexivity.
Qed.

Lemma snapshot_entries_value
    (yf_download : nat -> string -> option Q)
    (items : list (string * Position)) :
  forall n,
    Qsum (map mp_market_value (snapshot_entries yf_download n items))
    == Qsum (map position_cost (map snd items))
       + Qsum (map mp_unrealized_pnl (snapshot_entries yf_download n items)).
Proof.
  induction items as [|[sym pos] items IH]; intros n.
  - simpl. ring.
  - cbn [snapshot_entries map Qsum fold_right snd].
    fold (Qsum (map mp_market_value
                    (snapshot_entries yf_download (S n) items))).
    fold (Qsum (map position_cost (map snd items))).
    fold (Qsum (map mp_unrealized_pnl
                    (snapshot_entries yf_download (S n) items))).
    rewrite (IH (S n)). unfold snapshot_entry, position_cost.
    cbn [mp_market_value mp_unrealized_pnl fst snd]. ring.
Qed.

(** X5.  In every snapshot the unrealized P&L is the sum of the positions'
    unrealized P&L, the equity is cash plus the cost basis of the open
    positions plus the unrealized P&L, and the price source is asked once
    per open position. *)
Theorem snapshot_equity_decomposition
    (yf_download : nat -> string -> option Q)
    (calls : nat) (trades_df : list Trade) :
  let led := _replay_trades trades_df in
  let res := _compute_snapshot yf_download calls trades_df in
  snap_unrealized_pnl (fst res)
  == Qsum (map mp_unrealized_pnl (snap_positions (fst res))) /\
  snap_equity (fst res)
  == snap_cash (fst res) + cost_basis (positions led)
     + snap_unrealized_pnl (fst res) /\
  snd res = (calls + List.length (PyDict.items (positions led)))%nat.
Proof.
  cbv zeta. unfold _compute_snapshot. cbn [fst snd].
  rewrite snapshot_fold.
  cbn [sn_unrealized_pnl sn_equity sn_market_positions sn_calls
         snap_unrealized_pnl snap_equity snap_cash snap_positions app].
  rewrite !fold_left_Qplus, cost_basis_sum.
  split; [ring|]. split; [|reflexivity].
  rewrite snapshot_entries_value. unfold PyDict.values, PyDict.items. ring.
Qed.

(** X6.  A log whose rows are in strictly ascending order of timestamp, no
    two rows sharing one, is replayed in file order: every algorithm that
    sorts by timestamp leaves it as it is. *)
Theorem sorted_log_replays_in_file_order
    (sort : list Trade -> list Trade) (df : list Trade) :
  sorts_by_timestamp sort ->
  StronglySorted Pandas.row_le df ->
  NoDup (map t_timestamp df) ->
  sort df = df /\
  replay_with sort df = fold_left replay_row df ledger0 /\
  _replay_trades df = fold_left replay_row df ledger0.
Proof.
  intros C S N.
  assert (E : sort df = df).
  { destruct (C df) as [P S'].
    symmetry. apply sorted_perm_unique; assumption. }
  assert (R : replay_with sort df = fold_left replay_row df ledger0).
  { unfold replay_with. rewrite E. destruct df; reflexivity. }
  split; [exact E|]. split; [exact R|].
  rewrite <- R. symmetry.
  apply replay_algorithm_irrelevant;
    [exact C | exact sort_values_contract | exact N].
Qed.

Lemma sorted_log_replays_in_file_order_witness :
  let log := [mkTrade (Ts 1) "XYZ" "BUY" 500 50 25000;
              mkTrade (Ts 2) "INFY" "BUY" 10 100 1000;
              mkTrade (Ts 4) "XYZ" "SELL" 500 60 30000;
              mkTrade NaT "INFY" "SELL" 10 90 900] in
  Pandas.sort_values log = log /\
  _replay_trades log = fold_left replay_row log ledger0.
Proof.
  cbv zeta.
  destruct (sorted_log_replays_in_file_order Pandas.sort_values
              [mkTrade (Ts 1) "XYZ" "BUY" 500 50 25000;
               mkTrade (Ts 2) "INFY" "BUY" 10 100 1000;
               mkTrade (Ts 4) "XYZ" "SELL" 500 60 30000;
               mkTrade NaT "INFY" "SELL" 10 90 900])
    as (H1 & _ & H3).
  - exact sort_values_contract.
  - repeat constructor.
  - repeat constructor; simpl; intuition discriminate.
  - split; [exact H1 | exact H3].
Defined.

Lemma cost_basis_set_present
    (k : string) (pos old : Position) (d : PyDict.t Position) :
  PyDict.lookup k d = Some old ->
  cost_basis (PyDict.set k pos d)
  == cost_basis d - position_cost old + position_cost pos.
Proof.
  rewrite !cost_basis_sum. unfold PyDict.values.
  induction d as [|[k' v'] d IH]; intros L; [discriminate|].
  cbn [PyDict.lookup PyDict.set] in *.
  destruct (String.eqb k k').
  - injection L as ->. cbn [map snd Qsum fold_right].
    fold (Qsum (map position_cost (map snd d))). ring.
  - cbn [map snd Qsum fold_right].
    fold (Qsum (map position_cost (map snd (PyDict.set k pos d)))).
    fold (Qsum (map position_cost (map snd d))).
    rewrite (IH L). ring.
Qed.

(** X7.  In replay a BUY row for a symbol that is already held replaces the
    open lot: afterwards the position is exactly the row's lot, the other
    positions and the order of the symbols are as before, the row's cost is
    debited and nothing is realized; the cost of the earlier lot leaves the
    book, so cash plus cost basis drops by it. *)
Theorem replay_buy_replaces_open_lot (st : Ledger) (row : Trade) (old : Position) :
  PyStr.upper (t_side row) = "BUY" ->
  PyDict.lookup (t_symbol row) (positions st) = Some old ->
  let st' := replay_row st row in
  PyDict.lookup (t_symbol row) (positions st')
  = Some (mkPosition (t_qty row) (t_price row)) /\
  PyDict.keys (positions st') = PyDict.keys (positions st) /\
  (forall k, k <> t_symbol row ->
             PyDict.lookup k (positions st') = PyDict.lookup k (positions st)) /\
  cash st' = cash st - t_qty row * t_price row /\
  realized_pnl st' = realized_pnl st /\
  cash st' + cost_basis (positions st')
  == cash st + cost_basis (positions st) - position_cost old.
Proof.
  intros Hb Hl st'. subst st'. rewrite (replay_buy st row Hb).
  cbn [cash positions realized_pnl].
  split; [apply lookup_set_same|].
  split.
  { rewrite keys_set. unfold PyDict.mem. rewrite Hl. reflexivity. }
  split.
  { intros k Hk. apply lookup_set_other. intro E. apply Hk. symmetry. exact E. }
  split; [reflexivity|]. split; [reflexivity|].
  rewrite (cost_basis_set_present _ _ old _ Hl).
  unfold position_cost at 2. cbn [qty avg_cost]. ring.
Qed.

(** XYZ is held at 500 shares of cost 50 and the log buys 100 more at 70:
    the book then holds 100 shares at 70. *)
Lemma replay_buy_replaces_open_lot_witness :
  let st := mkLedger 75000 [("XYZ", mkPosition 500 50)] 0 in
  let st' := replay_row st (mkTrade (Ts 3) "XYZ" "BUY" 100 70 7000) in
  PyDict.lookup "XYZ" (positions st') = Some (mkPosition 100 70) /\
  cash st' + cost_basis (positions st')
  == cash st + cost_basis (positions st) - position_cost (mkPosition 500 50).
Proof.
  cbv zeta.
  destruct (replay_buy_replaces_open_lot
              (mkLedger 75000 [("XYZ", mkPosition 500 50)] 0)
              (mkTrade (Ts 3) "XYZ" "BUY" 100 70 7000)
              (mkPosition 500 50) eq_refl eq_refl)
    as (H1 & _ & _ & _ & _ & H6).
  split; [exact H1 | exact H6].
Defined.

(* ================================================================== *)
(** * More on the aggregator and the signal generator *)
(* ================================================================== *)

Section AggregatorSums.

Lemma agg_fold_label_counts (l : list ArticleSentiment) :
  forall acc,
    let r := fold_left agg_step l acc in
    pos_count r = (pos_count acc + count_if labelled_positive l)%Z /\
    neg_count r = (neg_count acc + count_if labelled_negative l)%Z /\
    neu_count r = (neu_count acc + count_if labelled_neutral l)%Z.
Proof.
  unfold count_if.
  induction l as [|x l IH]; intros acc; cbv zeta.
  - simpl. lia.
  - cbn [fold_left filter].
    destruct (IH (agg_step acc x)) as (Hp & Hn & Hu).
    rewrite Hp, Hn, Hu. clear IH Hp Hn Hu.
    unfold agg_step. cbn [pos_count neg_count neu_count].
    unfold labelled_neutral, labelled_negative, labelled_positive,
      article_label.
    destruct (String.eqb _ "positive"); cbn [negb andb];
      [|destruct (String.eqb _ "negative"); cbn [negb andb]];
      cbn [List.length]; lia.
Qed.

End AggregatorSums.

(** X9.  The three ratios count labels without regard to case: the bullish
    ratio times the number of articles is the number of results labelled
    positive, the bearish ratio counts those labelled negative, and every
    other result, one without a label included, counts as neutral. *)
Theorem aggregator_ratios_count_labels
    (a : ArticleSentiment) (rest : list ArticleSentiment) :
  let l := a :: rest in
  let n := inject_Z (Z.of_nat (List.length l)) in
  exists s bull bear neu,
    aggregate_article_sentiments l = Some s /\
    s_bullish_ratio s = Some bull /\ s_bearish_ratio s = Some bear /\
    s_neutral_ratio s = Some neu /\
    bull * n == inject_Z (count_if labelled_positive l) /\
    bear * n == inject_Z (count_if labelled_negative l) /\
    neu * n == inject_Z (count_if labelled_neutral l) /\
    (count_if labelled_positive l + count_if labelled_negative l
     + count_if labelled_neutral l = Z.of_nat (List.length l))%Z.
Proof.
  intros l n.
  destruct (agg_fold_label_counts l acc0) as (Hp & Hn & Hu).
  change (pos_count acc0) with 0%Z in Hp. change (neg_count acc0) with 0%Z in Hn.
  change (neu_count acc0) with 0%Z in Hu. rewrite Z.add_0_l in Hp, Hn, Hu.
  pose proof (agg_fold_counts l acc0) as C. cbv zeta in C.
  destruct C as (_ & _ & _ & Hs).
  change (pos_count acc0) with 0%Z in Hs. change (neg_count acc0) with 0%Z in Hs.
  change (neu_count acc0) with 0%Z in Hs.
  assert (Hn0 : ~ n == 0).
  { unfold n, l. cbn [List.length]. rewrite Nat2Z.inj_succ.
    unfold Qeq; simpl. lia. }
  do 4 eexists.
  split; [unfold aggregate_article_sentiments, l; reflexivity|].
  cbn [s_bullish_ratio s_bearish_ratio s_neutral_ratio].
  do 3 (split; [reflexivity|]).
  fold l n. rewrite Hp, Hn, Hu.
  split; [|split; [|split]].
  - field. exact Hn0.
  - field. exact Hn0.
  - field. exact Hn0.
  - rewrite <- Hp, <- Hn, <- Hu. lia.
Qed.

Section SignalShape.

Variables (sym : string) (summary : SentimentSummary).
Variables (buy_thr sell_thr : option Q).

Let score := get (s_final_score summary) 0.
Let count := get (s_article_count summary) 0%Z.
Let buy := get buy_thr SENTIMENT_THRESHOLDS_buy.
Let sell := get sell_thr SENTIMENT_THRESHOLDS_sell.
Let sg := generate_trading_signal sym summary buy_thr sell_thr.

(** The signal and the confidence as the booleans of the code decide
    them. *)
Lemma signal_by_tests :
  signal sg
  = (if (count =? 0)%Z then "HOLD"
     else if Qle_bool buy score then "BUY"
     else if Qle_bool score sell then "SELL" else "HOLD") /\
  confidence sg
  = (if (count =? 0)%Z then "low"
     else if Qle_bool buy score
          then (if Qle_bool (buy + (15 # 100)) score then "high" else "medium")
     else if Qle_bool score sell
          then (if Qle_bool score (sell - (15 # 100)) then "high" else "medium")
     else "medium") /\
  final_score sg = score /\ article_count sg = count.
Proof.
  subst sg. unfold generate_trading_signal. fold score count buy sell.
  destruct (count =? 0)%Z; [repeat split; reflexivity|].
  destruct (Qle_bool buy score); [repeat split; reflexivity|].
  destruct (Qle_bool score sell); repeat split; reflexivity.
Qed.

End SignalShape.

(** X10.  What the generator can return: the signal is BUY, SELL or HOLD,
    the confidence is low, medium or high; the confidence is low exactly
    when the summary counts no articles, and a HOLD is never given with
    high confidence. *)
Theorem signal_values
    (sym : string) (summary : SentimentSummary) (buy_thr sell_thr : option Q) :
  let sg := generate_trading_signal sym summary buy_thr sell_thr in
  (signal sg = "BUY" \/ signal sg = "SELL" \/ signal sg = "HOLD") /\
  (confidence sg = "low" \/ confidence sg = "medium" \/ confidence sg = "high") /\
  (confidence sg = "low" <-> get (s_article_count summary) 0%Z = 0%Z) /\
  (confidence sg = "high" -> signal sg <> "HOLD").
Proof.
  cbv zeta.
  destruct (signal_by_tests sym summary buy_thr sell_thr) as (S & C & _ & _).
  rewrite S, C.
  destruct (get (s_article_count summary) 0 =? 0)%Z eqn:En.
  - apply Z.eqb_eq in En.
    split; [auto|]. split; [auto|]. split; [tauto|].
    intros H; discriminate H.
  - apply Z.eqb_neq in En.
    destruct (Qle_bool _ _); [|destruct (Qle_bool _ _)];
      try destruct (Qle_bool _ _);
      (split; [auto|]; split; [auto|]; split;
       [split; intros H; [discriminate H | contradiction]
       |intros H1; try discriminate H1; intros H2; discriminate H2]).
Qed.

Lemma signal_values_witness :
  let s := mkSummary (Some (30 # 100)) None None None (Some 4%Z)
                     None None None None in
  let sg := generate_trading_signal "AAPL" s None None in
  confidence sg = "high" /\ signal sg <> "HOLD" /\ confidence sg <> "low".
Proof.
  cbv zeta.
  destruct (signal_values "AAPL"
              (mkSummary (Some (30 # 100)) None None None (Some 4%Z)
                         None None None None) None None)
    as (_ & _ & L & H).
  split; [reflexivity|]. split; [apply H; reflexivity|].
  intros E. apply L in E. discriminate E.
Defined.

(** X11.  With the thresholds and a non-zero article count fixed, the
    decision is monotone in the score: a higher score keeps a BUY a BUY and
    keeps high confidence in it, and a lower score keeps a SELL a SELL and
    keeps high confidence in it. *)
Theorem signal_monotone_in_score
    (sym : string) (s1 s2 : SentimentSummary) (buy_thr sell_thr : option Q) :
  get (s_article_count s1) 0%Z <> 0%Z ->
  get (s_article_count s2) 0%Z <> 0%Z ->
  get (s_final_score s1) 0 <= get (s_final_score s2) 0 ->
  let g1 := generate_trading_signal sym s1 buy_thr sell_thr in
  let g2 := generate_trading_signal sym s2 buy_thr sell_thr in
  (signal g1 = "BUY" -> signal g2 = "BUY") /\
  (signal g1 = "BUY" -> confidence g1 = "high" -> confidence g2 = "high") /\
  (signal g2 = "SELL" -> signal g1 = "SELL") /\
  (signal g2 = "SELL" -> confidence g2 = "high" -> confidence g1 = "high").
Proof.
  intros N1 N2 Hle. cbv zeta.
  destruct (signal_by_tests sym s1 buy_thr sell_thr) as (S1 & C1 & _ & _).
  destruct (signal_by_tests sym s2 buy_thr sell_thr) as (S2 & C2 & _ & _).
  rewrite S1, S2, C1, C2.
  apply Z.eqb_neq in N1, N2. rewrite N1, N2.
  set (x1 := get (s_final_score s1) 0) in *.
  set (x2 := get (s_final_score s2) 0) in *.
  set (b := get buy_thr SENTIMENT_THRESHOLDS_buy).
  set (s := get sell_thr SENTIMENT_THRESHOLDS_sell).
  assert (Up : forall t, Qle_bool t x1 = true -> Qle_bool t x2 = true).
  { intros t H. apply Qle_bool_iff. apply Qle_bool_iff in H.
    eapply Qle_trans; eassumption. }
  assert (Down : forall t, Qle_bool x2 t = true -> Qle_bool x1 t = true).
  { intros t H. apply Qle_bool_iff. apply Qle_bool_iff in H.
    eapply Qle_trans; eassumption. }
  split; [|split; [|split]].
  - destruct (Qle_bool b x1) eqn:E1.
    + rewrite (Up _ E1). reflexivity.
    + destruct (Qle_bool x1 s); discriminate.
  - destruct (Qle_bool b x1) eqn:E1.
    + rewrite (Up _ E1). intros _.
      destruct (Qle_bool (b + (15 # 100)) x1) eqn:E2; [|discriminate].
      rewrite (Up _ E2). reflexivity.
    + destruct (Qle_bool x1 s); discriminate.
  - destruct (Qle_bool b x2) eqn:E2; [discriminate|].
    destruct (Qle_bool x2 s) eqn:E3; [|discriminate].
    intros _. rewrite (Down _ E3).
    destruct (Qle_bool b x1) eqn:E1; [|reflexivity].
    rewrite (Up _ E1) in E2. discriminate.
  - destruct (Qle_bool b x2) eqn:E2; [discriminate|].
    destruct (Qle_bool x2 s) eqn:E3; [|discriminate].
    intros _.
    destruct (Qle_bool x2 (s - (15 # 100))) eqn:E4; [|discriminate].
    intros _. rewrite (Down _ E3), (Down _ E4).
    destruct (Qle_bool b x1) eqn:E1; [|reflexivity].
    rewrite (Up _ E1) in E2. discriminate.
Qed.

Lemma signal_monotone_in_score_witness :
  let s (x : Q) :=
    mkSummary (Some x) None None None (Some 3%Z) None None None None in
  signal (generate_trading_signal "TSLA" (s (40 # 100)) None None) = "BUY".
Proof.
  cbv zeta.
  refine (proj1 (signal_monotone_in_score "TSLA"
                   (mkSummary (Some (5 # 100)) None None None (Some 3%Z)
                              None None None None)
                   (mkSummary (Some (40 # 100)) None None None (Some 3%Z)
                              None None None None) None None _ _ _) _).
  - discriminate.
  - discriminate.
  - discriminate.
  - reflexivity.
Defined.

(** X12.  The thresholds are not checked against each other.  When the buy
    threshold is not above the sell threshold there is no neutral band: a
    summary with articles never gives HOLD, and BUY wins where both tests
    pass. *)
Theorem signal_without_neutral_band
    (sym : string) (summary : SentimentSummary) (buy sell : Q) :
  get (s_article_count summary) 0%Z <> 0%Z ->
  buy <= sell ->
  let sg := generate_trading_signal sym summary (Some buy) (Some sell) in
  let score := get (s_final_score summary) 0 in
  (signal sg = "BUY" \/ signal sg = "SELL") /\
  (buy <= score -> signal sg = "BUY") /\
  (score < buy -> signal sg = "SELL").
Proof.
  intros N Hle. cbv zeta.
  destruct (signal_by_tests sym summary (Some buy) (Some sell))
    as (S & _ & _ & _).
  rewrite S. cbn [get]. apply Z.eqb_neq in N. rewrite N.
  set (x := get (s_final_score summary) 0).
  destruct (Qle_bool buy x) eqn:E1.
  - split; [left; reflexivity|]. split; [reflexivity|].
    intros H. apply Qle_bool_iff in E1. apply Qlt_not_le in H. contradiction.
  - assert (Hx : x < buy).
    { apply Qnot_le_lt. intro H. apply Qle_bool_iff in H. congruence. }
    assert (E2 : Qle_bool x sell = true).
    { apply Qle_bool_iff. apply Qlt_le_weak.
      eapply Qlt_le_trans; eassumption. }
    rewrite E2. split; [right; reflexivity|].
    split; [|reflexivity].
    intros H. apply Qle_bool_iff in H. congruence.
Qed.

Lemma signal_without_neutral_band_witness :
  let s := mkSummary (Some 0) None None None (Some 2%Z) None None None None in
  let sg := generate_trading_signal "INFY" s (Some 0) (Some 0) in
  signal sg = "BUY" \/ signal sg = "SELL".
Proof.
  cbv zeta.
  apply (signal_without_neutral_band "INFY"
           (mkSummary (Some 0) None None None (Some 2%Z) None None None None)
           0 0).
  - discriminate.
  - discriminate.
Defined.

(** X13.  Aggregation followed by the generator with the configured
    thresholds: the signal counts the articles given, its confidence is
    never low, a bullish view comes with BUY, a bearish view with SELL, and
    HOLD only with the mixed/neutral view. *)
Theorem aggregated_signal_agrees_with_view
    (a : ArticleSentiment) (rest : list ArticleSentiment) (sym : string) :
  exists s,
    aggregate_article_sentiments (a :: rest) = Some s /\
    let sg := generate_trading_signal sym s None None in
    article_count sg = Z.of_nat (List.length (a :: rest)) /\
    confidence sg <> "low" /\
    (sentiment_view sg = "bullish" -> signal sg = "BUY") /\
    (sentiment_view sg = "bearish" -> signal sg = "SELL") /\
    (signal sg = "HOLD" -> sentiment_view sg = "mixed/neutral").
Proof.
  eexists. split; [unfold aggregate_article_sentiments; reflexivity|].
  cbv zeta.
  match goal with
  | |- context [generate_trading_signal sym ?s None None] =>
    destruct (signal_by_tests sym s None None) as (S & C & _ & A);
      set (sm := s) in *
  end.
  rewrite S, C, A.
  assert (V : sentiment_view (generate_trading_signal sym sm None None)
              = get (s_sentiment_view sm) "mixed/neutral").
  { unfold generate_trading_signal.
    destruct (_ =? 0)%Z; [reflexivity|].
    destruct (Qle_bool _ _); [reflexivity|].
    destruct (Qle_bool _ _); reflexivity. }
  rewrite V. clear S C A V.
  unfold sm. cbn [s_article_count s_final_score s_sentiment_view get].
  set (fs := sum_score _ / _).
  assert (Hn : (Z.of_nat (List.length (a :: rest)) =? 0)%Z = false).
  { apply Z.eqb_neq. cbn [List.length]. lia. }
  rewrite Hn. split; [reflexivity|].
  destruct (Qlt_le_dec SENTIMENT_THRESHOLDS_buy fs) as [Hb | Hb].
  - assert (E : Qle_bool SENTIMENT_THRESHOLDS_buy fs = true)
      by (apply Qle_bool_iff, Qlt_le_weak; exact Hb).
    rewrite E.
    destruct (Qle_bool (SENTIMENT_THRESHOLDS_buy + _) fs); (split; [intros H; discriminate H|]); (split; [|split]); intros H; first [reflexivity | discriminate H].
  - destruct (Qlt_le_dec fs SENTIMENT_THRESHOLDS_sell) as [Hs | Hs].
    + assert (E1 : Qle_bool SENTIMENT_THRESHOLDS_buy fs = false).
      { destruct (Qle_bool _ fs) eqn:E; [|reflexivity].
        apply Qle_bool_iff in E.
        assert (SENTIMENT_THRESHOLDS_sell < SENTIMENT_THRESHOLDS_buy)
          by reflexivity.
        lra. }
      assert (E2 : Qle_bool fs SENTIMENT_THRESHOLDS_sell = true)
        by (apply Qle_bool_iff, Qlt_le_weak; exact Hs).
      rewrite E1, E2.
      destruct (Qle_bool fs (SENTIMENT_THRESHOLDS_sell - _)); (split; [intros H; discriminate H|]); (split; [|split]); intros H; first [reflexivity | discriminate H].
    + destruct (Qle_bool SENTIMENT_THRESHOLDS_buy fs);
        [destruct (Qle_bool (SENTIMENT_THRESHOLDS_buy + _) fs)
        |destruct (Qle_bool fs SENTIMENT_THRESHOLDS_sell);
         [destruct (Qle_bool fs (SENTIMENT_THRESHOLDS_sell - _))|]];
        (split; [intros H; discriminate H|]); (split; [|split]); intros H; first [reflexivity | discriminate H].
Qed.

Lemma aggregated_signal_agrees_with_view_witness :
  let l := [mkArticle (Some (6 # 10)) (Some "positive") None None None;
            mkArticle (Some (2 # 10)) (Some "neutral") None None None] in
  exists s,
    aggregate_article_sentiments l = Some s /\
    sentiment_view (generate_trading_signal "TSLA" s None None) = "bullish" /\
    signal (generate_trading_signal "TSLA" s None None) = "BUY".
Proof.
  cbv zeta.
  destruct (aggregated_signal_agrees_with_view
              (mkArticle (Some (6 # 10)) (Some "positive") None None None)
              [mkArticle (Some (2 # 10)) (Some "neutral") None None None]
              "TSLA") as (s & E & _ & _ & B & _).
  exists s. split; [exact E|].
  assert (V : sentiment_view (generate_trading_signal "TSLA" s None None)
              = "bullish").
  { injection E as <-. reflexivity. }
  split; [exact V | apply B; exact V].
Defined.

(* ================================================================== *)
(** * Stripping and splitting *)
(* ================================================================== *)

Section Strip.

Import PyText.

Lemma lstrip_all_space (s : string) : lstrip s = "" <-> all_space s = true.
Proof.
  induction s as [|c r IH]; simpl; [tauto|].
  destruct (is_space c); simpl; [exact IH|].
  split; discriminate.
Qed.

Lemma rstrip_all_space (s : string) : rstrip s = "" <-> all_space s = true.
Proof.
  induction s as [|c r IH]; simpl; [tauto|].
  destruct (rstrip r) eqn:E.
  - destruct (is_space c); simpl; [tauto|]. split; discriminate.
  - destruct (is_space c); simpl; [|split; discriminate].
    split; [discriminate|]. intros H. apply IH in H. discriminate H.
Qed.

Lemma all_space_lstrip (s : string) : all_space (lstrip s) = all_space s.
Proof.
  induction s as [|c r IH]; simpl; [reflexivity|].
  destruct (is_space c) eqn:E; simpl; [exact IH|].
  rewrite E. reflexivity.
Qed.

Lemma strip_empty_iff (s : string) : strip s = "" <-> all_space s = true.
Proof.
  unfold strip. rewrite rstrip_all_space, all_space_lstrip. tauto.
Qed.

Lemma all_space_app (a b : string) :
  all_space (a ++ b) = all_space a && all_space b.
Proof.
  induction a as [|c r IH]; simpl; [reflexivity|].
  rewrite IH, andb_assoc. reflexivity.
Qed.

Lemma lstrip_fixed (s : string) :
  lstrip s = s <->
  match s with
  | EmptyString => True
  | String c _ => is_space c = false
  end.
Proof.
  destruct s as [|c r]; simpl; [tauto|].
  destruct (is_space c) eqn:E; [|tauto].
  split; [|discriminate].
  intros H. exfalso.
  assert (L : forall x, (String.length (lstrip x) <= String.length x)%nat).
  { clear. induction x as [|c x IH]; simpl; [lia|].
    destruct (is_space c); simpl; lia. }
  pose proof (L r) as Hr. rewrite H in Hr. simpl in Hr. lia.
Qed.

Lemma lstrip_idempotent (s : string) : lstrip (lstrip s) = lstrip s.
Proof.
  induction s as [|c r IH]; simpl; [reflexivity|].
  destruct (is_space c) eqn:E; [exact IH|].
  simpl. rewrite E. reflexivity.
Qed.

Lemma rstrip_head (c : ascii) (r : string) :
  is_space c = false -> rstrip (String c r) = String c (rstrip r).
Proof.
  intros E. simpl. destruct (rstrip r); [rewrite E|]; reflexivity.
Qed.

Lemma rstrip_idempotent (s : string) : rstrip (rstrip s) = rstrip s.
Proof.
  induction s as [|c r IH]; [reflexivity|].
  cbn [rstrip]. destruct (rstrip r) as [|c' r'] eqn:E.
  - destruct (is_space c) eqn:Ec; [reflexivity|].
    simpl. rewrite Ec. reflexivity.
  - change (rstrip (String c (String c' r')))
      with (match rstrip (String c' r') with
            | EmptyString =>
              if is_space c then EmptyString else String c EmptyString
            | String x y => String c (String x y)
            end).
    rewrite IH. reflexivity.
Qed.

Lemma lstrip_rstrip (s : string) :
  lstrip s = s -> lstrip (rstrip s) = rstrip s.
Proof.
  intros H. apply lstrip_fixed in H. destruct s as [|c r]; [reflexivity|].
  rewrite (rstrip_head c r H). simpl. rewrite H. reflexivity.
Qed.

Lemma strip_idempotent (s : string) : strip (strip s) = strip s.
Proof.
  unfold strip.
  rewrite (lstrip_rstrip (lstrip s) (lstrip_idempotent s)).
  apply rstrip_idempotent.
Qed.

Lemma lstrip_length (s : string) :
  (String.length (lstrip s) <= String.length s)%nat.
Proof.
  induction s as [|c r IH]; simpl; [lia|].
  destruct (is_space c); simpl; lia.
Qed.

Lemma rstrip_length (s : string) :
  (String.length (rstrip s) <= String.length s)%nat.
Proof.
  induction s as [|c r IH]; simpl; [lia|].
  destruct (rstrip r); [destruct (is_space c)|]; simpl in *; lia.
Qed.

Lemma lstrip_same_length (s : string) :
  String.length (lstrip s) = String.length s -> lstrip s = s.
Proof.
  destruct s as [|c r]; simpl; [reflexivity|].
  destruct (is_space c); [|reflexivity].
  intros H. pose proof (lstrip_length r). lia.
Qed.

Lemma strip_fixed (s : string) : strip s = s -> lstrip s = s /\ rstrip s = s.
Proof.
  unfold strip. intros H.
  assert (L : lstrip s = s).
  { apply lstrip_same_length.
    pose proof (rstrip_length (lstrip s)) as H1.
    pose proof (lstrip_length s) as H2.
    rewrite H in H1. lia. }
  split; [exact L|]. rewrite L in H. exact H.
Qed.

Lemma strip_leading_space (s : string) : strip (String " " s) = strip s.
Proof. reflexivity. Qed.

(** Upper-casing moves no whitespace and no comma. *)
Lemma is_space_upper (c : ascii) : is_space (PyStr.upper_ascii c) = is_space c.
Proof. destruct c as [[] [] [] [] [] [] [] []]; vm_compute; reflexivity. Qed.

Lemma comma_upper (c : ascii) :
  Ascii.eqb (PyStr.upper_ascii c) "," = Ascii.eqb c ",".
Proof. destruct c as [[] [] [] [] [] [] [] []]; vm_compute; reflexivity. Qed.

Lemma lstrip_upper (s : string) : lstrip (PyStr.upper s) = PyStr.upper (lstrip s).
Proof.
  induction s as [|c r IH]; simpl; [reflexivity|].
  rewrite is_space_upper. destruct (is_space c); [exact IH|reflexivity].
Qed.

Lemma rstrip_upper (s : string) : rstrip (PyStr.upper s) = PyStr.upper (rstrip s).
Proof.
  induction s as [|c r IH]; simpl; [reflexivity|].
  rewrite IH, is_space_upper.
  destruct (rstrip r); simpl; [destruct (is_space c)|]; reflexivity.
Qed.

Lemma strip_upper (s : string) : strip (PyStr.upper s) = PyStr.upper (strip s).
Proof. unfold strip. rewrite lstrip_upper, rstrip_upper. reflexivity. Qed.

Lemma upper_empty (s : string) : PyStr.upper s = "" <-> s = "".
Proof. destruct s; simpl; split; congruence. Qed.

Lemma has_comma_upper (s : string) :
  has_char "," (PyStr.upper s) = has_char "," s.
Proof.
  induction s as [|c r IH]; simpl; [reflexivity|].
  rewrite comma_upper, IH. reflexivity.
Qed.

Lemma has_char_lstrip (x : ascii) (s : string) :
  has_char x s = false -> has_char x (lstrip s) = false.
Proof.
  induction s as [|c r IH]; simpl; [auto|].
  intros H. apply orb_false_iff in H. destruct H as [H1 H2].
  destruct (is_space c).
  - apply IH. exact H2.
  - simpl. rewrite H1, H2. reflexivity.
Qed.

Lemma has_char_rstrip (x : ascii) (s : string) :
  has_char x s = false -> has_char x (rstrip s) = false.
Proof.
  induction s as [|c r IH]; simpl; [auto|].
  intros H. apply orb_false_iff in H. destruct H as [H1 H2].
  specialize (IH H2).
  destruct (rstrip r); [destruct (is_space c)|]; simpl in *;
    rewrite ?H1, ?IH; reflexivity.
Qed.

Lemma has_char_strip (x : ascii) (s : string) :
  has_char x s = false -> has_char x (strip s) = false.
Proof. intros H. unfold strip. apply has_char_rstrip, has_char_lstrip, H. Qed.

(** ** Splitting *)

Lemma split_nonempty (sep : ascii) (s : string) : split sep s <> [].
Proof.
  destruct s as [|c r]; simpl; [discriminate|].
  destruct (Ascii.eqb c sep); [discriminate|].
  destruct (split sep r); discriminate.
Qed.

Lemma split_parts_free (sep : ascii) (s : string) :
  Forall (fun x => has_char sep x = false) (split sep s).
Proof.
  induction s as [|c r IH]; simpl.
  - repeat constructor.
  - destruct (Ascii.eqb c sep) eqn:E.
    + constructor; [reflexivity | exact IH].
    + destruct (split sep r) as [|h t]; [repeat constructor; simpl; rewrite E; reflexivity|].
      inversion IH; subst. constructor; [|assumption].
      simpl. rewrite E. assumption.
Qed.

Lemma split_free (sep : ascii) (s : string) :
  has_char sep s = false -> split sep s = [s].
Proof.
  induction s as [|c r IH]; simpl; [reflexivity|].
  intros H. apply orb_false_iff in H. destruct H as [H1 H2].
  rewrite H1, (IH H2). reflexivity.
Qed.

Lemma split_app (sep : ascii) (s r : string) :
  has_char sep s = false ->
  split sep (s ++ String sep r) = s :: split sep r.
Proof.
  induction s as [|c s IH]; simpl.
  - intros _. rewrite Ascii.eqb_refl. reflexivity.
  - intros H. apply orb_false_iff in H. destruct H as [H1 H2].
    rewrite H1, (IH H2). reflexivity.
Qed.

End Strip.

(* ================================================================== *)
(** * From an article to a classified text *)
(* ================================================================== *)

Lemma truthy_false (s : string) : PyText.truthy s = false <-> s = "".
Proof.
  unfold PyText.truthy. rewrite negb_false_iff. apply String.eqb_eq.
Qed.

Lemma truthy_true (s : string) : PyText.truthy s = true <-> s <> "".
Proof.
  unfold PyText.truthy. rewrite negb_true_iff. apply String.eqb_neq.
Qed.

Lemma nonblank_false (t : string) : nonblank t = false <-> all_space t = true.
Proof.
  unfold nonblank. rewrite truthy_false. apply strip_empty_iff.
Qed.

(** X14.  Which articles give the classifier nothing to read: the text
    built from an article is blank exactly when its title is missing, null,
    empty or all whitespace and its description is missing, null or empty.
    A description of whitespace alone still makes a text. *)
Theorem build_text_blank_iff (article : NewsArticle) :
  nonblank (build_text_from_article article) = false <->
  all_space (field_or_empty (n_title article)) = true /\
  field_or_empty (n_description article) = "".
Proof.
  rewrite nonblank_false. unfold build_text_from_article.
  destruct (PyText.truthy (field_or_empty (n_description article))) eqn:E.
  - apply truthy_true in E.
    rewrite !all_space_app. cbn [all_space].
    change (PyText.is_space ".") with false.
    rewrite andb_false_r. split; [discriminate|].
    intros [_ H]. contradiction.
  - apply truthy_false in E.
    rewrite <- (strip_empty_iff (PyText.strip _)), strip_idempotent,
      strip_empty_iff.
    tauto.
Qed.

Lemma build_text_blank_iff_witness :
  nonblank (build_text_from_article
              (mkNewsArticle (Text "  ") Null (Text "Reuters") Absent Absent))
  = false /\
  nonblank (build_text_from_article
              (mkNewsArticle Null (Text "  ") (Text "Reuters") Absent Absent))
  = true.
Proof.
  split.
  - apply (proj2 (build_text_blank_iff _)). split; reflexivity.
  - destruct (nonblank _) eqn:E; [reflexivity|].
    apply (proj1 (build_text_blank_iff _)) in E. destruct E as [_ E].
    discriminate E.
Defined.

Section Classifier.

Variable softmax_probs : string -> list (string * Q).

Lemma predict_skips (t : string) :
  (negb (PyText.truthy t) || negb (PyText.truthy (PyText.strip t)))%bool
  = negb (nonblank t).
Proof.
  unfold nonblank.
  destruct (PyText.truthy t) eqn:E; [reflexivity|].
  apply truthy_false in E. subst t. reflexivity.
Qed.

(** X15.  [predict] classifies the texts that are not blank, stripped, in
    their order, and nothing else: it returns one result per such text, so
    never more results than texts, and no result is for an empty or
    unstripped text. *)
Theorem predict_keeps_nonblank_texts (texts : list string) :
  map sr_text (predict softmax_probs texts)
  = map PyText.strip (filter nonblank texts) /\
  List.length (predict softmax_probs texts)
  = List.length (filter nonblank texts) /\
  (List.length (predict softmax_probs texts) <= List.length texts)%nat /\
  Forall (fun r => sr_text r <> "" /\ PyText.strip (sr_text r) = sr_text r)
         (predict softmax_probs texts).
Proof.
  induction texts as [|t texts (Hm & Hl & Hle & Hf)].
  - repeat split; constructor.
  - cbn [predict filter]. rewrite predict_skips.
    destruct (nonblank t) eqn:E; cbn [negb map List.length].
    + rewrite Hm, Hl. repeat split; try lia.
      constructor; [|exact Hf]. cbn [_predict_single sr_text].
      split; [apply truthy_true; exact E | apply strip_idempotent].
    + repeat split; try assumption. lia.
Qed.

Lemma lookup_set_cases {V : Type} (k k' : string) (v : V) (d : PyDict.t V) :
  PyDict.lookup k (PyDict.set k' v d)
  = if String.eqb k k' then Some v else PyDict.lookup k d.
Proof.
  destruct (String.eqb k k') eqn:E.
  - apply String.eqb_eq in E. subst k'. apply lookup_set_same.
  - apply String.eqb_neq in E. apply lookup_set_other.
    intro H. apply E. symmetry. exact H.
Qed.

Lemma label_probs_from_model (text k : string) (v : Q) :
  PyDict.lookup k (label_probs softmax_probs text) = Some v ->
  exists name, In (name, v) (softmax_probs text).
Proof.
  unfold label_probs.
  assert (G : forall l d,
             PyDict.lookup k
               (fold_left (fun d lp => PyDict.set (PyStr.lower (fst lp))
                                                  (snd lp) d) l d) = Some v ->
             (exists name, In (name, v) l) \/ PyDict.lookup k d = Some v).
  { induction l as [|[name p] l IH]; intros d H; [right; exact H|].
    cbn [fold_left fst snd] in H. destruct (IH _ H) as [(n & Hn) | Hd].
    - left. exists n. right. exact Hn.
    - rewrite lookup_set_cases in Hd.
      destruct (String.eqb k (PyStr.lower name)).
      + injection Hd as ->. left. exists name. left. reflexivity.
      + right. exact Hd. }
  intros H. destruct (G _ _ H) as [E | E]; [exact E | discriminate E].
Qed.

(** X16.  The label of a result is the class of the largest probability,
    positive before negative before neutral on ties, and the score is
    positive minus negative: a result labelled positive has a score of 0 or
    more, one labelled negative has a score below 0, and one labelled
    neutral has a neutral probability above both others. *)
Theorem predicted_label_is_largest (text : string) :
  let r := _predict_single softmax_probs text in
  sr_text r = text /\
  sr_score r = sr_positive r - sr_negative r /\
  ((sr_label r = "positive" /\ sr_negative r <= sr_positive r /\
    sr_neutral r <= sr_positive r /\ 0 <= sr_score r) \/
   (sr_label r = "negative" /\ sr_positive r < sr_negative r /\
    sr_neutral r <= sr_negative r /\ sr_score r < 0) \/
   (sr_label r = "neutral" /\ sr_positive r < sr_neutral r /\
    sr_negative r < sr_neutral r)).
Proof.
  cbv zeta. unfold _predict_single.
  cbn [sr_text sr_score sr_positive sr_negative sr_neutral sr_label].
  set (p := get (PyDict.lookup "positive" _) 0).
  set (n := get (PyDict.lookup "negative" _) 0).
  set (u := get (PyDict.lookup "neutral" _) 0).
  split; [reflexivity|]. split; [reflexivity|].
  destruct (Qle_bool n p) eqn:E1; destruct (Qle_bool u p) eqn:E2;
    destruct (Qle_bool p n) eqn:E3; destruct (Qle_bool u n) eqn:E4;
    cbn [andb];
    repeat match goal with
           | H : Qle_bool _ _ = true |- _ => apply Qle_bool_iff in H
           | H : Qle_bool ?a ?b = false |- _ =>
             assert (b < a)
               by (apply Qnot_le_lt; intro X; apply Qle_bool_iff in X;
                   congruence);
             clear H
           end;
    try (left; repeat split; [assumption | assumption | lra]);
    try (right; left; repeat split; [lra | assumption | lra]);
    try (right; right; repeat split; lra);
    exfalso; lra.
Qed.

(** X17.  When the probabilities of the model lie between 0 and 1, so do
    the three probabilities of a result, and its score lies between -1 and
    1; a class the model does not name counts with probability 0. *)
Theorem predicted_score_in_range (text : string) :
  (forall name p, In (name, p) (softmax_probs text) -> 0 <= p <= 1) ->
  let r := _predict_single softmax_probs text in
  0 <= sr_positive r <= 1 /\ 0 <= sr_negative r <= 1 /\
  0 <= sr_neutral r <= 1 /\ -(1) <= sr_score r <= 1.
Proof.
  intros H. cbv zeta.
  assert (R : forall k,
             0 <= get (PyDict.lookup k (label_probs softmax_probs text)) 0 <= 1).
  { intros k.
    destruct (PyDict.lookup k (label_probs softmax_probs text)) as [v|] eqn:E.
    - destruct (label_probs_from_model text k v E) as (name & Hin).
      exact (H name v Hin).
    - cbn [get]. split; discriminate. }
  unfold _predict_single.
  cbn [sr_score sr_positive sr_negative sr_neutral].
  pose proof (R "positive") as Rp. pose proof (R "negative") as Rn.
  pose proof (R "neutral") as Ru.
  revert Rp Rn Ru.
  generalize (get (PyDict.lookup "positive" (label_probs softmax_probs text)) 0)
             (get (PyDict.lookup "negative" (label_probs softmax_probs text)) 0)
             (get (PyDict.lookup "neutral" (label_probs softmax_probs text)) 0).
  intros p n u Rp Rn Ru. repeat split; lra.
Qed.

End Classifier.

Lemma predicted_score_in_range_witness :
  let model := fun (_ : string) =>
                 [("Neutral", 1 # 10); ("Positive", 7 # 10);
                  ("Negative", 2 # 10)] in
  let r := _predict_single model "Tesla beats earnings" in
  0 <= sr_positive r <= 1 /\ 0 <= sr_negative r <= 1 /\
  0 <= sr_neutral r <= 1 /\ -(1) <= sr_score r <= 1.
Proof.
  cbv zeta.
  apply (predicted_score_in_range
           (fun _ => [("Neutral", 1 # 10); ("Positive", 7 # 10);
                      ("Negative", 2 # 10)])).
  intros name p [H | [H | [H | []]]]; injection H as _ <-; split; discriminate.
Defined.

(* ================================================================== *)
(** * From the news of a symbol to its signal *)
(* ================================================================== *)

Lemma enrich_all_returns (pairs : list (SentimentResult * NewsArticle)) :
  forall es, enrich_all pairs = Return es ->
             map e_result es = map fst pairs /\
             List.length es = List.length pairs.
Proof.
  induction pairs as [|[res a] pairs IH]; intros es H.
  - injection H as <-. split; reflexivity.
  - cbn [enrich_all] in H. unfold enrich in H.
    destruct (field_get (n_title a) ""); [|discriminate].
    destruct (enrich_all pairs) as [others|]; [|discriminate].
    injection H as <-. destruct (IH others eq_refl) as [Hm Hl].
    cbn. rewrite Hm, Hl. split; reflexivity.
Qed.

Lemma enrich_all_raises (pairs : list (SentimentResult * NewsArticle)) :
  (Exists (fun p => n_title (snd p) = Null) pairs ->
   enrich_all pairs = Raise AttributeError) /\
  (Forall (fun p => n_title (snd p) <> Null) pairs ->
   exists es, enrich_all pairs = Return es).
Proof.
  induction pairs as [|[res a] pairs [IHr IHf]].
  - split; [intros H; inversion H | intros _; exists []; reflexivity].
  - split.
    + intros H. cbn [enrich_all]. unfold enrich.
      destruct (n_title a) eqn:E; cbn [field_get].
      * inversion H as [? ? H1 | ? ? H1]; subst;
          [cbn in H1; congruence|].
        rewrite (IHr H1). reflexivity.
      * reflexivity.
      * inversion H as [? ? H1 | ? ? H1]; subst;
          [cbn in H1; congruence|].
        rewrite (IHr H1). reflexivity.
    + intros H. inversion H as [|? ? H1 H2]; subst. cbn [snd] in H1.
      destruct (IHf H2) as (es & Hes).
      cbn [enrich_all]. unfold enrich. rewrite Hes.
      destruct (n_title a); [| contradiction |]; cbn [field_get];
        eexists; reflexivity.
Qed.

Lemma combine_snd_firstn {A B : Type} (xs : list A) (ys : list B) :
  map snd (combine xs ys) = firstn (List.length xs) (firstn (List.length xs) ys).
Proof.
  revert ys. induction xs as [|x xs IH]; intros ys; [reflexivity|].
  destruct ys as [|y ys]; [reflexivity|].
  cbn. rewrite IH. reflexivity.
Qed.

Lemma firstn_firstn_same {A : Type} (n : nat) (l : list A) :
  firstn n (firstn n l) = firstn n l.
Proof. rewrite firstn_firstn, Nat.min_id. reflexivity. Qed.

Lemma aggregate_counts_articles
    (a : ArticleSentiment) (rest : list ArticleSentiment) :
  exists s,
    aggregate_article_sentiments (a :: rest) = Some s /\
    s_article_count s = Some (Z.of_nat (List.length (a :: rest))).
Proof. eexists. split; reflexivity. Qed.

Section PipelineFacts.

Variable NEWS_SOURCE_MODE : string.
Variable NEWSAPI_KEY : option string.
Variable sample_file : SampleFile.
Variable requests_get : string -> HttpOutcome.
Variable softmax_probs : string -> list (string * Q).

Let news := get_news_for_symbol NEWS_SOURCE_MODE NEWSAPI_KEY sample_file
                                requests_get.
Let analyze := analyze_symbol NEWS_SOURCE_MODE NEWSAPI_KEY sample_file
                              requests_get softmax_probs.

(** The number of results paired with articles. *)
Let classified (articles : list NewsArticle) : nat :=
  List.length (filter nonblank (map build_text_from_article articles)).

Lemma combine_results_length (articles : list NewsArticle) :
  List.length
    (combine (predict softmax_probs (map build_text_from_article articles))
             articles)
  = classified articles.
Proof.
  destruct (predict_keeps_nonblank_texts softmax_probs
              (map build_text_from_article articles)) as (_ & Hl & Hle & _).
  rewrite length_combine, Nat.min_l; [exact Hl|].
  rewrite length_map in Hle. exact Hle.
Qed.

Lemma combine_results_articles (articles : list NewsArticle) :
  map snd
    (combine (predict softmax_probs (map build_text_from_article articles))
             articles)
  = firstn (classified articles) articles.
Proof.
  rewrite combine_snd_firstn, firstn_firstn_same.
  destruct (predict_keeps_nonblank_texts softmax_probs
              (map build_text_from_article articles)) as (_ & Hl & _).
  rewrite Hl. reflexivity.
Qed.

Lemma aggregate_none_iff (l : list ArticleSentiment) :
  aggregate_article_sentiments l = None <-> l = [].
Proof.
  destruct l; simpl; split; congruence.
Qed.

(** X18.  What the dashboard's analysis returns for a symbol whose news
    came back: the signal carries the symbol; there is one enriched result
    per text that is not blank; with no such text the signal is HOLD with
    confidence low and counts all the articles fetched; otherwise the
    confidence is not low and the signal counts the classified texts. *)
Theorem analyze_symbol_result
    (sym : string) (buy_thr sell_thr : Q)
    (articles : list NewsArticle) (sg : TradingSignal)
    (enriched : list Enriched) :
  news sym = Return articles ->
  analyze sym buy_thr sell_thr = Return (sg, enriched) ->
  symbol sg = sym /\
  List.length enriched = classified articles /\
  (enriched = [] ->
   signal sg = "HOLD" /\ confidence sg = "low" /\
   article_count sg = Z.of_nat (List.length articles)) /\
  (enriched <> [] ->
   confidence sg <> "low" /\
   article_count sg = Z.of_nat (List.length enriched)).
Proof.
  intros Hn Ha. subst analyze news. unfold analyze_symbol in Ha.
  rewrite Hn in Ha.
  destruct articles as [|a0 rest].
  { injection Ha as <- <-.
    split; [reflexivity|]. split; [reflexivity|].
    split; [intros _; split; [|split]; reflexivity|].
    intros H. contradiction. }
  set (articles := a0 :: rest) in *.
  destruct (enrich_all _) as [es|] eqn:Ee; [|discriminate].
  destruct (enrich_all_returns _ _ Ee) as [_ Hlen].
  rewrite combine_results_length in Hlen.
  destruct (aggregate_article_sentiments (map enriched_sentiment es))
    as [summary|] eqn:Eg.
  - injection Ha as <- <-.
    assert (Hes : es <> []).
    { intro H. subst es. discriminate Eg. }
    destruct es as [|e es']; [contradiction|].
    cbn [map] in Eg.
    destruct (aggregate_counts_articles
                (enriched_sentiment e) (map enriched_sentiment es'))
      as (s' & Es' & Hc).
    rewrite Es' in Eg. injection Eg as <-.
    destruct (signal_by_tests sym s' (Some buy_thr) (Some sell_thr))
      as (_ & _ & _ & A).
    destruct (signal_values sym s' (Some buy_thr) (Some sell_thr))
      as (_ & _ & L & _).
    split; [apply signal_symbol|]. split; [exact Hlen|].
    split; [intros H; discriminate H|]. intros _.
    rewrite A, Hc. cbn [get List.length]. rewrite length_map.
    split; [|reflexivity].
    intros H. apply L in H. rewrite Hc in H. cbn [get List.length] in H. lia.
  - injection Ha as <- <-. apply aggregate_none_iff in Eg.
    apply map_eq_nil in Eg. subst es.
    split; [reflexivity|]. split; [exact Hlen|].
    split; [intros _; split; [|split]; reflexivity|].
    intros H. contradiction.
Qed.

(** X19.  The analysis fails on a null title, and only there: once the
    news came back, it raises AttributeError when one of the articles that
    get paired with a result has a null title, and returns a signal when
    none has.  Articles are paired from the front, one per text that is not
    blank. *)
Theorem analyze_symbol_raises_on_null_title
    (sym : string) (buy_thr sell_thr : Q) (articles : list NewsArticle) :
  news sym = Return articles ->
  (Exists (fun a => n_title a = Null) (firstn (classified articles) articles) ->
   analyze sym buy_thr sell_thr = Raise AttributeError) /\
  (Forall (fun a => n_title a <> Null) (firstn (classified articles) articles) ->
   exists sg enriched, analyze sym buy_thr sell_thr = Return (sg, enriched)).
Proof.
  intros Hn. subst analyze news. unfold analyze_symbol. rewrite Hn.
  destruct articles as [|a0 rest].
  { split; [intros H; inversion H|].
    intros _. eexists. eexists. reflexivity. }
  set (articles := a0 :: rest) in *.
  set (pairs := combine _ articles).
  destruct (enrich_all_raises pairs) as [R F].
  assert (Hs : map snd pairs = firstn (classified articles) articles)
    by apply combine_results_articles.
  split.
  - intros H. rewrite R; [reflexivity|].
    rewrite <- Hs in H. apply Exists_exists in H.
    destruct H as (a & Hin & Ha). apply in_map_iff in Hin.
    destruct Hin as (p & <- & Hp). apply Exists_exists. exists p. tauto.
  - intros H. destruct F as (es & Hes).
    { rewrite <- Hs in H. rewrite Forall_forall in H. apply Forall_forall.
      intros p Hp. apply H. apply in_map. exact Hp. }
    rewrite Hes.
    destruct (aggregate_article_sentiments _); eexists; eexists; reflexivity.
Qed.

(** X20.  The command line and the dashboard run the same analysis: with
    the configured thresholds the dashboard's signal is the one main.py
    computes, and both fail on the same inputs with the same exception. *)
Theorem cli_matches_dashboard (sym : string) :
  analyze_symbol_news NEWS_SOURCE_MODE NEWSAPI_KEY sample_file requests_get
                      softmax_probs sym
  = match analyze sym SENTIMENT_THRESHOLDS_buy SENTIMENT_THRESHOLDS_sell with
    | Return (sg, _) => Return sg
    | Raise e => Raise e
    end.
Proof.
  subst analyze. unfold analyze_symbol_news, analyze_symbol.
  destruct (get_news_for_symbol _ _ _ _ _) as [[|a0 rest]|]; try reflexivity.
  destruct (enrich_all _) as [es|]; [|reflexivity].
  destruct (aggregate_article_sentiments _); reflexivity.
Qed.

(** X21.  A symbol without news is never traded: when the news of a symbol
    comes back empty, its signal is HOLD with confidence low, and the
    signal loop of the ledger leaves every state as it is on that signal,
    whatever the book holds. *)
Theorem no_news_no_trade
    (sym : string) (buy_thr sell_thr : Q)
    (yf_download : nat -> string -> option Q)
    (approx_equity : Q) (now_iso : Timestamp) (st : ApplyState) :
  news sym = Return [] ->
  exists sg,
    analyze sym buy_thr sell_thr = Return (sg, []) /\
    signal sg = "HOLD" /\ confidence sg = "low" /\
    apply_signal yf_download approx_equity now_iso st sg = st.
Proof.
  intros Hn. subst analyze news. unfold analyze_symbol. rewrite Hn.
  exists (no_news_signal sym). repeat split.
Qed.

End PipelineFacts.

(** Two articles come back, the second without title or description: one
    text is classified, the signal counts one article. *)
Lemma analyze_symbol_result_witness :
  let http := fun (_ : string) =>
    HttpResponse 200
      (JsonObject
         (ArticlesList
            [mkRawArticle (Text "Tesla beats earnings") Null SourceNull
                          Absent Absent;
             mkRawArticle Null Null SourceNull Absent Absent])) in
  let model := fun (_ : string) =>
    [("Neutral", 1 # 10); ("Positive", 7 # 10); ("Negative", 2 # 10)] in
  exists sg enriched,
    analyze_symbol "api" (Some "key") FileMissing http model "TSLA"
                   (2 # 100) (-(2 # 100)) = Return (sg, enriched) /\
    symbol sg = "TSLA" /\ List.length enriched = 1%nat /\
    article_count sg = 1%Z.
Proof.
  cbv zeta. eexists. eexists. split; [reflexivity|].
  match goal with
  | |- symbol ?sg = _ /\ List.length ?en = _ /\ _ =>
    destruct (analyze_symbol_result "api" (Some "key") FileMissing
                (fun _ =>
                   HttpResponse 200
                     (JsonObject
                        (ArticlesList
                           [mkRawArticle (Text "Tesla beats earnings") Null
                                         SourceNull Absent Absent;
                            mkRawArticle Null Null SourceNull Absent Absent])))
                (fun _ => [("Neutral", 1 # 10); ("Positive", 7 # 10);
                           ("Negative", 2 # 10)])
                "TSLA" (2 # 100) (-(2 # 100)) _ sg en eq_refl eq_refl)
      as (H1 & H2 & _ & H4)
  end.
  split; [exact H1|]. split; [exact H2|].
  apply H4. discriminate.
Defined.

(** An article with a null title and a description is classified, and the
    analysis fails on it. *)
Lemma analyze_symbol_raises_on_null_title_witness :
  let http := fun (_ : string) =>
    HttpResponse 200
      (JsonObject
         (ArticlesList
            [mkRawArticle Null (Text "Shares fall") SourceNull Absent Absent])) in
  let model := fun (_ : string) => [("Negative", 8 # 10)] in
  analyze_symbol "api" (Some "key") FileMissing http model "INFY"
                 (2 # 100) (-(2 # 100)) = Raise AttributeError.
Proof.
  cbv zeta.
  apply (proj1 (analyze_symbol_raises_on_null_title
                  "api" (Some "key") FileMissing
                  (fun _ =>
                     HttpResponse 200
                       (JsonObject
                          (ArticlesList
                             [mkRawArticle Null (Text "Shares fall") SourceNull
                                           Absent Absent])))
                  (fun _ => [("Negative", 8 # 10)])
                  "INFY" (2 # 100) (-(2 # 100)) _ eq_refl)).
  left. reflexivity.
Defined.

(** NewsAPI times out: the symbol gets HOLD and the ledger does nothing. *)
Lemma no_news_no_trade_witness :
  let http := fun (_ : string) => HttpReadTimeout in
  let model := fun (_ : string) => [("Positive", 1)] in
  let st := mkApplyState 1000 [("AAPL", mkPosition 5 100)] 0 [] 0 in
  exists sg,
    analyze_symbol "api" (Some "key") FileMissing http model "AAPL"
                   (2 # 100) (-(2 # 100)) = Return (sg, []) /\
    signal sg = "HOLD" /\ confidence sg = "low" /\
    apply_signal (fun _ _ => Some 120) 1500 (Ts 4) st sg = st.
Proof.
  cbv zeta.
  apply (no_news_no_trade "api" (Some "key") FileMissing
           (fun _ => HttpReadTimeout) (fun _ => [("Positive", 1)])
           "AAPL" (2 # 100) (-(2 # 100))).
  reflexivity.
Defined.

(* ================================================================== *)
(** * The news fetcher *)
(* ================================================================== *)

Lemma normalize_article_complete (a : RawArticle) :
  complete (normalize_article a).
Proof.
  unfold complete, normalize_article, source_name, field_filled.
  cbn [n_title n_description n_source n_published_at n_url].
  destruct a as [t d s p u].
  cbn [raw_title raw_description raw_source raw_publishedAt raw_url].
  repeat split;
    [destruct t | destruct d | destruct s as [| |[]] | destruct p | destruct u];
    discriminate.
Qed.



(* ================================================================== *)
(** * The alert message *)
(* ================================================================== *)

Lemma prefix_empty (s : string) : String.prefix "" s = true.
Proof. destruct s; reflexivity. Qed.

Lemma signal_line_dash (s : TradingSignal) :
  String.prefix "- " (signal_line s) = true.
Proof.
  unfold signal_line.
  change ("- " ++ ?x) with (String "-" (String " " x)).
  set (rest := symbol s ++ _). simpl. apply prefix_empty.
Qed.

Lemma prefix_dash_other (c : ascii) (x : string) :
  Ascii.eqb c "-" = false -> String.prefix "- " (String c x) = false.
Proof.
  intros E. cbn [String.prefix].
  destruct (ascii_dec "-" c) as [H | H]; [|reflexivity].
  subst c. discriminate E.
Qed.

Lemma no_dash_lines (ls : list string) :
  Forall (fun l => String.prefix "- " l = false) ls ->
  filter (String.prefix "- ") ls = [].
Proof.
  induction 1 as [|l ls Hl _ IH]; [reflexivity|].
  cbn [filter]. rewrite Hl. exact IH.
Qed.

Lemma filter_dash_signal_lines (l : list TradingSignal) :
  filter (String.prefix "- ") (map signal_line l) = map signal_line l.
Proof.
  induction l as [|s l IH]; [reflexivity|].
  cbn [map filter]. rewrite signal_line_dash, IH. reflexivity.
Qed.

(** X23.  The alert has one line per signal that is exactly BUY or SELL, in
    the order of the signals, and these are its only lines that start with
    a dash; it has nine other lines whatever the signals are; and it says
    that there are no actionable signals exactly when there is none. *)
Theorem alert_lists_actionable_signals
    (all_signals : list TradingSignal) (portfolio_snapshot : Snapshot) :
  let lines := alert_lines all_signals portfolio_snapshot in
  filter (String.prefix "- ") lines
  = map signal_line (filter actionable all_signals) /\
  List.length lines
  = (9 + List.length (filter actionable all_signals))%nat /\
  (In "No actionable signals (all HOLD)." lines <->
   filter actionable all_signals = []).
Proof.
  cbv zeta. unfold alert_lines.
  set (head := [PROJECT_NAME ++ _; ""]).
  match goal with
  | |- context [List.app head (List.app _ ?t)] => set (tail := t)
  end.
  assert (Hh : filter (String.prefix "- ") head = []) by reflexivity.
  assert (Ht : filter (String.prefix "- ") tail = []).
  { apply no_dash_lines. unfold tail. cbn [String.append].
    repeat constructor; apply prefix_dash_other; reflexivity. }
  assert (Hn : ~ In "No actionable signals (all HOLD)." tail).
  { unfold tail. cbn [In String.append].
    intros [H | [H | [H | [H | [H | [H | []]]]]]]; discriminate H. }
  destruct (filter actionable all_signals) as [|a acts].
  - split; [|split].
    + rewrite !filter_app, Hh, Ht. reflexivity.
    + reflexivity.
    + split; [reflexivity|]. intros _. right. right. left. reflexivity.
  - split; [|split].
    + rewrite !filter_app, Hh, Ht, app_nil_r. cbn [List.app].
      change ("Signals:" :: map signal_line (a :: acts))
        with (["Signals:"] ++ map signal_line (a :: acts))%list.
      rewrite filter_app, filter_dash_signal_lines. reflexivity.
    + rewrite !length_app. unfold head, tail.
      cbn [List.length]. rewrite length_map. cbn [List.length]. lia.
    + split; [|discriminate].
      intros H. exfalso.
      apply in_app_or in H. destruct H as [[H | [H | []]] | H];
        try discriminate H.
      apply in_app_or in H. destruct H as [[H | H] | H];
        [discriminate H | | exact (Hn H)].
      apply in_map_iff in H. destruct H as (s & Hs & _).
      pose proof (signal_line_dash s) as D. rewrite Hs in D.
      discriminate D.
Qed.

Lemma alert_lists_actionable_signals_witness :
  let snap := mkSnapshot 75000 100000 0 0 [] in
  In "No actionable signals (all HOLD)."
     (alert_lines [order "TSLA" "HOLD"; order "INFY" "hold"] snap).
Proof.
  cbv zeta.
  apply (proj2 (proj2 (proj2 (alert_lists_actionable_signals
                                [order "TSLA" "HOLD"; order "INFY" "hold"]
                                (mkSnapshot 75000 100000 0 0 []))))).
  reflexivity.
Defined.

(** X24.  For a signal made by the generator the alert and the ledger agree
    on what is actionable: the signal string is already upper case, so the
    alert lists the signal exactly when the ledger reads it as a BUY or a
    SELL, that is when it is not HOLD. *)
Theorem generated_signal_alerted_iff_traded
    (sym : string) (summary : SentimentSummary) (buy_thr sell_thr : option Q) :
  let sg := generate_trading_signal sym summary buy_thr sell_thr in
  PyStr.upper (signal sg) = signal sg /\
  (actionable sg = true <->
   PyStr.upper (signal sg) = "BUY" \/ PyStr.upper (signal sg) = "SELL") /\
  (actionable sg = false <-> signal sg = "HOLD").
Proof.
  cbv zeta.
  destruct (signal_values sym summary buy_thr sell_thr) as (S & _).
  unfold actionable.
  destruct S as [S | [S | S]]; rewrite S; cbn.
  - split; [reflexivity|]. split; split; auto; discriminate.
  - split; [reflexivity|]. split; split; auto; discriminate.
  - split; [reflexivity|]. split; split; auto; try discriminate.
    intros [H | H]; discriminate H.
Qed.

Lemma generated_signal_alerted_iff_traded_witness :
  let s := mkSummary (Some (30 # 100)) None None None (Some 4%Z)
                     None None None None in
  actionable (generate_trading_signal "AAPL" s None None) = true.
Proof.
  cbv zeta.
  apply (proj2 (proj1 (proj2 (generated_signal_alerted_iff_traded
                                "AAPL"
                                (mkSummary (Some (30 # 100)) None None None
                                           (Some 4%Z) None None None None)
                                None None)))).
  left. reflexivity.
Defined.

(* ================================================================== *)
(** * The watchlist of the dashboard *)
(* ================================================================== *)

Lemma watchlist_entry (x : string) :
  has_char "," x = false -> PyText.truthy (PyText.strip x) = true ->
  watchlist_symbol (PyStr.upper (PyText.strip x)).
Proof.
  intros Hc Ht. unfold watchlist_symbol.
  split; [|split; [|split]].
  - intros E. exact (proj1 (truthy_true _) Ht (proj1 (upper_empty _) E)).
  - apply upper_idempotent.
  - rewrite strip_upper, strip_idempotent. reflexivity.
  - rewrite has_comma_upper. apply has_char_strip. exact Hc.
Qed.

(** X25.  Whatever is typed into the watchlist box, every symbol the
    dashboard analyses is not empty, is upper case, has no whitespace
    around it and contains no comma; so every signal the dashboard asks the
    generator for carries an upper-case symbol. *)
Theorem watchlist_symbols_normalized (watchlist_str : string) :
  Forall (fun sym =>
            watchlist_symbol sym /\
            forall summary buy_thr sell_thr,
              let sg := generate_trading_signal sym summary buy_thr sell_thr in
              PyStr.upper (symbol sg) = symbol sg)
         (current_watchlist watchlist_str).
Proof.
  unfold current_watchlist. apply Forall_forall.
  intros sym Hin. apply in_map_iff in Hin. destruct Hin as (x & <- & Hx).
  apply filter_In in Hx. destruct Hx as [Hx Ht].
  pose proof (split_parts_free "," watchlist_str) as F.
  rewrite Forall_forall in F.
  destruct (watchlist_entry x (F x Hx) Ht) as (H1 & H2 & H3 & H4).
  split; [repeat split; assumption|].
  intros summary b s. cbv zeta. rewrite signal_symbol. exact H2.
Qed.

Section RoundTrip.

Let pick (xs : list string) : list string :=
  map (fun s => PyStr.upper (PyText.strip s))
      (filter (fun s => PyText.truthy (PyText.strip s)) xs).

Lemma pick_symbol (a : string) (xs : list string) :
  watchlist_symbol a ->
  pick (a :: xs) = a :: pick xs /\ pick (String " " a :: xs) = a :: pick xs.
Proof.
  intros (Hne & Hu & Hs & _). unfold pick. cbn [filter].
  rewrite strip_leading_space, Hs.
  apply truthy_true in Hne. rewrite Hne. cbn [map].
  rewrite strip_leading_space, Hs, Hu. split; reflexivity.
Qed.

Lemma join_cons (a b : string) (l : list string) :
  PyStr.join ", " (a :: b :: l)
  = a ++ String "," (String " " (PyStr.join ", " (b :: l))).
Proof. reflexivity. Qed.

Lemma split_joined (l : list string) :
  l <> [] -> Forall watchlist_symbol l ->
  pick (PyText.split "," (PyStr.join ", " l)) = l /\
  pick (PyText.split "," (String " " (PyStr.join ", " l))) = l.
Proof.
  induction l as [|a l IH]; intros Hne F; [contradiction|].
  inversion F as [|? ? Ha Fl]; subst.
  assert (Hc : has_char "," a = false) by apply Ha.
  assert (Hc' : has_char "," (String " " a) = false) by (simpl; exact Hc).
  destruct l as [|b l].
  - cbn [PyStr.join]. rewrite (split_free "," a Hc), (split_free "," _ Hc').
    destruct (pick_symbol a [] Ha) as [P1 P2]. rewrite P1, P2.
    split; reflexivity.
  - destruct (IH ltac:(discriminate) Fl) as [_ IH2].
    rewrite join_cons.
    change (String " " (a ++ String "," ?r))
      with ((String " " a) ++ String "," r).
    rewrite (split_app "," a _ Hc), (split_app "," (String " " a) _ Hc').
    destruct (pick_symbol a
                (PyText.split "," (String " " (PyStr.join ", " (b :: l)))) Ha)
      as [P1 P2].
    rewrite P1, P2, IH2. split; reflexivity.
Qed.

(** X26.  The watchlist box round-trips: a list of symbols that are not
    empty, upper case, stripped and free of commas, written into the box
    joined by ", " as the dashboard does with the configured watchlist, is
    read back as the same list. *)
Theorem watchlist_round_trip (symbols : list string) :
  Forall watchlist_symbol symbols ->
  current_watchlist (PyStr.join ", " symbols) = symbols.
Proof.
  intros F. destruct symbols as [|a l]; [reflexivity|].
  apply (split_joined (a :: l)); [discriminate | exact F].
Qed.

End RoundTrip.

(** The configured watchlist is read back from the box as it is. *)
Lemma watchlist_round_trip_witness :
  current_watchlist (PyStr.join ", " WATCHLIST) = WATCHLIST.
Proof.
  apply watchlist_round_trip.
  repeat constructor; discriminate.
Defined.

(* ================================================================== *)
(** * Sending the alert *)
(* ================================================================== *)

(** X27.  The alert of a run reaches Twilio only when alerts are enabled
    and the account SID, the token and both numbers are set, and then
    exactly once, with the message built for the run, from and to the
    configured numbers; with alerts off or a setting missing nothing is
    posted, and an error of Twilio is reported, not raised. *)
Theorem alert_posted_only_when_configured
    (ENABLE_WHATSAPP_ALERTS : bool)
    (TWILIO_ACCOUNT_SID TWILIO_AUTH_TOKEN : string)
    (TWILIO_WHATSAPP_FROM TWILIO_WHATSAPP_TO : string)
    (twilio_create : string -> string -> string -> Result string)
    (all_signals : list TradingSignal) (portfolio_snapshot : Snapshot) :
  let body := build_alert_message all_signals portfolio_snapshot in
  let sent := send_whatsapp_alerts_for_run
                ENABLE_WHATSAPP_ALERTS TWILIO_ACCOUNT_SID TWILIO_AUTH_TOKEN
                TWILIO_WHATSAPP_FROM TWILIO_WHATSAPP_TO twilio_create
                all_signals portfolio_snapshot in
  let configured :=
    ENABLE_WHATSAPP_ALERTS = true /\ TWILIO_ACCOUNT_SID <> "" /\
    TWILIO_AUTH_TOKEN <> "" /\ TWILIO_WHATSAPP_FROM <> "" /\
    TWILIO_WHATSAPP_TO <> "" in
  (configured ->
   match twilio_create body TWILIO_WHATSAPP_FROM TWILIO_WHATSAPP_TO with
   | Return sid =>
     sent = Posted body TWILIO_WHATSAPP_FROM TWILIO_WHATSAPP_TO sid
   | Raise e =>
     sent = PostFailed body TWILIO_WHATSAPP_FROM TWILIO_WHATSAPP_TO e
   end) /\
  (~ configured -> sent = AlertsOff \/ sent = NotConfigured) /\
  (ENABLE_WHATSAPP_ALERTS = false -> sent = AlertsOff).
Proof.
  cbv zeta. unfold send_whatsapp_alerts_for_run, send_whatsapp_message.
  destruct ENABLE_WHATSAPP_ALERTS; cbn [negb].
  - destruct (PyText.truthy TWILIO_ACCOUNT_SID) eqn:E1;
      destruct (PyText.truthy TWILIO_AUTH_TOKEN) eqn:E2;
      destruct (PyText.truthy TWILIO_WHATSAPP_FROM) eqn:E3;
      destruct (PyText.truthy TWILIO_WHATSAPP_TO) eqn:E4;
      cbn [negb orb];
      repeat match goal with
             | H : PyText.truthy _ = true |- _ => apply truthy_true in H
             | H : PyText.truthy _ = false |- _ => apply truthy_false in H
             end;
      (split; [|split; [|discriminate]]);
      try (intros (_ & H1 & H2 & H3 & H4); congruence);
      try (intros _; right; reflexivity).
    + intros _. destruct (twilio_create _ _ _); reflexivity.
    + intros H. exfalso. apply H. repeat split; assumption.
  - split; [intros (H & _); discriminate H|].
    split; [intros _; left; reflexivity | reflexivity].
Qed.

Lemma alert_posted_only_when_configured_witness :
  let snap := mkSnapshot 75000 100000 0 0 [] in
  send_whatsapp_alerts_for_run
    true "AC123" "" "whatsapp:+14155238886" "whatsapp:+910000000000"
    (fun _ _ _ => Return "SM1") [order "TSLA" "BUY"] snap = NotConfigured /\
  send_whatsapp_alerts_for_run
    false "AC123" "token" "whatsapp:+14155238886" "whatsapp:+910000000000"
    (fun _ _ _ => Return "SM1") [order "TSLA" "BUY"] snap = AlertsOff.
Proof.
  cbv zeta. split.
  - destruct (proj1 (proj2 (alert_posted_only_when_configured
                              true "AC123" "" "whatsapp:+14155238886"
                              "whatsapp:+910000000000"
                              (fun _ _ _ => Return "SM1")
                              [order "TSLA" "BUY"]
                              (mkSnapshot 75000 100000 0 0 []))))
      as [H | H].
    + intros (_ & _ & H & _). apply H. reflexivity.
    + discriminate H.
    + exact H.
  - apply (proj2 (proj2 (alert_posted_only_when_configured
                           false "AC123" "token" "whatsapp:+14155238886"
                           "whatsapp:+910000000000"
                           (fun _ _ _ => Return "SM1")
                           [order "TSLA" "BUY"]
                           (mkSnapshot 75000 100000 0 0 [])))).
    reflexivity.
Defined.
